(** * go-sql-spanner: the database/sql driver for Cloud Spanner (driver.go)

    A shallow embedding of [driver.go]: the connector registry of [Driver],
    the reference-counted [connector], and the per-caller [conn] with its
    transaction / batch state machine.  Go values are modelled as follows.

    - strings are byte strings ([string], one [ascii] per byte);
    - [map[string]T] is a [gmap string T];
    - pointers to connectors are locations into a heap of connectors, so
      that two connections opened with one descriptor alias one connector;
    - [int32] / [int64] arithmetic wraps around explicitly;
    - a Go [error] is [option error] ([None] is [nil]);
    - the backing Spanner clients are an oracle ([backend]) whose answers may
      depend on the history of requests; every request is appended to a log;
    - a run-time panic is an explicit result;
    - the code runs sequentially: [context.Context] arguments and the
      mutex of the registry are left out. *)

From Stdlib Require Import ZArith List String Ascii Bool Lia.
From stdpp Require Import gmap strings.
Import ListNotations.
Local Open Scope string_scope.
Local Open Scope Z_scope.

(** ** Errors *)

Module codes.
(** The gRPC status codes the driver produces or inspects. *)
Inductive Code :=
| InvalidArgument
| FailedPrecondition
| Aborted
| Unknown
| Other (n : Z).
End codes.

(** Go [error] values seen by callers of the driver. *)
Inductive error :=
| SpannerError (code : codes.Code) (msg : string)
    (* spanner.ToSpannerError(status.Error(code, msg)) *)
| StatusError (code : codes.Code) (msg : string)
    (* status.Errorf(code, msg), not wrapped *)
| ErrBadConn
    (* driver.ErrBadConn *)
| ErrAbortedDueToConcurrentModification
| BackendError (code : codes.Code) (msg : string).
    (* an error produced by the backing client *)

Definition ErrCode (e : error) : codes.Code :=
  match e with
  | SpannerError c _ | StatusError c _ | BackendError c _ => c
  | ErrBadConn => codes.Unknown
  | ErrAbortedDueToConcurrentModification => codes.Aborted
  end.

(** The result of running Go code that may panic. *)
Inductive run (A : Type) :=
| Returns (a : A)
| Panics (why : string).
Arguments Returns {A} a.
Arguments Panics {A} why.

(** ** A backtracking matcher for Go regular expressions

    [regexp.FindStringSubmatch] returns the leftmost match, and among the
    matches at that position the one a backtracking search finds first
    (greedy operators try the longer alternative first).  Every atom of
    [dsnRegExp] is an ASCII class or [.], so matching bytes and matching
    runes agree. *)

Module regexp.

Inductive Regexp :=
| Empty
| Class (p : ascii -> bool)
| Cat (r1 r2 : Regexp)
| Alt (r1 r2 : Regexp)
| Star (r : Regexp)
| Group (n : nat) (r : Regexp).

Definition Plus (r : Regexp) : Regexp := Cat r (Star r).
Definition Quest (r : Regexp) : Regexp := Alt r Empty.

Definition Lit (c : ascii) : Regexp := Class (Ascii.eqb c).

Fixpoint Literal (s : list ascii) : Regexp :=
  match s with
  | [] => Empty
  | [c] => Lit c
  | c :: s' => Cat (Lit c) (Literal s')
  end.

(** Submatches found so far: group number and text, newest first. *)
Definition caps := list (nat * list ascii).

Fixpoint cap (c : caps) (n : nat) : option (list ascii) :=
  match c with
  | [] => None
  | (m, s) :: c' => if Nat.eqb m n then Some s else cap c' n
  end.

Definition cont := list ascii -> caps -> option caps.

(** [matchHere r k s c] matches [r] at the front of [s] and hands the
    rest of the input to [k]; [None] asks the caller to backtrack. *)
Fixpoint matchHere (r : Regexp) (k : cont) (s : list ascii) (c : caps)
  : option caps :=
  match r with
  | Empty => k s c
  | Class p =>
      match s with
      | a :: s' => if p a then k s' c else None
      | [] => None
      end
  | Cat r1 r2 => matchHere r1 (matchHere r2 k) s c
  | Alt r1 r2 =>
      match matchHere r1 k s c with
      | Some c' => Some c'
      | None => matchHere r2 k s c
      end
  | Star r' =>
      (fix loop (fuel : nat) (s : list ascii) (c : caps) : option caps :=
         match fuel with
         | O => k s c
         | S fuel' =>
             match matchHere r'
                     (fun s' c' =>
                        if (length s' <? length s)%nat
                        then loop fuel' s' c' else None) s c with
             | Some c' => Some c'
             | None => k s c
             end
         end) (length s) s c
  | Group n r' =>
      matchHere r'
        (fun s' c' =>
           k s' ((n, firstn (length s - length s') s) :: c')) s c
  end.

(** Leftmost match: try every start offset in turn. Group 0 is the
    whole match. *)
Fixpoint search (r : Regexp) (s : list ascii) : option caps :=
  match matchHere (Group 0 r) (fun _ c => Some c) s [] with
  | Some c => Some c
  | None =>
      match s with
      | [] => None
      | _ :: s' => search r s'
      end
  end.

(** [FindStringSubmatch]: [nil] without a match, else one string per
    group, the empty string for a group that did not take part. *)
Definition FindStringSubmatch (r : Regexp) (numSubexp : nat) (s : string)
  : option (list string) :=
  match search r (list_ascii_of_string s) with
  | None => None
  | Some c =>
      Some (map (fun i =>
                   match cap c i with
                   | Some t => string_of_list_ascii t
                   | None => ""
                   end) (seq 0 (S numSubexp)))
  end.

End regexp.

(** ** Go library functions used by the driver *)

Module strings.

(** [strings.Split(s, sep)] for a one-byte separator. *)
Fixpoint splitBytes (sep : ascii) (s cur : list ascii) : list (list ascii) :=
  match s with
  | [] => [rev cur]
  | a :: s' =>
      if Ascii.eqb a sep then rev cur :: splitBytes sep s' []
      else splitBytes sep s' (a :: cur)
  end.

Definition Split (s : string) (sep : ascii) : list string :=
  map string_of_list_ascii (splitBytes sep (list_ascii_of_string s) []).

(** [strings.SplitN(s, sep, 2)] for a one-byte separator: cut at the
    first separator, if there is one. *)
Fixpoint cut (sep : ascii) (s cur : list ascii) : list (list ascii) :=
  match s with
  | [] => [rev cur]
  | a :: s' =>
      if Ascii.eqb a sep then [rev cur; s'] else cut sep s' (a :: cur)
  end.

Definition SplitN2 (s : string) (sep : ascii) : list string :=
  map string_of_list_ascii (cut sep (list_ascii_of_string s) []).

End strings.

Module strconv.

(** [strconv.ParseBool]: [None] stands for a syntax error. *)
Definition ParseBool (s : string) : option bool :=
  if existsb (String.eqb s) ["1"; "t"; "T"; "TRUE"; "true"; "True"]
  then Some true
  else if existsb (String.eqb s) ["0"; "f"; "F"; "FALSE"; "false"; "False"]
  then Some false
  else None.

Definition isDigit (a : ascii) : bool :=
  ((48 <=? nat_of_ascii a) && (nat_of_ascii a <=? 57))%nat.

Fixpoint digits (s : list ascii) (acc : Z) : option Z :=
  match s with
  | [] => Some acc
  | a :: s' =>
      if isDigit a
      then digits s' (10 * acc + (Z.of_nat (nat_of_ascii a) - 48))
      else None
  end.

(** [strconv.ParseUint(s, 10, 64)]: digits only, value below 2^64. *)
Definition ParseUint (s : string) : option Z :=
  match list_ascii_of_string s with
  | [] => None
  | l =>
      match digits l 0 with
      | Some n => if n <? 2 ^ 64 then Some n else None
      | None => None
      end
  end.

End strconv.

(** A [float64], kept as its bit pattern: the driver only stores it. *)
Record float64 := { float64bits : Z }.

(** ** The connection descriptor *)

Definition inRange (lo hi : ascii) (a : ascii) : bool :=
  ((nat_of_ascii lo <=? nat_of_ascii a)
   && (nat_of_ascii a <=? nat_of_ascii hi))%nat.

Definition oneOf (s : string) (a : ascii) : bool :=
  existsb (Ascii.eqb a) (list_ascii_of_string s).

(** [\w] *)
Definition wordChar (a : ascii) : bool :=
  inRange "0" "9" a || inRange "A" "Z" a || inRange "a" "z" a
  || Ascii.eqb a "_".

(** [.] matches every character but the line feed. *)
Definition anyCharNotNL (a : ascii) : bool :=
  negb (Ascii.eqb a (ascii_of_nat 10)).

Definition lit (s : string) : regexp.Regexp :=
  regexp.Literal (list_ascii_of_string s).

(** The numbered groups of [dsnRegExp], in the order of their opening
    parentheses. *)
Definition HOSTGROUP : nat := 2.
Definition PROJECTGROUP : nat := 3.
Definition INSTANCEGROUP : nat := 8.
Definition DATABASEGROUP : nat := 11.
Definition PARAMSGROUP : nat := 15.

Definition hostRegExp : regexp.Regexp :=
  let w_dot_dash := fun a => wordChar a || oneOf ".-" a in
  let tail := fun a => wordChar a || oneOf "-._~:/?#[]@!$&'()*+,;=." a in
  regexp.Cat (regexp.Plus (regexp.Class w_dot_dash))
    (regexp.Cat
       (regexp.Star
          (regexp.Cat (regexp.Lit ".")
             (regexp.Plus (regexp.Class w_dot_dash))))
       (regexp.Plus (regexp.Class tail))).

Definition projectRegExp : regexp.Regexp :=
  regexp.Group 4
    (regexp.Alt
       (regexp.Plus
          (regexp.Group 5
             (regexp.Alt
                (regexp.Alt (regexp.Class (inRange "a" "z"))
                   (regexp.Class (oneOf "-.:")))
                (regexp.Class (inRange "0" "9")))))
       (regexp.Group 6 (lit "DEFAULT_PROJECT_ID"))).

Definition instanceRegExp : regexp.Regexp :=
  regexp.Plus
    (regexp.Group 9
       (regexp.Alt
          (regexp.Alt (regexp.Class (inRange "a" "z"))
             (regexp.Class (oneOf "-")))
          (regexp.Class (inRange "0" "9")))).

Definition databaseRegExp : regexp.Regexp :=
  regexp.Plus
    (regexp.Group 12
       (regexp.Alt
          (regexp.Alt
             (regexp.Alt (regexp.Class (inRange "a" "z"))
                (regexp.Class (oneOf "-")))
             (regexp.Class (oneOf "_")))
          (regexp.Class (inRange "0" "9")))).

Definition dsnRegExp : regexp.Regexp :=
  regexp.Cat
    (regexp.Quest
       (regexp.Group 1
          (regexp.Cat (regexp.Group HOSTGROUP hostRegExp) (regexp.Lit "/"))))
    (regexp.Cat (lit "projects/")
       (regexp.Cat (regexp.Group PROJECTGROUP projectRegExp)
          (regexp.Cat
             (regexp.Quest
                (regexp.Group 7
                   (regexp.Cat (lit "/instances/")
                      (regexp.Cat
                         (regexp.Group INSTANCEGROUP instanceRegExp)
                         (regexp.Quest
                            (regexp.Group 10
                               (regexp.Cat (lit "/databases/")
                                  (regexp.Group DATABASEGROUP
                                     databaseRegExp))))))))
             (regexp.Quest
                (regexp.Group 13
                   (regexp.Cat (regexp.Group 14 (regexp.Class (oneOf "?|;")))
                      (regexp.Group PARAMSGROUP
                         (regexp.Star (regexp.Class anyCharNotNL))))))))).

(** [dsnRegExp.SubexpNames()]: index 0 is the whole match. *)
Definition SubexpNames : list string :=
  [""; ""; "HOSTGROUP"; "PROJECTGROUP"; ""; ""; ""; ""; "INSTANCEGROUP";
   ""; ""; "DATABASEGROUP"; ""; ""; ""; "PARAMSGROUP"].

(** ** Values exchanged with the backing clients *)

(** [*spanner.Client] and [*adminapi.DatabaseAdminClient]: the identity of
    a client handle. *)
Definition Client := nat.
Definition AdminClient := nat.
(** [*spanner.ReadOnlyTransaction], [*spanner.ReadWriteStmtBasedTransaction],
    [*spanner.RowIterator]: handles owned by the backing client. *)
Definition ROTx := nat.
Definition RWTx := nat.
Definition RowIterator := nat.

(** [time.Time]; [Time_zero] is [time.Time{}]. *)
Record Time := { unixNano : Z }.
Definition Time_zero : Time := {| unixNano := 0 |}.

Module TimestampBound.
(** [spanner.TimestampBound]; the zero value is a strong read. *)
Record t := { mode : Z; d : Z; ts : Time }.
Definition zero : t := {| mode := 0; d := 0; ts := Time_zero |}.
End TimestampBound.

(** [driver.Value] *)
Inductive Value :=
| VNil
| VInt64 (n : Z)
| VFloat64 (f : float64)
| VBool (b : bool)
| VString (s : string)
| VBytes (b : list ascii)
| VTime (t : Time).

Record NamedValue := { Name : string; Ordinal : Z; NValue : Value }.

Module Statement.
(** [spanner.Statement] *)
Record t := { SQL : string; Params : gmap string Value }.
End Statement.

(** [spanner.NewStatement] *)
Definition NewStatement (sql : string) : Statement.t :=
  {| Statement.SQL := sql; Statement.Params := ∅ |}.

(** [*spanner.Mutation] and [spanner.ApplyOption], opaque to the driver. *)
Record Mutation := { mutationId : nat }.
Record ApplyOption := { applyOptionId : nat }.

Inductive ClientOption :=
| WithEndpoint (host : string)
| WithCredentialsFile (file : string)
| WithGRPCDialOption_WithInsecure
| WithoutAuthentication
| WithUserAgent (ua : string).

Module SessionPoolConfig.
(** The fields of [spanner.SessionPoolConfig] that the driver sets. *)
Record t := { MinOpened : Z; MaxOpened : Z; WriteSessions : float64 }.
End SessionPoolConfig.

Module ClientConfig.
Record t := { SessionPoolConfig : SessionPoolConfig.t }.
End ClientConfig.

(** Requests sent to the backing clients, in the order they are made. *)
Inductive event :=
| NewClientWithConfig (database : string) (config : ClientConfig.t)
    (opts : list ClientOption)
| NewDatabaseAdminClient (opts : list ClientOption)
| Client_Close (c : Client)
| AdminClient_Close (a : AdminClient)
| UpdateDatabaseDdl (a : AdminClient) (database : string)
    (statements : list string)
| Operation_Wait (a : AdminClient)
| ReadWriteTransaction_Update (c : Client) (s : Statement.t)
| ReadWriteTransaction_BatchUpdate (c : Client) (ss : list Statement.t)
| RWTx_BatchUpdate (tx : RWTx) (ss : list Statement.t)
| PartitionedUpdate (c : Client) (s : Statement.t)
| Single_Query (c : Client) (tb : TimestampBound.t) (s : Statement.t)
| Client_Apply (c : Client) (ms : list Mutation) (opts : list ApplyOption)
| Client_ReadOnlyTransaction (c : Client) (tb : TimestampBound.t)
| NewReadWriteStmtBasedTransaction (c : Client)
| Tx_Request (what : string) (ss : list Statement.t).

(** Code that talks to the backing clients: it reads the history of
    requests and extends it. *)
Definition B (A : Type) : Type := list event -> A * list event.

(** What the backing clients answer; an answer may depend on every
    request made so far. *)
Record backend := {
  be_NewClientWithConfig :
    list event -> string -> ClientConfig.t -> list ClientOption ->
    Client + error;
  be_NewDatabaseAdminClient :
    list event -> list ClientOption -> AdminClient + error;
  be_AdminClient_Close : list event -> AdminClient -> option error;
  be_UpdateDatabaseDdl :
    list event -> AdminClient -> string -> list string -> option error;
  be_Operation_Wait : list event -> AdminClient -> option error;
  (* client.ReadWriteTransaction running one tx.Update: the count of the
     last run of the body, the commit timestamp, the error *)
  be_ReadWriteTransaction_Update :
    list event -> Client -> Statement.t -> Z * Time * option error;
  (* client.ReadWriteTransaction running one BatchUpdate *)
  be_ReadWriteTransaction_BatchUpdate :
    list event -> Client -> list Statement.t -> list Z * option error;
  be_RWTx_BatchUpdate :
    list event -> RWTx -> list Statement.t -> list Z * option error;
  be_PartitionedUpdate :
    list event -> Client -> Statement.t -> Z * option error;
  be_Single_Query :
    list event -> Client -> TimestampBound.t -> Statement.t -> RowIterator;
  be_Client_Apply :
    list event -> Client -> list Mutation -> list ApplyOption ->
    Time * option error;
  be_Client_ReadOnlyTransaction :
    list event -> Client -> TimestampBound.t -> ROTx;
  be_NewReadWriteStmtBasedTransaction :
    list event -> Client -> RWTx + error
}.

Definition request {A : Type} (e : event) (answer : list event -> A) : B A :=
  fun h => (answer h, (h ++ [e])%list).

(** ** Connectors and the registry *)

Module connectorConfig.
Record t := {
  host : string;
  project : string;
  instance : string;
  database : string;
  params : gmap string string
}.
End connectorConfig.

(** The address of a [connector]. *)
Definition loc := nat.

Module connector.
(** [driver] is left out: one [Driver] owns every connector of a
    [world]. [initClient] is the [sync.Once]: [true] once it has run. *)
Record t := {
  dsn : string;
  connectorConfig : connectorConfig.t;
  spannerClientConfig : ClientConfig.t;
  options : list ClientOption;
  retryAbortsInternally : bool;
  initClient : bool;
  client : option Client;
  clientErr : option error;
  adminClient : option AdminClient;
  adminClientErr : option error;
  connCount : Z
}.

Definition set_clients (c : t) (cl : option Client) (ce : option error)
    (ad : option AdminClient) (ae : option error) : t :=
  {| dsn := dsn c; connectorConfig := connectorConfig c;
     spannerClientConfig := spannerClientConfig c; options := options c;
     retryAbortsInternally := retryAbortsInternally c;
     initClient := true;
     client := cl; clientErr := ce;
     adminClient := ad; adminClientErr := ae;
     connCount := connCount c |}.

Definition set_connCount (c : t) (n : Z) : t :=
  {| dsn := dsn c; connectorConfig := connectorConfig c;
     spannerClientConfig := spannerClientConfig c; options := options c;
     retryAbortsInternally := retryAbortsInternally c;
     initClient := initClient c;
     client := client c; clientErr := clientErr c;
     adminClient := adminClient c; adminClientErr := adminClientErr c;
     connCount := n |}.
End connector.

(** Two's-complement wrap-around of [int32] and [int64]. *)
Definition wrap32 (z : Z) : Z := (z + 2 ^ 31) mod 2 ^ 32 - 2 ^ 31.
Definition wrap64 (z : Z) : Z := (z + 2 ^ 63) mod 2 ^ 64 - 2 ^ 63.

(** [atomic.AddInt32] on a value *)
Definition AddInt32 (v delta : Z) : Z := wrap32 (v + delta).

(** The registry of the one [Driver] ([Driver.connectors]), the
    connectors it ever created, and the requests made so far. *)
Record world := {
  connectors : gmap string loc;
  heap : gmap loc connector.t;
  log : list event
}.

(** ** Connections *)

Definition batchType := Z.
Definition ddl : batchType := 0.
Definition dml : batchType := 1.

Module batch.
Record t := { tp : batchType; statements : list Statement.t }.
Definition append (b : t) (ss : list Statement.t) : t :=
  {| tp := tp b; statements := (statements b ++ ss)%list |}.
End batch.

Definition AutocommitDMLMode := Z.
Definition Transactional : AutocommitDMLMode := 0.
Definition PartitionedNonAtomic : AutocommitDMLMode := 1.

Definition AutocommitDMLMode_String (mode : AutocommitDMLMode) : string :=
  if mode =? Transactional then "Transactional"
  else if mode =? PartitionedNonAtomic then "Partitioned_Non_Atomic"
  else "".

(** [driver.Result]: [driver.ResultNoRows] or [&result{rowsAffected}]. *)
Inductive Result :=
| ResultNoRows
| result (rowsAffected : Z).

(** The outcome and the original result of a statement, as compared
    when a read-write transaction is replayed. *)
Inductive stmtResult :=
| RowsResult (rows : list (list Value))
| UpdateCount (n : Z)
| BatchCounts (ns : list Z).

Module readWriteTransaction.
(** [ctx], [client] and the [close] callback are left out: [close] is
    [rwClose] below.  [batch] is the field read by [conn.InDMLBatch].
    [statements] is the log of the statements issued so far with
    their results, which the retry protocol replays. *)
Record t := {
  rwTx : RWTx;
  batch : option batch.t;
  retryAborts : bool;
  statements : list (Statement.t * stmtResult)
}.
End readWriteTransaction.

(** The two implementations of the [contextTransaction] interface. *)
Inductive contextTransaction :=
| readOnlyTransaction (roTx : ROTx)
| readWriteTransaction (tx : readWriteTransaction.t).

Module conn.
(** [connector] is the address of the shared connector. *)
Record t := {
  connector : loc;
  closed : bool;
  client : Client;
  adminClient : AdminClient;
  tx : option contextTransaction;
  commitTs : option Time;
  database : string;
  retryAborts : bool;
  execSingleQuery :
    Client -> Statement.t -> TimestampBound.t -> B RowIterator;
  execSingleDMLTransactional :
    Client -> Statement.t -> B (Z * Time * option error);
  execSingleDMLPartitioned :
    Client -> Statement.t -> B (Z * option error);
  batch : option batch.t;
  autocommitDMLMode : AutocommitDMLMode;
  readOnlyStaleness : TimestampBound.t
}.

Definition set_tx (x : option contextTransaction) (c : t) : t :=
  {| connector := connector c; closed := closed c; client := client c;
     adminClient := adminClient c; tx := x; commitTs := commitTs c;
     database := database c; retryAborts := retryAborts c;
     execSingleQuery := execSingleQuery c;
     execSingleDMLTransactional := execSingleDMLTransactional c;
     execSingleDMLPartitioned := execSingleDMLPartitioned c;
     batch := batch c; autocommitDMLMode := autocommitDMLMode c;
     readOnlyStaleness := readOnlyStaleness c |}.

Definition set_commitTs (x : option Time) (c : t) : t :=
  {| connector := connector c; closed := closed c; client := client c;
     adminClient := adminClient c; tx := tx c; commitTs := x;
     database := database c; retryAborts := retryAborts c;
     execSingleQuery := execSingleQuery c;
     execSingleDMLTransactional := execSingleDMLTransactional c;
     execSingleDMLPartitioned := execSingleDMLPartitioned c;
     batch := batch c; autocommitDMLMode := autocommitDMLMode c;
     readOnlyStaleness := readOnlyStaleness c |}.

Definition set_retryAborts (x : bool) (c : t) : t :=
  {| connector := connector c; closed := closed c; client := client c;
     adminClient := adminClient c; tx := tx c; commitTs := commitTs c;
     database := database c; retryAborts := x;
     execSingleQuery := execSingleQuery c;
     execSingleDMLTransactional := execSingleDMLTransactional c;
     execSingleDMLPartitioned := execSingleDMLPartitioned c;
     batch := batch c; autocommitDMLMode := autocommitDMLMode c;
     readOnlyStaleness := readOnlyStaleness c |}.

Definition set_batch (x : option batch.t) (c : t) : t :=
  {| connector := connector c; closed := closed c; client := client c;
     adminClient := adminClient c; tx := tx c; commitTs := commitTs c;
     database := database c; retryAborts := retryAborts c;
     execSingleQuery := execSingleQuery c;
     execSingleDMLTransactional := execSingleDMLTransactional c;
     execSingleDMLPartitioned := execSingleDMLPartitioned c;
     batch := x; autocommitDMLMode := autocommitDMLMode c;
     readOnlyStaleness := readOnlyStaleness c |}.

Definition set_autocommitDMLMode (x : AutocommitDMLMode) (c : t) : t :=
  {| connector := connector c; closed := closed c; client := client c;
     adminClient := adminClient c; tx := tx c; commitTs := commitTs c;
     database := database c; retryAborts := retryAborts c;
     execSingleQuery := execSingleQuery c;
     execSingleDMLTransactional := execSingleDMLTransactional c;
     execSingleDMLPartitioned := execSingleDMLPartitioned c;
     batch := batch c; autocommitDMLMode := x;
     readOnlyStaleness := readOnlyStaleness c |}.

Definition set_readOnlyStaleness (x : TimestampBound.t) (c : t) : t :=
  {| connector := connector c; closed := closed c; client := client c;
     adminClient := adminClient c; tx := tx c; commitTs := commitTs c;
     database := database c; retryAborts := retryAborts c;
     execSingleQuery := execSingleQuery c;
     execSingleDMLTransactional := execSingleDMLTransactional c;
     execSingleDMLPartitioned := execSingleDMLPartitioned c;
     batch := batch c; autocommitDMLMode := autocommitDMLMode c;
     readOnlyStaleness := x |}.
End conn.

(** The [rowIterator] interface: the wrapper built by [QueryContext]
    outside a transaction, or whatever a transaction's [Query] returns. *)
Inductive rowIterator :=
| readOnlyRowIterator (it : RowIterator)
| txRowIterator (it : RowIterator).

Record rows := { it : rowIterator }.

(** A method of [conn]: it reads and updates the connection and talks to
    the backing clients. *)
Record state := { self : conn.t; history : list event }.

Definition M (A : Type) : Type := state -> A * state.

Definition ret {A : Type} (a : A) : M A := fun s => (a, s).

Definition bind {A C : Type} (m : M A) (k : A -> M C) : M C :=
  fun s => let (a, s') := m s in k a s'.

Declare Scope go_scope.
Delimit Scope go_scope with go.
Notation "'let*' x ':=' m 'in' k" := (bind m (fun x => k))
  (at level 10, x name, m at level 100, k at level 200) : go_scope.
Notation "m ';;' k" := (bind m (fun _ => k))
  (at level 100, k at level 200, right associativity) : go_scope.

(** Read the connection. *)
Definition this : M conn.t := fun s => (self s, s).

(** Assign to fields of the connection. *)
Definition update (f : conn.t -> conn.t) : M unit :=
  fun s => (tt, {| self := f (self s); history := history s |}).

(** Run code that only talks to the backing clients. *)
Definition call {A : Type} (b : B A) : M A :=
  fun s =>
    let (a, h) := b (history s) in (a, {| self := self s; history := h |}).

(** A client-side statement bound to the connection. *)
Record clientStatement := {
  cs_ExecContext : list NamedValue -> M (option Result * option error);
  cs_QueryContext : list NamedValue -> M (option rows * option error)
}.

(** The Go library functions and constants taken as given. *)
Record golib := {
  strings_ToLower : string -> string;
  strconv_ParseFloat : string -> option float64;
  spanner_DefaultSessionPoolConfig : SessionPoolConfig.t
}.

(** The parts of the package that live in other files: the statement
    parser, the two transaction implementations and the row reader. The
    transaction methods act on the transaction stored in the connection
    and, through its [close] callback, on the connection itself. *)
Record deps := {
  parseClientSideStatement :
    conn.t -> string -> option clientStatement * option error;
  isDDL : string -> bool * option error;
  prepareSpannerStmt :
    string -> list NamedValue -> Statement.t * option error;
  tx_StartBatchDML : M (option Result * option error);
  tx_RunBatch : M (option Result * option error);
  tx_AbortBatch : M (option Result * option error);
  tx_BufferWrite : list Mutation -> M (option error);
  tx_Rollback : M (option error);
  tx_Query : Statement.t -> M rowIterator;
  tx_ExecContext : Statement.t -> M (Z * option error);
  rows_Next : rows -> M (list Value * option error);
  rows_Close : rows -> M (option error)
}.

Definition userAgent : string := "go-sql-spanner/0.1".

Section Model.

Variable G : golib.
Variable be : backend.
Variable P : deps.

(** *** Parsing the descriptor *)

(** The loop of [extractConnectorParams] over the [;]-separated
    entries. *)
Fixpoint extractConnectorParams_loop (keyValuePairs : list string)
    (params : gmap string string) : gmap string string + error :=
  match keyValuePairs with
  | [] => inl params
  | keyValueString :: rest =>
      if String.eqb keyValueString ""
      then extractConnectorParams_loop rest params
      else
        match strings.SplitN2 keyValueString "=" with
        | [k; v] =>
            extractConnectorParams_loop rest
              (<[strings_ToLower G k := v]> params)
        | _ =>
            inr (SpannerError codes.InvalidArgument
                   ("invalid connection property: " ++ keyValueString))
        end
  end.

Definition extractConnectorParams (paramsString : string)
  : gmap string string + error :=
  if String.eqb paramsString "" then inl ∅
  else extractConnectorParams_loop (strings.Split paramsString ";") ∅.

(** The loop of [extractConnectorConfig] over [SubexpNames]:
    [matches[name] = match[i]], which panics when [match] is too
    short. *)
Fixpoint subexpLoop (names : list (nat * string)) (match_ : list string)
    (matches : gmap string string) : run (gmap string string) :=
  match names with
  | [] => Returns matches
  | (i, name) :: rest =>
      if negb (Nat.eqb i 0) && negb (String.eqb name "")
      then
        match match_ !! i with
        | Some v => subexpLoop rest match_ (<[name := v]> matches)
        | None => Panics "runtime error: index out of range"
        end
      else subexpLoop rest match_ matches
  end.

Definition extractConnectorConfig (dsn : string)
  : run (connectorConfig.t + error) :=
  (* FindStringSubmatch returns the nil slice when nothing matches *)
  let match_ :=
    default [] (regexp.FindStringSubmatch dsnRegExp 15 dsn) in
  match subexpLoop (imap (fun i name => (i, name)) SubexpNames)
          match_ ∅ with
  | Panics why => Panics why
  | Returns matches =>
      let group := fun name => default "" (matches !! name) in
      let paramsString := group "PARAMSGROUP" in
      match extractConnectorParams paramsString with
      | inr err => Returns (inr err)
      | inl params =>
          Returns (inl {|
            connectorConfig.host := group "HOSTGROUP";
            connectorConfig.project := group "PROJECTGROUP";
            connectorConfig.instance := group "INSTANCEGROUP";
            connectorConfig.database := group "DATABASEGROUP";
            connectorConfig.params := params |})
      end
  end.

(** *** The registry *)

Definition buildOptions (cfg : connectorConfig.t) : list ClientOption :=
  let opts := [] in
  let opts :=
    if negb (String.eqb (connectorConfig.host cfg) "")
    then (opts ++ [WithEndpoint (connectorConfig.host cfg)])%list
    else opts in
  let opts :=
    match connectorConfig.params cfg !! "credentials" with
    | Some strval => (opts ++ [WithCredentialsFile strval])%list
    | None => opts
    end in
  match connectorConfig.params cfg !! "useplaintext" with
  | Some strval =>
      match strconv.ParseBool strval with
      | Some true =>
          (opts ++ [WithGRPCDialOption_WithInsecure;
                    WithoutAuthentication])%list
      | _ => opts
      end
  | None => opts
  end.

Definition buildRetryAbortsInternally (cfg : connectorConfig.t) : bool :=
  match connectorConfig.params cfg !! "retryabortsinternally" with
  | Some strval =>
      match strconv.ParseBool strval with
      | Some false => false
      | _ => true
      end
  | None => true
  end.

Definition buildClientConfig (cfg : connectorConfig.t) : ClientConfig.t :=
  let pool := spanner_DefaultSessionPoolConfig G in
  let minOpened :=
    match connectorConfig.params cfg !! "minsessions" with
    | Some strval =>
        default (SessionPoolConfig.MinOpened pool)
          (strconv.ParseUint strval)
    | None => SessionPoolConfig.MinOpened pool
    end in
  let maxOpened :=
    match connectorConfig.params cfg !! "maxsessions" with
    | Some strval =>
        default (SessionPoolConfig.MaxOpened pool)
          (strconv.ParseUint strval)
    | None => SessionPoolConfig.MaxOpened pool
    end in
  let writeSessions :=
    match connectorConfig.params cfg !! "writesessions" with
    | Some strval =>
        default (SessionPoolConfig.WriteSessions pool)
          (strconv_ParseFloat G strval)
    | None => SessionPoolConfig.WriteSessions pool
    end in
  {| ClientConfig.SessionPoolConfig :=
       {| SessionPoolConfig.MinOpened := minOpened;
          SessionPoolConfig.MaxOpened := maxOpened;
          SessionPoolConfig.WriteSessions := writeSessions |} |}.

(** [newConnector]: the registered connector of the descriptor, or a
    new one, allocated at an unused address and registered. *)
Definition newConnector (dsn : string) (w : world)
  : run (loc + error) * world :=
  match connectors w !! dsn with
  | Some c => (Returns (inl c), w)
  | None =>
      match extractConnectorConfig dsn with
      | Panics why => (Panics why, w)
      | Returns (inr err) => (Returns (inr err), w)
      | Returns (inl connectorConfig) =>
          let c :=
            {| connector.dsn := dsn;
               connector.connectorConfig := connectorConfig;
               connector.spannerClientConfig :=
                 buildClientConfig connectorConfig;
               connector.options := buildOptions connectorConfig;
               connector.retryAbortsInternally :=
                 buildRetryAbortsInternally connectorConfig;
               connector.initClient := false;
               connector.client := None;
               connector.clientErr := None;
               connector.adminClient := None;
               connector.adminClientErr := None;
               connector.connCount := 0 |} in
          let l := fresh (dom (heap w)) in
          (Returns (inl l),
           {| connectors := <[dsn := l]> (connectors w);
              heap := <[l := c]> (heap w);
              log := log w |})
      end
  end.

Definition OpenConnector (name : string) (w : world)
  : run (loc + error) * world :=
  newConnector name w.

(** [execInNewRWTransaction]: one [client.ReadWriteTransaction] whose
    body is a single [tx.Update]. *)
Definition execInNewRWTransaction (c : Client) (statement : Statement.t)
  : B (Z * Time * option error) :=
  fun h =>
    let '(rowsAffected, ts, err) :=
      be_ReadWriteTransaction_Update be h c statement in
    (match err with
     | Some e => (0, Time_zero, Some e)
     | None => (rowsAffected, ts, None)
     end,
     (h ++ [ReadWriteTransaction_Update c statement])%list).

Definition execAsPartitionedDML (c : Client) (statement : Statement.t)
  : B (Z * option error) :=
  request (PartitionedUpdate c statement)
    (fun h => be_PartitionedUpdate be h c statement).

Definition queryInSingleUse (c : Client) (statement : Statement.t)
    (tb : TimestampBound.t) : B RowIterator :=
  request (Single_Query c tb statement)
    (fun h => be_Single_Query be h c tb statement).

(** The body of [c.initClient.Do]: both clients are created, in this
    order, and the outcome is stored in the connector. *)
Definition initClients (c : connector.t) (databaseName : string)
    (opts : list ClientOption) (h : list event)
  : connector.t * list event :=
  let r1 :=
    be_NewClientWithConfig be h databaseName
      (connector.spannerClientConfig c) opts in
  let h1 :=
    (h ++ [NewClientWithConfig databaseName
             (connector.spannerClientConfig c) opts])%list in
  let r2 := be_NewDatabaseAdminClient be h1 opts in
  let h2 := (h1 ++ [NewDatabaseAdminClient opts])%list in
  (connector.set_clients c
     (match r1 with inl cl => Some cl | inr _ => None end)
     (match r1 with inl _ => None | inr e => Some e end)
     (match r2 with inl ad => Some ad | inr _ => None end)
     (match r2 with inl _ => None | inr e => Some e end),
   h2).

(** [fmt.Sprintf("projects/%s/instances/%s/databases/%s", ...)] *)
Definition databaseNameOf (cfg : connectorConfig.t) : string :=
  "projects/" ++ connectorConfig.project cfg
  ++ "/instances/" ++ connectorConfig.instance cfg
  ++ "/databases/" ++ connectorConfig.database cfg.

(** [openDriverConn]: a connector address that holds no connector stands
    for a nil pointer.  The constructors of the clients return a client
    or an error, so both clients are there once both errors are nil. *)
Definition openDriverConn (l : loc) (w : world)
  : run (conn.t + error) * world :=
  match heap w !! l with
  | None => (Panics "invalid memory address or nil pointer dereference", w)
  | Some c =>
      let opts := (connector.options c ++ [WithUserAgent userAgent])%list in
      let databaseName := databaseNameOf (connector.connectorConfig c) in
      let (c1, h1) :=
        if connector.initClient c then (c, log w)
        else initClients c databaseName opts (log w) in
      let stored := fun c' =>
        {| connectors := connectors w;
           heap := <[l := c']> (heap w);
           log := h1 |} in
      match connector.clientErr c1, connector.adminClientErr c1 with
      | Some e, _ => (Returns (inr e), stored c1)
      | None, Some e => (Returns (inr e), stored c1)
      | None, None =>
          match connector.client c1, connector.adminClient c1 with
          | Some cl, Some ad =>
              let c2 :=
                connector.set_connCount c1
                  (AddInt32 (connector.connCount c1) 1) in
              (Returns (inl {|
                 conn.connector := l;
                 conn.closed := false;
                 conn.client := cl;
                 conn.adminClient := ad;
                 conn.tx := None;
                 conn.commitTs := None;
                 conn.database := databaseName;
                 conn.retryAborts := connector.retryAbortsInternally c1;
                 conn.execSingleQuery := queryInSingleUse;
                 conn.execSingleDMLTransactional := execInNewRWTransaction;
                 conn.execSingleDMLPartitioned := execAsPartitionedDML;
                 conn.batch := None;
                 conn.autocommitDMLMode := Transactional;
                 conn.readOnlyStaleness := TimestampBound.zero |}),
               stored c2)
          | _, _ =>
              (Panics "invalid memory address or nil pointer dereference",
               stored c1)
          end
      end
  end.

Definition Connect (l : loc) (w : world) : run (conn.t + error) * world :=
  openDriverConn l w.

Definition Open (name : string) (w : world)
  : run (conn.t + error) * world :=
  match newConnector name w with
  | (Panics why, w') => (Panics why, w')
  | (Returns (inr err), w') => (Returns (inr err), w')
  | (Returns (inl c), w') => openDriverConn c w'
  end.

(** [conn.Close]: the last connection of the connector unregisters
    the descriptor and closes both clients. *)
Definition Close (c : conn.t) (w : world) : run (option error) * world :=
  match heap w !! conn.connector c with
  | None => (Panics "invalid memory address or nil pointer dereference", w)
  | Some k =>
      let count := AddInt32 (connector.connCount k) (-1) in
      let heap' :=
        <[conn.connector c := connector.set_connCount k count]> (heap w) in
      if 0 <? count
      then
        (Returns None,
         {| connectors := connectors w; heap := heap'; log := log w |})
      else
        let h1 := (log w ++ [Client_Close (conn.client c)])%list in
        let err := be_AdminClient_Close be h1 (conn.adminClient c) in
        (Returns err,
         {| connectors := delete (connector.dsn k) (connectors w);
            heap := heap';
            log := (h1 ++ [AdminClient_Close (conn.adminClient c)])%list |})
  end.

(** *** The state of a connection *)

Local Open Scope go_scope.

Definition inTransaction (c : conn.t) : bool :=
  match conn.tx c with Some _ => true | None => false end.

Definition inReadOnlyTransaction (c : conn.t) : bool :=
  match conn.tx c with
  | Some (readOnlyTransaction _) => true
  | _ => false
  end.

Definition inReadWriteTransaction (c : conn.t) : bool :=
  match conn.tx c with
  | Some (readWriteTransaction _) => true
  | _ => false
  end.

Definition InDDLBatch (c : conn.t) : bool :=
  match conn.batch c with
  | Some b => batch.tp b =? ddl
  | None => false
  end.

Definition InDMLBatch (c : conn.t) : bool :=
  match conn.batch c with
  | Some b => batch.tp b =? dml
  | None => false
  end
  || match conn.tx c with
     | Some (readWriteTransaction t) =>
         match readWriteTransaction.batch t with
         | Some _ => true
         | None => false
         end
     | _ => false
     end.

Definition inBatch (c : conn.t) : bool := InDDLBatch c || InDMLBatch c.

Definition IsValid (c : conn.t) : bool := negb (conn.closed c).

(** The [close] callbacks that [BeginTx] hands to the transactions. *)
Definition roClose : M unit := update (conn.set_tx None).

Definition rwClose (commitTs : option Time) (commitErr : option error)
  : M unit :=
  update (conn.set_tx None) ;;
  match commitErr with
  | None => update (conn.set_commitTs commitTs)
  | Some _ => ret tt
  end.

Definition failedPrecondition (msg : string) : error :=
  SpannerError codes.FailedPrecondition msg.

Definition CommitTimestamp : M (Time * option error) :=
  let* c := this in
  match conn.commitTs c with
  | None =>
      ret (Time_zero,
           Some (failedPrecondition
                   "this connection has not executed a read/write transaction that committed successfully"))
  | Some ts => ret (ts, None)
  end.

Definition RetryAbortsInternally (c : conn.t) : bool := conn.retryAborts c.



Definition setAutocommitDMLMode (mode : AutocommitDMLMode)
  : M (option Result * option error) :=
  update (conn.set_autocommitDMLMode mode) ;; ret (Some ResultNoRows, None).

Definition SetAutocommitDMLMode (mode : AutocommitDMLMode)
  : M (option error) :=
  let* r := setAutocommitDMLMode mode in ret (snd r).

Definition setReadOnlyStaleness (staleness : TimestampBound.t)
  : M (option Result * option error) :=
  update (conn.set_readOnlyStaleness staleness) ;;
  ret (Some ResultNoRows, None).

Definition SetReadOnlyStaleness (staleness : TimestampBound.t)
  : M (option error) :=
  let* r := setReadOnlyStaleness staleness in ret (snd r).

(** *** Batches *)

Definition startBatchDDL : M (option Result * option error) :=
  let* c := this in
  match conn.batch c with
  | Some _ =>
      ret (None,
           Some (failedPrecondition
                   "This connection already has an active batch."))
  | None =>
      if inTransaction c
      then ret (None,
                Some (failedPrecondition
                        "This connection has an active transaction. DDL batches in transactions are not supported."))
      else
        update (conn.set_batch
                  (Some {| batch.tp := ddl; batch.statements := [] |})) ;;
        ret (Some ResultNoRows, None)
  end.

Definition startBatchDML : M (option Result * option error) :=
  let* c := this in
  if inTransaction c then tx_StartBatchDML P
  else
    match conn.batch c with
    | Some _ =>
        ret (None,
             Some (failedPrecondition
                     "This connection already has an active batch."))
    | None =>
        if inReadOnlyTransaction c
        then ret (None,
                  Some (failedPrecondition
                          "This connection has an active read-only transaction. Read-only transactions cannot execute DML batches."))
        else
          update (conn.set_batch
                    (Some {| batch.tp := dml; batch.statements := [] |})) ;;
          ret (Some ResultNoRows, None)
    end.

Definition execDDL (statements : list Statement.t)
  : M (option Result * option error) :=
  let* c := this in
  let submit : M (option Result * option error) :=
    match statements with
    | [] => ret (Some ResultNoRows, None)
    | _ =>
        let ddlStatements := map Statement.SQL statements in
        let* err :=
          call (request
                  (UpdateDatabaseDdl (conn.adminClient c) (conn.database c)
                     ddlStatements)
                  (fun h =>
                     be_UpdateDatabaseDdl be h (conn.adminClient c)
                       (conn.database c) ddlStatements)) in
        match err with
        | Some e => ret (None, Some e)
        | None =>
            let* err :=
              call (request (Operation_Wait (conn.adminClient c))
                      (fun h =>
                         be_Operation_Wait be h (conn.adminClient c))) in
            match err with
            | Some e => ret (None, Some e)
            | None => ret (Some ResultNoRows, None)
            end
        end
    end in
  match conn.batch c with
  | Some b =>
      if batch.tp b =? dml
      then ret (None,
                Some (failedPrecondition
                        "This connection has an active DML batch"))
      else if batch.tp b =? ddl
      then
        update (conn.set_batch (Some (batch.append b statements))) ;;
        ret (Some ResultNoRows, None)
      else submit
  | None => submit
  end.

Definition sum (affected : list Z) : Z :=
  fold_left (fun sum c => wrap64 (sum + c)) affected 0.

Definition execBatchDML (statements : list Statement.t)
  : M (option Result * option error) :=
  match statements with
  | [] => ret (Some (result 0), None)
  | _ =>
      let* c := this in
      match conn.tx c with
      | Some (readWriteTransaction tx) =>
          let* r :=
            call (request
                    (RWTx_BatchUpdate (readWriteTransaction.rwTx tx)
                       statements)
                    (fun h =>
                       be_RWTx_BatchUpdate be h
                         (readWriteTransaction.rwTx tx) statements)) in
          ret (Some (result (sum (fst r))), snd r)
      | Some (readOnlyTransaction _) =>
          ret (None,
               Some (StatusError codes.FailedPrecondition
                       "connection is in a transaction that is not a read/write transaction"))
      | None =>
          let* r :=
            call (request
                    (ReadWriteTransaction_BatchUpdate (conn.client c)
                       statements)
                    (fun h =>
                       be_ReadWriteTransaction_BatchUpdate be h
                         (conn.client c) statements)) in
          ret (Some (result (sum (fst r))), snd r)
      end
  end.

Definition runDDLBatch (b : batch.t) : M (option Result * option error) :=
  let statements := batch.statements b in
  update (conn.set_batch None) ;;
  execDDL statements.

Definition runDMLBatch (b : batch.t) : M (option Result * option error) :=
  let statements := batch.statements b in
  update (conn.set_batch None) ;;
  execBatchDML statements.

Definition runBatch : M (option Result * option error) :=
  let* c := this in
  if inTransaction c then tx_RunBatch P
  else
    match conn.batch c with
    | None =>
        ret (None,
             Some (failedPrecondition
                     "This connection does not have an active batch"))
    | Some b =>
        if batch.tp b =? ddl then runDDLBatch b
        else if batch.tp b =? dml then runDMLBatch b
        else ret (None,
                  Some (SpannerError codes.InvalidArgument
                          "Unknown batch type: %d"))
    end.

Definition abortBatch : M (option Result * option error) :=
  let* c := this in
  if inTransaction c then tx_AbortBatch P
  else update (conn.set_batch None) ;; ret (Some ResultNoRows, None).

Definition StartBatchDDL : M (option error) :=
  let* r := startBatchDDL in ret (snd r).

Definition StartBatchDML : M (option error) :=
  let* r := startBatchDML in ret (snd r).

Definition RunBatch : M (option error) :=
  let* r := runBatch in ret (snd r).

Definition AbortBatch : M (option error) :=
  let* r := abortBatch in ret (snd r).

Definition Apply (ms : list Mutation) (opts : list ApplyOption)
  : M (Time * option error) :=
  let* c := this in
  if inTransaction c
  then ret (Time_zero,
            Some (failedPrecondition
                    "Apply may not be called while the connection is in a transaction. Use BufferWrite to write mutations in a transaction."))
  else call (request (Client_Apply (conn.client c) ms opts)
               (fun h => be_Client_Apply be h (conn.client c) ms opts)).

Definition BufferWrite (ms : list Mutation) : M (option error) :=
  let* c := this in
  if negb (inTransaction c)
  then ret (Some (failedPrecondition
                    "BufferWrite may not be called while the connection is not in a transaction. Use Apply to write mutations outside a transaction."))
  else tx_BufferWrite P ms.

(** *** Queries and statements *)

Definition QueryContext (query : string) (args : list NamedValue)
  : M (option rows * option error) :=
  let* c := this in
  (* Execute client side statement if it is one. *)
  match parseClientSideStatement P c query with
  | (_, Some err) => ret (None, Some err)
  | (Some clientStmt, None) => cs_QueryContext clientStmt args
  | (None, None) =>
      (* Clear the commit timestamp before the query is executed. *)
      update (conn.set_commitTs None) ;;
      match prepareSpannerStmt P query args with
      | (_, Some err) => ret (None, Some err)
      | (stmt, None) =>
          match conn.tx c with
          | None =>
              let* iter :=
                call (conn.execSingleQuery c (conn.client c) stmt
                        (conn.readOnlyStaleness c)) in
              ret (Some {| it := readOnlyRowIterator iter |}, None)
          | Some _ =>
              let* iter := tx_Query P stmt in
              ret (Some {| it := iter |}, None)
          end
      end
  end.

Definition ExecContext (query : string) (args : list NamedValue)
  : M (option Result * option error) :=
  let* c := this in
  (* Execute client side statement if it is one. *)
  match parseClientSideStatement P c query with
  | (_, Some err) => ret (None, Some err)
  | (Some stmt, None) => cs_ExecContext stmt args
  | (None, None) =>
      (* Clear the commit timestamp before the statement is executed. *)
      update (conn.set_commitTs None) ;;
      (* Use admin API if DDL statement is provided. *)
      match isDDL P query with
      | (_, Some err) => ret (None, Some err)
      | (true, None) =>
          if inTransaction c
          then ret (None,
                    Some (failedPrecondition
                            "cannot execute DDL as part of a transaction"))
          else execDDL [NewStatement query]
      | (false, None) =>
          match prepareSpannerStmt P query args with
          | (_, Some err) => ret (None, Some err)
          | (ss, None) =>
              let finish := fun (rowsAffected : Z) (err : option error) =>
                match err with
                | Some e => ret (None, Some e)
                | None => ret (Some (result rowsAffected), None)
                end in
              match conn.tx c with
              | None =>
                  if InDMLBatch c
                  then
                    (* without a transaction [InDMLBatch] means that
                       [c.batch] is a DML batch *)
                    update (fun c' =>
                              conn.set_batch
                                (option_map
                                   (fun b => batch.append b [ss])
                                   (conn.batch c')) c') ;;
                    finish 0 None
                  else if conn.autocommitDMLMode c =? Transactional
                  then
                    let* r :=
                      call (conn.execSingleDMLTransactional c
                              (conn.client c) ss) in
                    let '(rowsAffected, commitTs, err) := r in
                    match err with
                    | None => update (conn.set_commitTs (Some commitTs))
                    | Some _ => ret tt
                    end ;;
                    finish rowsAffected err
                  else if conn.autocommitDMLMode c =? PartitionedNonAtomic
                  then
                    let* r :=
                      call (conn.execSingleDMLPartitioned c
                              (conn.client c) ss) in
                    finish (fst r) (snd r)
                  else
                    ret (None,
                         Some (StatusError codes.FailedPrecondition
                                 ("connection in invalid state for DML statements: "
                                  ++ AutocommitDMLMode_String
                                       (conn.autocommitDMLMode c))))
              | Some _ =>
                  let* r := tx_ExecContext P ss in
                  finish (fst r) (snd r)
              end
          end
      end
  end.

(** [Ping]: the deferred [rows.Close] runs on every path after the
    query succeeded; a nil [rows] without an error would panic. *)
Definition Ping : M (run (option error)) :=
  let* c := this in
  if conn.closed c then ret (Returns (Some ErrBadConn))
  else
    let* q := QueryContext "SELECT 1" [] in
    match q with
    | (_, Some _) => ret (Returns (Some ErrBadConn))
    | (None, None) =>
        ret (Panics "invalid memory address or nil pointer dereference")
    | (Some rows, None) =>
        let* n := rows_Next P rows in
        let res :=
          match n with
          | (_, Some _) => Some ErrBadConn
          | (values, None) =>
              match values with
              | VInt64 1 :: _ => None
              | _ => Some ErrBadConn
              end
          end in
        rows_Close P rows ;;
        ret (Returns res)
    end.

Definition ResetSession : M (option error) :=
  let* c := this in
  if conn.closed c then ret (Some ErrBadConn)
  else
    let reset : M (option error) :=
      update (conn.set_commitTs None) ;;
      update (conn.set_batch None) ;;
      update (conn.set_retryAborts true) ;;
      update (conn.set_autocommitDMLMode Transactional) ;;
      update (conn.set_readOnlyStaleness TimestampBound.zero) ;;
      ret None in
    if inTransaction c
    then
      let* err := tx_Rollback P in
      match err with
      | Some _ => ret (Some ErrBadConn)
      | None => reset
      end
    else reset.

(** [BeginTx]; [readOnly] is [opts.ReadOnly]. *)
Definition BeginTx (readOnly : bool)
  : M (option contextTransaction * option error) :=
  let* c := this in
  if inTransaction c
  then ret (None, Some (failedPrecondition "already in a transaction"))
  else if inBatch c
  then ret (None,
            Some (StatusError codes.FailedPrecondition
                    "This connection has an active batch. Run or abort the batch before starting a new transaction."))
  else if readOnly
  then
    let* ro :=
      call (request
              (Client_ReadOnlyTransaction (conn.client c)
                 (conn.readOnlyStaleness c))
              (fun h =>
                 be_Client_ReadOnlyTransaction be h (conn.client c)
                   (conn.readOnlyStaleness c))) in
    update (conn.set_tx (Some (readOnlyTransaction ro))) ;;
    ret (Some (readOnlyTransaction ro), None)
  else
    let* r :=
      call (request (NewReadWriteStmtBasedTransaction (conn.client c))
              (fun h =>
                 be_NewReadWriteStmtBasedTransaction be h
                   (conn.client c))) in
    match r with
    | inr err => ret (None, Some err)
    | inl tx =>
        let t :=
          readWriteTransaction
            {| readWriteTransaction.rwTx := tx;
               readWriteTransaction.batch := None;
               readWriteTransaction.retryAborts := conn.retryAborts c;
               readWriteTransaction.statements := [] |} in
        update (conn.set_tx (Some t)) ;;
        update (conn.set_commitTs None) ;;
        ret (Some t, None)
    end.

Definition Begin : M (option contextTransaction * option error) :=
  BeginTx false.

End Model.

(** ** The abort-retry protocol of a read-write transaction *)

#[global] Instance float64_eq_dec : EqDecision float64.
Proof. solve_decision. Defined.
#[global] Instance Time_eq_dec : EqDecision Time.
Proof. solve_decision. Defined.
#[global] Instance Value_eq_dec : EqDecision Value.
Proof. solve_decision. Defined.
#[global] Instance stmtResult_eq_dec : EqDecision stmtResult.
Proof. solve_decision. Defined.

(** What the backing database answers to a statement of a read-write
    transaction: its result, or the Abort signal. *)
Inductive answer :=
| Answer (r : stmtResult)
| Abort.

Inductive commitAnswer :=
| Committed (ts : Time)
| CommitAborted
| CommitFailed (e : error).

(** The backing database as seen by a read-write transaction. *)
Record txBackend := {
  be_ResetForRetry : list event -> RWTx;
  be_Replay : list event -> RWTx -> Statement.t -> answer;
  be_Commit : list event -> RWTx -> commitAnswer
}.

Inductive replayResult :=
| AllIdentical
| Differs
| AbortedAgain.

Definition ErrAborted : error :=
  BackendError codes.Aborted "transaction aborted".

Section RetryProtocol.

Variable tb : txBackend.

(** Modelled from the spec: the replay step of the retry protocol of
    [readWriteTransaction] (transaction.go): every statement issued
    so far is re-executed in its original order on the fresh
    transactional context [ctx], and the replay stops at the first
    statement whose result is not identical to the logged one, or
    that is aborted again. *)
Fixpoint replay (ctx : RWTx) (stmts : list (Statement.t * stmtResult))
  : B replayResult :=
  fun h =>
    match stmts with
    | [] => (AllIdentical, h)
    | (s, original) :: rest =>
        let h' := (h ++ [Tx_Request "replay" [s]])%list in
        match be_Replay tb h ctx s with
        | Abort => (AbortedAgain, h')
        | Answer r =>
            if decide (r = original) then replay ctx rest h'
            else (Differs, h')
        end
    end.

(** Modelled from the spec: the retry protocol of
    [readWriteTransaction] (transaction.go).  Each attempt takes a
    fresh transactional context and replays the log; a differing
    result abandons the retry with
    [ErrAbortedDueToConcurrentModification]; identical replays are
    followed by a new commit attempt; a new Abort restarts the
    procedure, at most [attempts] times, after which the Abort is
    surfaced. *)
Fixpoint retry (attempts : nat) (tx : readWriteTransaction.t)
  : B (Time + error) :=
  fun h =>
    match attempts with
    | O => (inr ErrAborted, h)
    | S n =>
        let ctx := be_ResetForRetry tb h in
        let h1 := (h ++ [Tx_Request "ResetForRetry" []])%list in
        match replay ctx (readWriteTransaction.statements tx) h1 with
        | (Differs, h2) => (inr ErrAbortedDueToConcurrentModification, h2)
        | (AbortedAgain, h2) => retry n tx h2
        | (AllIdentical, h2) =>
            let h3 := (h2 ++ [Tx_Request "Commit" []])%list in
            match be_Commit tb h2 ctx with
            | Committed ts => (inl ts, h3)
            | CommitAborted => retry n tx h3
            | CommitFailed e => (inr e, h3)
            end
        end
    end.

(** Modelled from the spec: [Commit] of a read-write transaction
    (transaction.go).  An Abort is retried when the transaction's
    retry flag is set, and surfaced at once otherwise. *)
Definition rwCommit (maxAttempts : nat) (tx : readWriteTransaction.t)
  : B (Time + error) :=
  fun h =>
    let h1 := (h ++ [Tx_Request "Commit" []])%list in
    match be_Commit tb h (readWriteTransaction.rwTx tx) with
    | Committed ts => (inl ts, h1)
    | CommitFailed e => (inr e, h1)
    | CommitAborted =>
        if readWriteTransaction.retryAborts tx
        then retry maxAttempts tx h1
        else (inr ErrAborted, h1)
    end.

End RetryProtocol.

(** ** A scripted platform for running the model

    The repository's tests replace the backing clients by mocks; the
    definitions below play that part when the model is evaluated on
    concrete inputs. *)

Definition asciiToLower (s : string) : string :=
  string_of_list_ascii
    (map (fun a =>
            if inRange "A" "Z" a
            then ascii_of_nat (nat_of_ascii a + 32) else a)
       (list_ascii_of_string s)).

Definition testlib : golib :=
  {| strings_ToLower := asciiToLower;
     strconv_ParseFloat := fun _ => None;
     spanner_DefaultSessionPoolConfig :=
       {| SessionPoolConfig.MinOpened := 100;
          SessionPoolConfig.MaxOpened := 400;
          SessionPoolConfig.WriteSessions :=
            {| float64bits := 4596373779694328218 |} |} |}.

(** A backing service that accepts everything: client handles are
    numbered by the length of the history, updates touch one row. *)
Definition mockBackend : backend :=
  {| be_NewClientWithConfig := fun h _ _ _ => inl (length h);
     be_NewDatabaseAdminClient := fun h _ => inl (length h);
     be_AdminClient_Close := fun _ _ => None;
     be_UpdateDatabaseDdl := fun _ _ _ _ => None;
     be_Operation_Wait := fun _ _ => None;
     be_ReadWriteTransaction_Update :=
       fun h _ _ => (1, {| unixNano := Z.of_nat (length h) + 1 |}, None);
     be_ReadWriteTransaction_BatchUpdate :=
       fun _ _ ss => (map (fun _ => 1) ss, None);
     be_RWTx_BatchUpdate := fun _ _ ss => (map (fun _ => 1) ss, None);
     be_PartitionedUpdate := fun _ _ _ => (7, None);
     be_Single_Query := fun h _ _ _ => length h;
     be_Client_Apply :=
       fun h _ _ _ => ({| unixNano := Z.of_nat (length h) + 1 |}, None);
     be_Client_ReadOnlyTransaction := fun h _ _ => length h;
     be_NewReadWriteStmtBasedTransaction := fun h _ => inl (length h) |}.

Definition hasPrefix (p s : string) : bool := String.prefix p s.

(** Stand-ins for the parser and the transactions: no statement is a
    client-side statement, schema statements start with CREATE, ALTER or
    DROP, and a rollback ends the transaction through its [close]
    callback and may be made to fail. *)
Definition mockDeps (rollbackErr : option error) : deps :=
  {| parseClientSideStatement := fun _ _ => (None, None);
     isDDL := fun q =>
       (hasPrefix "CREATE" q || hasPrefix "ALTER" q || hasPrefix "DROP" q,
        None);
     prepareSpannerStmt := fun q _ => (NewStatement q, None);
     tx_StartBatchDML := ret (Some ResultNoRows, None);
     tx_RunBatch := ret (Some ResultNoRows, None);
     tx_AbortBatch := ret (Some ResultNoRows, None);
     tx_BufferWrite := fun _ => ret None;
     tx_Rollback :=
       bind (call (request (Tx_Request "Rollback" []) (fun _ => tt)))
         (fun _ => bind (rwClose None None) (fun _ => ret rollbackErr));
     tx_Query := fun _ => ret (txRowIterator 0%nat);
     tx_ExecContext := fun _ => ret (1, None);
     rows_Next := fun _ => ret ([VInt64 1], None);
     rows_Close := fun _ => ret None |}.

Definition emptyWorld : world :=
  {| connectors := ∅; heap := ∅; log := [] |}.

(** A connection as [openDriverConn] builds it, for connector [l]. *)
Definition testConn (l : loc) : conn.t :=
  {| conn.connector := l;
     conn.closed := false;
     conn.client := 0%nat;
     conn.adminClient := 1%nat;
     conn.tx := None;
     conn.commitTs := None;
     conn.database := "projects/p/instances/i/databases/d";
     conn.retryAborts := true;
     conn.execSingleQuery := queryInSingleUse mockBackend;
     conn.execSingleDMLTransactional := execInNewRWTransaction mockBackend;
     conn.execSingleDMLPartitioned := execAsPartitionedDML mockBackend;
     conn.batch := None;
     conn.autocommitDMLMode := Transactional;
     conn.readOnlyStaleness := TimestampBound.zero |}.

Definition testDSN : string := "projects/p/instances/i/databases/d".

Definition testUpdate1 : Statement.t :=
  NewStatement "UPDATE Singers SET Name = 'a' WHERE SingerId = 1".
Definition testUpdate2 : Statement.t :=
  NewStatement "UPDATE Singers SET Name = 'b' WHERE SingerId > 1".
Definition testCreate : string :=
  "CREATE TABLE Singers (SingerId INT64, Name STRING(MAX)) PRIMARY KEY (SingerId)".

(** A read-write transaction that ran two updates, touching two rows
    and one row. *)
Definition testTx (retryAborts : bool) : readWriteTransaction.t :=
  {| readWriteTransaction.rwTx := 5%nat;
     readWriteTransaction.batch := None;
     readWriteTransaction.retryAborts := retryAborts;
     readWriteTransaction.statements :=
       [(testUpdate1, UpdateCount 2); (testUpdate2, UpdateCount 1)] |}.

(** A database in which every replayed update touches two rows and
    every commit is aborted. *)
Definition mockTxBackend : txBackend :=
  {| be_ResetForRetry := fun h => length h;
     be_Replay := fun _ _ _ => Answer (UpdateCount 2);
     be_Commit := fun _ _ => CommitAborted |}.

Definition testState (c : conn.t) : state := {| self := c; history := [] |}.

(** A backing service on which no Spanner client can be created. *)
Definition unreachableBackend : backend :=
  {| be_NewClientWithConfig :=
       fun _ _ _ _ => inr (BackendError codes.Unknown "connection refused");
     be_NewDatabaseAdminClient := be_NewDatabaseAdminClient mockBackend;
     be_AdminClient_Close := be_AdminClient_Close mockBackend;
     be_UpdateDatabaseDdl := be_UpdateDatabaseDdl mockBackend;
     be_Operation_Wait := be_Operation_Wait mockBackend;
     be_ReadWriteTransaction_Update :=
       be_ReadWriteTransaction_Update mockBackend;
     be_ReadWriteTransaction_BatchUpdate :=
       be_ReadWriteTransaction_BatchUpdate mockBackend;
     be_RWTx_BatchUpdate := be_RWTx_BatchUpdate mockBackend;
     be_PartitionedUpdate := be_PartitionedUpdate mockBackend;
     be_Single_Query := be_Single_Query mockBackend;
     be_Client_Apply := be_Client_Apply mockBackend;
     be_Client_ReadOnlyTransaction :=
       be_Client_ReadOnlyTransaction mockBackend;
     be_NewReadWriteStmtBasedTransaction :=
       be_NewReadWriteStmtBasedTransaction mockBackend |}.

Definition testAlter : string := "ALTER TABLE Singers ADD COLUMN Age INT64".

Definition testConfig : connectorConfig.t :=
  {| connectorConfig.host := "";
     connectorConfig.project := "p";
     connectorConfig.instance := "i";
     connectorConfig.database := "d";
     connectorConfig.params := ∅ |}.

(** The world after one [Open] of [testDSN]. *)
Definition openedWorld : world :=
  snd (Open testlib mockBackend testDSN emptyWorld).

(** A connection with a DDL batch of one statement. *)
Definition ddlBatchConn : conn.t :=
  conn.set_batch
    (Some {| batch.tp := ddl; batch.statements := [NewStatement testCreate] |})
    (testConn 0%nat).

(** The read-write transaction that [BeginTx] starts on [testConn]. *)
Definition testBegun : contextTransaction :=
  readWriteTransaction
    {| readWriteTransaction.rwTx := 0%nat;
       readWriteTransaction.batch := None;
       readWriteTransaction.retryAborts := true;
       readWriteTransaction.statements := [] |}.

Definition begunState : state :=
  snd (BeginTx mockBackend false (testState (testConn 0%nat))).

(** A connection that still holds the timestamp of an earlier commit. *)
Definition committedConn : conn.t :=
  conn.set_commitTs (Some {| unixNano := 42 |}) (testConn 0%nat).

(** A connector configured with [retryAbortsInternally=false]. *)
Definition noRetryDSN : string :=
  "projects/p/instances/i/databases/d;retryAbortsInternally=false".

Definition noRetryOpened : run (conn.t + error) * world :=
  Open testlib mockBackend noRetryDSN emptyWorld.

Definition noRetryConn : conn.t :=
  conn.set_retryAborts false (testConn 0%nat).

Definition staleBound : TimestampBound.t :=
  {| TimestampBound.mode := 2; TimestampBound.d := 10000000000;
     TimestampBound.ts := Time_zero |}.

(** ** Vocabulary of the statements below *)

(** In [w] the descriptor [D] is registered to the connector at [l],
    whose clients [cl] and [ad] were created without error and which
    counts [n] live connections. *)
Definition serves (D : string) (l : loc) (cl : Client) (ad : AdminClient)
    (n : Z) (w : world) : Prop :=
  connectors w !! D = Some l
  /\ exists k,
       heap w !! l = Some k
       /\ connector.dsn k = D
       /\ connector.initClient k = true
       /\ connector.client k = Some cl
       /\ connector.clientErr k = None
       /\ connector.adminClient k = Some ad
       /\ connector.adminClientErr k = None
       /\ connector.connCount k = n.

(** The connection [c] belongs to the connector at [l] and uses its
    clients. *)
Definition connOf (l : loc) (cl : Client) (ad : AdminClient) (c : conn.t)
  : Prop :=
  conn.connector c = l /\ conn.client c = cl /\ conn.adminClient c = ad.

(** The connection state after [ResetSession] has reset it. *)
Definition isReset (c : conn.t) : Prop :=
  conn.commitTs c = None
  /\ conn.batch c = None
  /\ conn.retryAborts c = true
  /\ conn.autocommitDMLMode c = Transactional
  /\ conn.readOnlyStaleness c = TimestampBound.zero.

(** The fields that [ResetSession] itself never assigns. *)
Definition sameIdentity (c c' : conn.t) : Prop :=
  conn.connector c' = conn.connector c
  /\ conn.closed c' = conn.closed c
  /\ conn.client c' = conn.client c
  /\ conn.adminClient c' = conn.adminClient c
  /\ conn.tx c' = conn.tx c
  /\ conn.database c' = conn.database c
  /\ conn.execSingleQuery c' = conn.execSingleQuery c
  /\ conn.execSingleDMLTransactional c' = conn.execSingleDMLTransactional c
  /\ conn.execSingleDMLPartitioned c' = conn.execSingleDMLPartitioned c.

(** ** Vocabulary of the further properties *)

(** [Matches r w c c']: the regular expression [r] matches the word
    [w] and turns the submatches [c] into [c']. *)
Inductive Matches : regexp.Regexp -> list ascii -> regexp.caps ->
                    regexp.caps -> Prop :=
| MatchesEmpty c : Matches regexp.Empty [] c c
| MatchesClass p a c : p a = true -> Matches (regexp.Class p) [a] c c
| MatchesCat r1 r2 w1 w2 c c1 c2 :
    Matches r1 w1 c c1 -> Matches r2 w2 c1 c2 ->
    Matches (regexp.Cat r1 r2) (w1 ++ w2)%list c c2
| MatchesAltL r1 r2 w c c' :
    Matches r1 w c c' -> Matches (regexp.Alt r1 r2) w c c'
| MatchesAltR r1 r2 w c c' :
    Matches r2 w c c' -> Matches (regexp.Alt r1 r2) w c c'
| MatchesStarNil r c : Matches (regexp.Star r) [] c c
| MatchesStarApp r w1 w2 c c1 c2 :
    Matches r w1 c c1 -> Matches (regexp.Star r) w2 c1 c2 ->
    Matches (regexp.Star r) (w1 ++ w2)%list c c2
| MatchesGroup n r w c c' :
    Matches r w c c' -> Matches (regexp.Group n r) w c ((n, w) :: c').

(** The group numbers that occur in a regular expression. *)
Fixpoint groupsOf (r : regexp.Regexp) : list nat :=
  match r with
  | regexp.Empty | regexp.Class _ => []
  | regexp.Cat r1 r2 | regexp.Alt r1 r2 => (groupsOf r1 ++ groupsOf r2)%list
  | regexp.Star r' => groupsOf r'
  | regexp.Group n r' => n :: groupsOf r'
  end.

(** The text of the optional parts of a descriptor, given what the
    host, instance/database and parameter groups captured. *)
Definition hostPart (oh : option (list ascii)) : list ascii :=
  match oh with
  | Some h => (h ++ list_ascii_of_string "/")%list
  | None => []
  end.

Definition instancePart (oi : option (list ascii * option (list ascii)))
  : list ascii :=
  match oi with
  | Some (i, od) =>
      (list_ascii_of_string "/instances/" ++ i
       ++ match od with
          | Some d => (list_ascii_of_string "/databases/" ++ d)%list
          | None => []
          end)%list
  | None => []
  end.

Definition paramsPart (op : option (ascii * list ascii)) : list ascii :=
  match op with
  | Some (sep, p) => sep :: p
  | None => []
  end.


(** A batch of the connection is a DDL or a DML batch, and it never
    coexists with a transaction. *)
Definition batchTxExclusive (c : conn.t) : Prop :=
  match conn.batch c with
  | Some b => batch.tp b = ddl \/ batch.tp b = dml
  | None => True
  end
  /\ (conn.batch c = None \/ conn.tx c = None).

(** * Properties *)

Section ConnectionProperties.

Variable be : backend.
Variable P : deps.

(** C10: [CommitTimestamp] fails with FailedPrecondition when no
    commit timestamp is stored, returns the stored timestamp
    otherwise, and never changes the connection or talks to the
    backing clients. *)
Theorem CommitTimestamp_absent_or_stored (s : state) :
  (conn.commitTs (self s) = None ->
   exists e, CommitTimestamp s = ((Time_zero, Some e), s)
             /\ ErrCode e = codes.FailedPrecondition)
  /\ (forall ts, conn.commitTs (self s) = Some ts ->
                 CommitTimestamp s = ((ts, None), s)).
Proof.
  unfold CommitTimestamp, bind, this, ret. split.
  - intros ->. eexists. split; [reflexivity | reflexivity].
  - intros ts ->. reflexivity.
Qed.

(** C7: [StartBatchDDL] fails with FailedPrecondition and leaves the
    connection untouched when a batch is open or a transaction is
    active; otherwise it opens an empty DDL batch. *)
Theorem startBatchDDL_guarded (s : state) :
  (conn.batch (self s) <> None \/ inTransaction (self s) = true ->
   exists e, startBatchDDL s = ((None, Some e), s)
             /\ StartBatchDDL s = (Some e, s)
             /\ ErrCode e = codes.FailedPrecondition)
  /\ (conn.batch (self s) = None -> inTransaction (self s) = false ->
      let opened :=
        {| self :=
             conn.set_batch
               (Some {| batch.tp := ddl; batch.statements := [] |})
               (self s);
           history := history s |} in
      startBatchDDL s = ((Some ResultNoRows, None), opened)
      /\ StartBatchDDL s = (None, opened)).
Proof.
  unfold StartBatchDDL, startBatchDDL, bind, this, ret, update.
  destruct s as [c h]; simpl. split.
  - intros Hopen. destruct (conn.batch c) as [b|] eqn:Hb.
    + eexists; repeat split; reflexivity.
    + destruct Hopen as [Hne | Htx]; [congruence|].
      rewrite Htx. eexists; repeat split; reflexivity.
  - intros -> ->. split; reflexivity.
Qed.

(** C8: without a transaction, running an open DML batch that holds
    no statement succeeds with zero affected rows, sends nothing to
    the backing clients and leaves no batch on the connection. *)
Theorem runBatch_empty_DML (s : state) :
  inTransaction (self s) = false ->
  conn.batch (self s) =
    Some {| batch.tp := dml; batch.statements := [] |} ->
  let done :=
    {| self := conn.set_batch None (self s); history := history s |} in
  runBatch be P s = ((Some (result 0), None), done)
  /\ RunBatch be P s = (None, done)
  /\ conn.batch (self done) = None
  /\ InDMLBatch (self done) = false
  /\ InDDLBatch (self done) = false.
Proof.
  intros Htx Hb. destruct s as [c h]; simpl in *.
  unfold RunBatch, runBatch, runDMLBatch, execBatchDML, bind, this, ret,
    update; simpl.
  rewrite Htx, Hb; simpl.
  unfold InDMLBatch, InDDLBatch, inTransaction in *; simpl.
  destruct (conn.tx c); [discriminate|]. repeat split; reflexivity.
Qed.

Lemma reset_isReset (c : conn.t) :
  let c' :=
    conn.set_readOnlyStaleness TimestampBound.zero
      (conn.set_autocommitDMLMode Transactional
         (conn.set_retryAborts true
            (conn.set_batch None (conn.set_commitTs None c)))) in
  isReset c' /\ sameIdentity c c'.
Proof. unfold isReset, sameIdentity. simpl. repeat split. Qed.

(** C9: on a connection that is not closed, [ResetSession] rolls
    back the open transaction, reports [driver.ErrBadConn] when the
    rollback fails, and otherwise resets commit timestamp, batch,
    retry flag, autocommit DML mode and staleness; without a
    transaction it only resets and succeeds. *)
Theorem ResetSession_open_connection (s : state) :
  conn.closed (self s) = false ->
  (inTransaction (self s) = false ->
   exists c',
     ResetSession P s = (None, {| self := c'; history := history s |})
     /\ isReset c' /\ sameIdentity (self s) c')
  /\ (inTransaction (self s) = true ->
      forall err s1,
        tx_Rollback P s = (err, s1) ->
        (forall e, err = Some e -> ResetSession P s = (Some ErrBadConn, s1))
        /\ (err = None ->
            exists c',
              ResetSession P s
              = (None, {| self := c'; history := history s1 |})
              /\ isReset c' /\ sameIdentity (self s1) c')).
Proof.
  intros Hopen. destruct s as [c h]; simpl in *.
  unfold ResetSession, bind, this, ret, update; simpl. rewrite Hopen.
  split.
  - intros ->. eexists. split; [reflexivity|]. apply reset_isReset.
  - intros -> err s1 Hrb. rewrite Hrb. split.
    + intros e ->. reflexivity.
    + intros ->. destruct s1 as [c1 h1]; simpl.
      eexists. split; [reflexivity|]. apply reset_isReset.
Qed.

(** The two tests of the closed flag: were it set, [Ping] and
    [ResetSession] would report [driver.ErrBadConn], leave the
    connection as it is and send nothing to the backing clients. *)
Lemma Ping_ResetSession_test_closed_flag (s : state) :
  conn.closed (self s) = true ->
  Ping P s = (Returns (Some ErrBadConn), s)
  /\ ResetSession P s = (Some ErrBadConn, s).
Proof.
  intros Hclosed. destruct s as [c h]; simpl in *.
  unfold Ping, ResetSession, bind, this, ret; simpl.
  rewrite Hclosed. split; reflexivity.
Qed.

(** C5: an [ExecContext] of a schema statement is rejected with
    FailedPrecondition inside a transaction and when a DML batch is
    open; with an open DDL batch the statement is put behind the
    statements of the batch and nothing is submitted; otherwise it is
    submitted to the admin client and, once accepted, awaited. *)
Theorem ExecContext_DDL (query : string) (args : list NamedValue)
    (s : state) :
  parseClientSideStatement P (self s) query = (None, None) ->
  isDDL P query = (true, None) ->
  let c := self s in
  let cleared := conn.set_commitTs None c in
  let ad := conn.adminClient c in
  let submitted :=
    (history s ++ [UpdateDatabaseDdl ad (conn.database c) [query]])%list in
  (inTransaction c = true ->
   exists e,
     ExecContext be P query args s
     = ((None, Some e), {| self := cleared; history := history s |})
     /\ ErrCode e = codes.FailedPrecondition)
  /\ (forall b,
        inTransaction c = false -> conn.batch c = Some b ->
        batch.tp b = dml ->
        exists e,
          ExecContext be P query args s
          = ((None, Some e), {| self := cleared; history := history s |})
          /\ ErrCode e = codes.FailedPrecondition)
  /\ (forall b,
        inTransaction c = false -> conn.batch c = Some b ->
        batch.tp b = ddl ->
        let queued :=
          {| batch.tp := ddl;
             batch.statements :=
               (batch.statements b ++ [NewStatement query])%list |} in
        let s' :=
          {| self := conn.set_batch (Some queued) cleared;
             history := history s |} in
        ExecContext be P query args s = ((Some ResultNoRows, None), s')
        /\ conn.batch (self s') = Some queued
        /\ InDDLBatch (self s') = true)
  /\ (inTransaction c = false -> conn.batch c = None ->
      ExecContext be P query args s
      = match be_UpdateDatabaseDdl be (history s) ad (conn.database c)
                [query] with
        | Some e =>
            ((None, Some e), {| self := cleared; history := submitted |})
        | None =>
            (match be_Operation_Wait be submitted ad with
             | Some e => (None, Some e)
             | None => (Some ResultNoRows, None)
             end,
             {| self := cleared;
                history := (submitted ++ [Operation_Wait ad])%list |})
        end).
Proof.
  intros Hcs Hddl c cleared ad submitted. subst c cleared ad submitted.
  destruct s as [c h]; simpl in *.
  unfold ExecContext, bind, this, ret, update; simpl.
  rewrite Hcs, Hddl. split; [|split; [|split]].
  - intros ->. eexists. split; reflexivity.
  - intros b -> Hb Htp. unfold execDDL, bind, this, ret, update; simpl.
    rewrite Hb, Htp; simpl. eexists. split; reflexivity.
  - intros b -> Hb Htp. unfold execDDL, bind, this, ret, update; simpl.
    rewrite Hb, Htp; simpl. unfold batch.append. rewrite Htp.
    split; [reflexivity|]. split; reflexivity.
  - intros -> Hb.
    unfold execDDL, bind, this, ret, update, call, request; simpl.
    rewrite Hb; simpl.
    destruct (be_UpdateDatabaseDdl be h (conn.adminClient c)
                (conn.database c) [query]); simpl; [reflexivity|].
    destruct (be_Operation_Wait be _ (conn.adminClient c)); reflexivity.
Qed.




End ConnectionProperties.

Section RetryProperties.

Variable tb : txBackend.

(** Replaying a log whose first part is answered identically goes on
    with the rest of the log. *)
Lemma replay_identical_prefix (ctx : RWTx)
    (before rest : list (Statement.t * stmtResult)) (h h1 : list event) :
  replay tb ctx before h = (AllIdentical, h1) ->
  replay tb ctx (before ++ rest)%list h = replay tb ctx rest h1.
Proof.
  revert h. induction before as [|[s original] before IH]; intros h Hrun.
  - simpl in Hrun. inversion Hrun; subst. reflexivity.
  - simpl in *. destruct (be_Replay tb h ctx s) as [r|]; [|discriminate].
    destruct (decide (r = original)); [|discriminate].
    apply IH. exact Hrun.
Qed.

(** C1: in a retry attempt, when the statements before [s] are
    replayed with identical results and the replay of [s] returns a
    result that differs from the logged one, the retry ends at once
    with [ErrAbortedDueToConcurrentModification], whatever the retry
    flag of the transaction and however many attempts remain: the
    last request made is the replay of [s]. *)
Theorem retry_differing_replay_is_concurrent_modification
    (attempts : nat) (tx : readWriteTransaction.t) (h h1 : list event)
    (before after : list (Statement.t * stmtResult))
    (s : Statement.t) (original r : stmtResult) :
  readWriteTransaction.statements tx
  = (before ++ (s, original) :: after)%list ->
  replay tb (be_ResetForRetry tb h) before
    (h ++ [Tx_Request "ResetForRetry" []])%list
  = (AllIdentical, h1) ->
  be_Replay tb h1 (be_ResetForRetry tb h) s = Answer r ->
  r <> original ->
  retry tb (S attempts) tx h
  = (inr ErrAbortedDueToConcurrentModification,
     (h1 ++ [Tx_Request "replay" [s]])%list).
Proof.
  intros Hlog Hbefore Hanswer Hdiff. simpl.
  rewrite Hlog, (replay_identical_prefix _ _ _ _ _ Hbefore). simpl.
  rewrite Hanswer. destruct (decide (r = original)); [contradiction|].
  reflexivity.
Qed.

(** An aborted commit is retried only when the retry flag is set; the
    retry is then what the caller of [Commit] sees. *)
Lemma rwCommit_aborted (maxAttempts : nat) (tx : readWriteTransaction.t)
    (h : list event) :
  be_Commit tb h (readWriteTransaction.rwTx tx) = CommitAborted ->
  rwCommit tb maxAttempts tx h
  = if readWriteTransaction.retryAborts tx
    then retry tb maxAttempts tx (h ++ [Tx_Request "Commit" []])%list
    else (inr ErrAborted, (h ++ [Tx_Request "Commit" []])%list).
Proof. intros Hc. unfold rwCommit. rewrite Hc. reflexivity. Qed.

End RetryProperties.

Section RegistryProperties.

Variable G : golib.
Variable be : backend.

Lemma wrap32_small (z : Z) : - 2 ^ 31 <= z < 2 ^ 31 -> wrap32 z = z.
Proof. intros Hz. unfold wrap32. rewrite Z.mod_small; lia. Qed.

(** Every error of the descriptor parser is an InvalidArgument. *)
Lemma extractConnectorParams_loop_InvalidArgument (kvs : list string)
    (params : gmap string string) (e : error) :
  extractConnectorParams_loop G kvs params = inr e ->
  ErrCode e = codes.InvalidArgument.
Proof.
  revert params. induction kvs as [|kv rest IH]; intros params; simpl.
  - discriminate.
  - destruct (String.eqb kv ""); [apply IH|].
    destruct (strings.SplitN2 kv "=") as [|k [|v [|x l]]];
      try (intros Heq; inversion Heq; reflexivity).
    apply IH.
Qed.

Lemma extractConnectorConfig_InvalidArgument (dsn : string) (e : error) :
  extractConnectorConfig G dsn = Returns (inr e) ->
  ErrCode e = codes.InvalidArgument.
Proof.
  unfold extractConnectorConfig.
  destruct (subexpLoop _ _ _) as [matches|]; [|discriminate].
  unfold extractConnectorParams.
  destruct (String.eqb _ ""); [discriminate|].
  destruct (extractConnectorParams_loop G _ ∅) as [params|e'] eqn:Hloop;
    [discriminate|].
  intros Heq. inversion Heq; subst.
  eapply extractConnectorParams_loop_InvalidArgument. exact Hloop.
Qed.

(** Whenever [dsnRegExp] finds a match, the descriptor parser returns:
    it panics only for a descriptor without a match. *)
Lemma extractConnectorConfig_returns_on_match (dsn : string)
    (m : list string) :
  regexp.FindStringSubmatch dsnRegExp 15 dsn = Some m ->
  exists r, extractConnectorConfig G dsn = Returns r.
Proof.
  intros Hm. unfold extractConnectorConfig. rewrite Hm.
  unfold regexp.FindStringSubmatch in Hm.
  destruct (regexp.search dsnRegExp (list_ascii_of_string dsn)) as [c|];
    [|discriminate].
  inversion Hm; subst; clear Hm. simpl.
  destruct (extractConnectorParams G _); eauto.
Qed.

(** A descriptor whose parameters are malformed is refused with an
    InvalidArgument error and nothing is registered. *)
Lemma Open_error_registers_nothing (dsn : string) (w : world) (e : error) :
  connectors w !! dsn = None ->
  extractConnectorConfig G dsn = Returns (inr e) ->
  Open G be dsn w = (Returns (inr e), w)
  /\ OpenConnector G dsn w = (Returns (inr e), w)
  /\ ErrCode e = codes.InvalidArgument.
Proof.
  intros Hnew Hcfg. unfold Open, OpenConnector, newConnector.
  rewrite Hnew, Hcfg. repeat split.
  eapply extractConnectorConfig_InvalidArgument. exact Hcfg.
Qed.

(** C2 (what the code does): a descriptor in which [dsnRegExp] finds
    no match makes [Open] and [OpenConnector] panic on [match[i]]
    instead of returning an InvalidArgument error; nothing is
    registered. *)
Theorem Open_without_match_panics (dsn : string) (w : world) :
  connectors w !! dsn = None ->
  regexp.FindStringSubmatch dsnRegExp 15 dsn = None ->
  Open G be dsn w = (Panics "runtime error: index out of range", w)
  /\ OpenConnector G dsn w
     = (Panics "runtime error: index out of range", w).
Proof.
  intros Hnew Hnomatch. unfold Open, OpenConnector, newConnector.
  rewrite Hnew. unfold extractConnectorConfig. rewrite Hnomatch.
  split; reflexivity.
Qed.

Lemma AddInt32_incr (n : Z) :
  - 2 ^ 31 <= n < 2 ^ 31 - 1 -> AddInt32 n 1 = n + 1.
Proof. intros Hn. unfold AddInt32. apply wrap32_small. lia. Qed.

Lemma AddInt32_decr (n : Z) :
  - 2 ^ 31 < n < 2 ^ 31 -> AddInt32 n (-1) = n - 1.
Proof.
  intros Hn. unfold AddInt32. replace (n + -1) with (n - 1) by lia.
  apply wrap32_small. lia.
Qed.

(** The first [Open] of an unregistered, well-formed descriptor
    allocates a new connector, creates its two clients, registers it
    and counts one connection. *)
Lemma Open_first (D : string) (cfg : connectorConfig.t) (cl : Client)
    (ad : AdminClient) (w0 : world) :
  connectors w0 !! D = None ->
  extractConnectorConfig G D = Returns (inl cfg) ->
  let opts := (buildOptions cfg ++ [WithUserAgent userAgent])%list in
  let created :=
    NewClientWithConfig (databaseNameOf cfg) (buildClientConfig G cfg) opts in
  be_NewClientWithConfig be (log w0) (databaseNameOf cfg)
    (buildClientConfig G cfg) opts = inl cl ->
  be_NewDatabaseAdminClient be (log w0 ++ [created])%list opts = inl ad ->
  let l := fresh (dom (heap w0)) in
  exists c1 w1,
    Open G be D w0 = (Returns (inl c1), w1)
    /\ connOf l cl ad c1
    /\ heap w0 !! l = None
    /\ serves D l cl ad 1 w1
    /\ log w1 = (log w0 ++ [created; NewDatabaseAdminClient opts])%list.
Proof.
  intros Hnew Hcfg opts created Hcl Had l.
  unfold Open, newConnector. rewrite Hnew, Hcfg.
  unfold openDriverConn; simpl. rewrite lookup_insert_eq; simpl.
  fold opts. fold created. rewrite Hcl, Had; simpl.
  eexists _, _. split; [reflexivity|]. simpl.
  split; [repeat split|].
  split; [apply not_elem_of_dom, is_fresh|].
  split; [|rewrite <- app_assoc; reflexivity].
  unfold serves; simpl. rewrite lookup_insert_eq. split; [reflexivity|].
  eexists. rewrite lookup_insert_eq. split; [reflexivity|]. simpl.
  repeat split.
Qed.

(** A further [Open] of a registered descriptor reuses the connector
    and its clients and counts one more connection. *)
Lemma Open_shared (D : string) (l : loc) (cl : Client) (ad : AdminClient)
    (n : Z) (w : world) :
  serves D l cl ad n w ->
  - 2 ^ 31 <= n < 2 ^ 31 - 1 ->
  exists c w',
    Open G be D w = (Returns (inl c), w')
    /\ connOf l cl ad c
    /\ serves D l cl ad (n + 1) w'
    /\ log w' = log w.
Proof.
  intros (Hreg & k & Hk & Hdsn & Hinit & Hcl & Hce & Had & Hae & Hn) Hrange.
  unfold Open, newConnector. rewrite Hreg.
  unfold openDriverConn. rewrite Hk, Hinit, Hce, Hae, Hcl, Had.
  eexists _, _. split; [reflexivity|]. simpl.
  split; [repeat split|]. split; [|reflexivity].
  unfold serves; simpl. split; [exact Hreg|].
  eexists. rewrite lookup_insert_eq. split; [reflexivity|]. simpl.
  rewrite Hn, AddInt32_incr by lia. repeat split; assumption.
Qed.

(** Closing a connection that is not the last one only decrements
    the count. *)
Lemma Close_not_last (D : string) (l : loc) (cl : Client)
    (ad : AdminClient) (n : Z) (w : world) (c : conn.t) :
  serves D l cl ad n w ->
  1 < n < 2 ^ 31 ->
  connOf l cl ad c ->
  exists w',
    Close be c w = (Returns None, w')
    /\ serves D l cl ad (n - 1) w'
    /\ log w' = log w.
Proof.
  intros (Hreg & k & Hk & Hdsn & Hinit & Hcl & Hce & Had & Hae & Hn) Hrange
    (Hc & _ & _).
  unfold Close. rewrite Hc, Hk, Hn, AddInt32_decr by lia.
  destruct (Z.ltb_spec 0 (n - 1)); [|lia].
  eexists. split; [reflexivity|]. split; [|reflexivity].
  unfold serves; simpl. split; [exact Hreg|].
  eexists. rewrite lookup_insert_eq. split; [reflexivity|]. simpl.
  repeat split; assumption.
Qed.

(** Closing the last connection closes both clients and unregisters
    the descriptor; the next [newConnector] allocates another
    connector. *)
Lemma Close_last (D : string) (l : loc) (cl : Client) (ad : AdminClient)
    (w : world) (c : conn.t) (cfg : connectorConfig.t) :
  serves D l cl ad 1 w ->
  connOf l cl ad c ->
  extractConnectorConfig G D = Returns (inl cfg) ->
  exists w',
    Close be c w
    = (Returns (be_AdminClient_Close be
                  (log w ++ [Client_Close cl])%list ad), w')
    /\ connectors w' !! D = None
    /\ connector.connCount <$> (heap w' !! l) = Some 0
    /\ log w' = (log w ++ [Client_Close cl; AdminClient_Close ad])%list
    /\ exists l' w'',
         newConnector G D w' = (Returns (inl l'), w'')
         /\ l' <> l
         /\ connectors w'' !! D = Some l'
         /\ exists k',
              heap w'' !! l' = Some k'
              /\ connector.connCount k' = 0
              /\ connector.initClient k' = false
              /\ connector.client k' = None
              /\ connector.adminClient k' = None.
Proof.
  intros (Hreg & k & Hk & Hdsn & Hinit & Hcl & Hce & Had & Hae & Hn)
    (Hc & Hccl & Hcad) Hcfg.
  unfold Close. rewrite Hc, Hk, Hn, Hccl, Hcad, Hdsn.
  change (AddInt32 1 (-1)) with 0. simpl.
  eexists. split; [reflexivity|]. simpl.
  split; [apply lookup_delete_eq|].
  split; [rewrite lookup_insert_eq; reflexivity|].
  split; [rewrite <- app_assoc; reflexivity|].
  unfold newConnector; simpl. rewrite lookup_delete_eq, Hcfg.
  eexists _, _. split; [reflexivity|]. simpl.
  split.
  - intros Heq.
    pose proof (is_fresh (dom (<[l := connector.set_connCount k 0]> (heap w))))
      as Hfresh.
    rewrite Heq in Hfresh. apply Hfresh.
    apply elem_of_dom. rewrite lookup_insert_eq. eauto.
  - split; [apply lookup_insert_eq|].
    eexists. rewrite lookup_insert_eq. split; [reflexivity|].
    simpl. repeat split.
Qed.

(** On the [Driver.Open] path: for a well-formed descriptor whose
    clients can be created, the first open registers a new connector
    with count 1; from then on every open returns a connection on that
    same connector and on its two clients, creates no client and
    increments the count; every close decrements it; a close that leaves
    connections behind touches neither the registry nor the clients, and
    the close of the last connection closes both clients and removes the
    connector from the registry, after which the descriptor gets a new
    connector. *)
Theorem connector_shared_and_counted (D : string) (cfg : connectorConfig.t)
    (cl : Client) (ad : AdminClient) (w0 : world) :
  connectors w0 !! D = None ->
  extractConnectorConfig G D = Returns (inl cfg) ->
  let opts := (buildOptions cfg ++ [WithUserAgent userAgent])%list in
  let created :=
    NewClientWithConfig (databaseNameOf cfg) (buildClientConfig G cfg) opts in
  be_NewClientWithConfig be (log w0) (databaseNameOf cfg)
    (buildClientConfig G cfg) opts = inl cl ->
  be_NewDatabaseAdminClient be (log w0 ++ [created])%list opts = inl ad ->
  let l := fresh (dom (heap w0)) in
  (exists c1 w1,
     Open G be D w0 = (Returns (inl c1), w1)
     /\ connOf l cl ad c1
     /\ heap w0 !! l = None
     /\ serves D l cl ad 1 w1
     /\ log w1 = (log w0 ++ [created; NewDatabaseAdminClient opts])%list)
  /\ forall (n : Z) (w : world),
       serves D l cl ad n w ->
       1 <= n < 2 ^ 31 - 1 ->
       (exists c w',
          Open G be D w = (Returns (inl c), w')
          /\ connOf l cl ad c
          /\ serves D l cl ad (n + 1) w'
          /\ log w' = log w)
       /\ forall c : conn.t,
            connOf l cl ad c ->
            (1 < n ->
             exists w',
               Close be c w = (Returns None, w')
               /\ serves D l cl ad (n - 1) w'
               /\ log w' = log w)
            /\ (n = 1 ->
                exists w',
                  Close be c w
                  = (Returns (be_AdminClient_Close be
                                (log w ++ [Client_Close cl])%list ad), w')
                  /\ connectors w' !! D = None
                  /\ connector.connCount <$> (heap w' !! l) = Some 0
                  /\ log w'
                     = (log w
                        ++ [Client_Close cl; AdminClient_Close ad])%list
                  /\ exists l' w'',
                       newConnector G D w' = (Returns (inl l'), w'')
                       /\ l' <> l
                       /\ connectors w'' !! D = Some l'
                       /\ exists k',
                            heap w'' !! l' = Some k'
                            /\ connector.connCount k' = 0
                            /\ connector.initClient k' = false
                            /\ connector.client k' = None
                            /\ connector.adminClient k' = None).
Proof.
  intros Hnew Hcfg opts created Hcl Had l.
  split; [exact (Open_first D cfg cl ad w0 Hnew Hcfg Hcl Had)|].
  intros n w Hw Hrange. split.
  - apply (Open_shared D l cl ad n w Hw). lia.
  - intros c Hc. split.
    + intros Hn. apply (Close_not_last D l cl ad n w c Hw); [lia|exact Hc].
    + intros ->. apply (Close_last D l cl ad w c cfg Hw Hc Hcfg).
Qed.

(** [Driver.Open] is [OpenConnector] followed by [Connect], which is
    how [database/sql] opens its connections. *)
Lemma Open_is_OpenConnector_then_Connect (D : string) (w : world) :
  Open G be D w
  = match OpenConnector G D w with
    | (Returns (inl l), w') => Connect be l w'
    | (Returns (inr e), w') => (Returns (inr e), w')
    | (Panics why, w') => (Panics why, w')
    end.
Proof.
  unfold Open, OpenConnector, Connect.
  destruct (newConnector G D w) as [[[l|e]|why] w']; reflexivity.
Qed.

(** A [Connect] on a connector that serves connections reuses its
    clients and counts one more connection. *)
Lemma Connect_shared (D : string) (l : loc) (cl : Client) (ad : AdminClient)
    (n : Z) (w : world) :
  serves D l cl ad n w ->
  - 2 ^ 31 <= n < 2 ^ 31 - 1 ->
  exists c w',
    Connect be l w = (Returns (inl c), w')
    /\ connOf l cl ad c
    /\ serves D l cl ad (n + 1) w'
    /\ log w' = log w.
Proof.
  intros (Hreg & k & Hk & Hdsn & Hinit & Hcl & Hce & Had & Hae & Hn) Hrange.
  unfold Connect, openDriverConn. rewrite Hk, Hinit, Hce, Hae, Hcl, Had.
  eexists _, _. split; [reflexivity|]. simpl.
  split; [repeat split|]. split; [|reflexivity].
  unfold serves; simpl. split; [exact Hreg|].
  eexists. rewrite lookup_insert_eq. split; [reflexivity|]. simpl.
  rewrite Hn, AddInt32_incr by lia. repeat split; assumption.
Qed.

(** C4 (what the code does): the close of the last connection closes
    both clients and unregisters the connector, but the connector keeps
    its closed clients and its [sync.Once] has run.  A [Connect] on it,
    which is what [database/sql] calls for its next connection, creates
    no client and returns a connection on the unregistered connector and
    on the closed clients, counted as its first connection.  An [Open]
    of the same descriptor then allocates another connector, so that two
    live connections of one descriptor are on two connectors. *)
Theorem Connect_after_last_Close_reuses_closed_clients (D : string)
    (l : loc) (cl : Client) (ad : AdminClient) (w : world) (c : conn.t)
    (cfg : connectorConfig.t) :
  serves D l cl ad 1 w ->
  connOf l cl ad c ->
  extractConnectorConfig G D = Returns (inl cfg) ->
  exists w1 c2 w2,
    Close be c w
    = (Returns (be_AdminClient_Close be
                  (log w ++ [Client_Close cl])%list ad), w1)
    /\ log w1 = (log w ++ [Client_Close cl; AdminClient_Close ad])%list
    /\ connectors w1 !! D = None
    /\ Connect be l w1 = (Returns (inl c2), w2)
    /\ connOf l cl ad c2
    /\ log w2 = log w1
    /\ connectors w2 !! D = None
    /\ (connector.connCount <$> heap w2 !! l) = Some 1
    /\ let l' := fresh (dom (heap w2)) in
       let opts := (buildOptions cfg ++ [WithUserAgent userAgent])%list in
       let created :=
         NewClientWithConfig (databaseNameOf cfg) (buildClientConfig G cfg)
           opts in
       l' <> l
       /\ forall (cl' : Client) (ad' : AdminClient),
            be_NewClientWithConfig be (log w2) (databaseNameOf cfg)
              (buildClientConfig G cfg) opts = inl cl' ->
            be_NewDatabaseAdminClient be (log w2 ++ [created])%list opts
            = inl ad' ->
            exists c3 w3,
              Open G be D w2 = (Returns (inl c3), w3)
              /\ connOf l' cl' ad' c3
              /\ conn.connector c3 <> conn.connector c2
              /\ serves D l' cl' ad' 1 w3
              /\ (connector.connCount <$> heap w3 !! l) = Some 1
              /\ log w3
                 = (log w2 ++ [created; NewDatabaseAdminClient opts])%list.
Proof.
  intros (Hreg & k & Hk & Hdsn & Hinit & Hcl & Hce & Had & Hae & Hn)
    (Hc & Hccl & Hcad) Hcfg.
  unfold Close. rewrite Hc, Hk, Hn, Hccl, Hcad, Hdsn.
  change (AddInt32 1 (-1)) with 0. simpl.
  eexists _, _, _. split; [reflexivity|]. simpl.
  split; [rewrite <- app_assoc; reflexivity|].
  split; [apply lookup_delete_eq|].
  unfold Connect, openDriverConn; simpl.
  rewrite lookup_insert_eq.
  change (connector.initClient (connector.set_connCount k 0))
    with (connector.initClient k).
  rewrite Hinit.
  change (connector.clientErr (connector.set_connCount k 0))
    with (connector.clientErr k).
  change (connector.adminClientErr (connector.set_connCount k 0))
    with (connector.adminClientErr k).
  change (connector.client (connector.set_connCount k 0))
    with (connector.client k).
  change (connector.adminClient (connector.set_connCount k 0))
    with (connector.adminClient k).
  rewrite Hce, Hae, Hcl, Had.
  change (AddInt32 0 1) with 1.
  split; [reflexivity|]. simpl.
  split; [repeat split|]. split; [reflexivity|].
  split; [apply lookup_delete_eq|].
  split; [rewrite lookup_insert_eq; reflexivity|].
  set (w2 := {| connectors := delete D (connectors w); heap := _; log := _ |}).
  assert (Hfree : heap w2 !! fresh (dom (heap w2)) = None)
    by apply not_elem_of_dom, is_fresh.
  assert (Hl : heap w2 !! l = Some (connector.set_connCount
                                      (connector.set_connCount k 0) 1))
    by (subst w2; simpl; apply lookup_insert_eq).
  assert (Hne : fresh (dom (heap w2)) <> l).
  { intros Heq. rewrite Heq, Hl in Hfree. discriminate. }
  split; [exact Hne|].
  intros cl' ad' Hcl' Had'.
  assert (Hnew : connectors w2 !! D = None) by apply lookup_delete_eq.
  unfold Open, newConnector. rewrite Hnew, Hcfg.
  unfold openDriverConn; simpl. rewrite lookup_insert_eq; simpl.
  rewrite Hcl', Had'; simpl.
  eexists _, _. split; [reflexivity|]. simpl.
  split; [repeat split|]. split; [exact Hne|].
  split.
  - unfold serves; simpl. rewrite lookup_insert_eq. split; [reflexivity|].
    eexists. rewrite lookup_insert_eq. split; [reflexivity|]. simpl.
    repeat split.
  - split; [|rewrite <- app_assoc; reflexivity].
    rewrite !lookup_insert_ne by exact Hne.
    rewrite lookup_insert_eq. reflexivity.
Qed.

End RegistryProperties.

Section ClosedConnections.

Variable G : golib.
Variable be : backend.
Variable P : deps.

(** The connection that [openDriverConn] returns, field by field. *)
Lemma openDriverConn_connection (l : loc) (w w1 : world) (c : conn.t) :
  openDriverConn be l w = (Returns (inl c), w1) ->
  exists k cl ad,
    heap w1 !! l = Some k
    /\ c = {| conn.connector := l;
              conn.closed := false;
              conn.client := cl;
              conn.adminClient := ad;
              conn.tx := None;
              conn.commitTs := None;
              conn.database := databaseNameOf (connector.connectorConfig k);
              conn.retryAborts := connector.retryAbortsInternally k;
              conn.execSingleQuery := queryInSingleUse be;
              conn.execSingleDMLTransactional := execInNewRWTransaction be;
              conn.execSingleDMLPartitioned := execAsPartitionedDML be;
              conn.batch := None;
              conn.autocommitDMLMode := Transactional;
              conn.readOnlyStaleness := TimestampBound.zero |}.
Proof.
  unfold openDriverConn. destruct (heap w !! l) as [k|]; [|discriminate].
  destruct (if connector.initClient k then _ else _) as [c1 h1] eqn:Hinit.
  assert (Hsame : connector.retryAbortsInternally c1
                  = connector.retryAbortsInternally k
                  /\ connector.connectorConfig c1
                     = connector.connectorConfig k).
  { destruct (connector.initClient k).
    - inversion Hinit; subst. split; reflexivity.
    - unfold initClients in Hinit. inversion Hinit; subst.
      split; reflexivity. }
  destruct Hsame as (Hretry & Hconfig).
  destruct (connector.clientErr c1); [discriminate|].
  destruct (connector.adminClientErr c1); [discriminate|].
  destruct (connector.client c1) as [cl|]; [|discriminate].
  destruct (connector.adminClient c1) as [ad|]; [|discriminate].
  intros Hrun. inversion Hrun; subst; clear Hrun.
  eexists _, cl, ad. simpl. rewrite lookup_insert_eq.
  split; [reflexivity|]. simpl. rewrite Hconfig. reflexivity.
Qed.

(** C3 (what the code does): [conn.Close] assigns nothing to the
    connection, so the closed flag that [Ping], [ResetSession] and
    [IsValid] test is still unset after it.  On a connection that [Open]
    or [Connect] returned and that was closed, [IsValid] answers true,
    [ResetSession] succeeds instead of reporting [driver.ErrBadConn],
    [CommitTimestamp] and [StartBatchDDL] answer as on an open
    connection, and [Ping] sends its query and succeeds whenever the
    query is still answered with 1. *)
Theorem Close_does_not_mark_connection_closed (D : string) (l : loc)
    (w w1 : world) (c : conn.t) :
  Open G be D w = (Returns (inl c), w1)
  \/ Connect be l w = (Returns (inl c), w1) ->
  exists err w2,
    Close be c w1 = (Returns err, w2)
    /\ (log w2 = log w1
        \/ log w2
           = (log w1 ++ [Client_Close (conn.client c);
                         AdminClient_Close (conn.adminClient c)])%list)
    /\ let s := {| self := c; history := log w2 |} in
       conn.closed c = false
       /\ IsValid c = true
       /\ ResetSession P s
          = (None,
             {| self := conn.set_retryAborts true c; history := log w2 |})
       /\ (exists e,
             CommitTimestamp s = ((Time_zero, Some e), s)
             /\ ErrCode e = codes.FailedPrecondition)
       /\ StartBatchDDL s
          = (None,
             {| self :=
                  conn.set_batch
                    (Some {| batch.tp := ddl; batch.statements := [] |}) c;
                history := log w2 |})
       /\ forall ss : Statement.t,
            parseClientSideStatement P c "SELECT 1" = (None, None) ->
            prepareSpannerStmt P "SELECT 1" [] = (ss, None) ->
            let asked :=
              Single_Query (conn.client c) TimestampBound.zero ss in
            let r :=
              {| it :=
                   readOnlyRowIterator
                     (be_Single_Query be (log w2) (conn.client c)
                        TimestampBound.zero ss) |} in
            let s1 :=
              {| self := c; history := (log w2 ++ [asked])%list |} in
            QueryContext P "SELECT 1" [] s = ((Some r, None), s1)
            /\ forall rest s2 e s3,
                 rows_Next P r s1 = ((VInt64 1 :: rest, None), s2) ->
                 rows_Close P r s2 = (e, s3) ->
                 Ping P s = (Returns None, s3).
Proof.
  intros Hopened.
  assert (Hconn : exists l0 w0,
                    openDriverConn be l0 w0 = (Returns (inl c), w1)).
  { destruct Hopened as [Hopen | Hconnect].
    - unfold Open in Hopen.
      destruct (newConnector G D w) as [[[l0|e]|why] w0]; try discriminate.
      exists l0, w0. exact Hopen.
    - exists l, w. exact Hconnect. }
  destruct Hconn as (l0 & w0 & Hconn).
  destruct (openDriverConn_connection l0 w0 w1 c Hconn)
    as (k & cl & ad & Hk & Hc).
  assert (Hf : conn.connector c = l0
               /\ conn.closed c = false
               /\ conn.tx c = None
               /\ conn.commitTs c = None
               /\ conn.batch c = None
               /\ conn.execSingleQuery c = queryInSingleUse be
               /\ conn.autocommitDMLMode c = Transactional
               /\ conn.readOnlyStaleness c = TimestampBound.zero)
    by (rewrite Hc; repeat split).
  clear Hc Hconn Hopened.
  destruct c as [cl0 closed0 client0 admin0 tx0 ts0 db0 retry0 q0 t0 p0 b0
                 mode0 stale0].
  simpl in Hf. destruct Hf as (-> & -> & -> & -> & -> & -> & -> & ->).
  unfold Close at 1. simpl. rewrite Hk.
  destruct (0 <? AddInt32 (connector.connCount k) (-1)).
  - eexists _, _. split; [reflexivity|]. simpl.
    split; [left; reflexivity|].
    split; [reflexivity|]. split; [reflexivity|]. split; [reflexivity|].
    split; [eexists; split; reflexivity|]. split; [reflexivity|].
    intros ss Hcs Hprep.
    unfold Ping, QueryContext, bind, this, ret, update, call; simpl.
    rewrite Hcs, Hprep; simpl. unfold conn.set_commitTs; simpl.
    split; [reflexivity|].
    intros rest s2 e s3 Hnext Hrows.
    rewrite Hnext; simpl. rewrite Hrows. reflexivity.
  - eexists _, _. split; [reflexivity|]. simpl.
    split; [right; rewrite <- app_assoc; reflexivity|].
    split; [reflexivity|]. split; [reflexivity|]. split; [reflexivity|].
    split; [eexists; split; reflexivity|]. split; [reflexivity|].
    intros ss Hcs Hprep.
    unfold Ping, QueryContext, bind, this, ret, update, call; simpl.
    rewrite Hcs, Hprep; simpl. unfold conn.set_commitTs; simpl.
    split; [reflexivity|].
    intros rest s2 e s3 Hnext Hrows.
    rewrite Hnext; simpl. rewrite Hrows. reflexivity.
Qed.

End ClosedConnections.

(** * The model on concrete inputs *)

(** The replay of [testTx] finds that the second update now touches two
    rows instead of one. *)
Lemma retry_differing_replay_witness :
  be_Replay mockTxBackend
    [Tx_Request "ResetForRetry" []; Tx_Request "replay" [testUpdate1]]
    0%nat testUpdate2
  = Answer (UpdateCount 2)
  /\ UpdateCount 2 <> UpdateCount 1
  /\ forall flag : bool,
       retry mockTxBackend 3 (testTx flag) []
       = (inr ErrAbortedDueToConcurrentModification,
          [Tx_Request "ResetForRetry" [];
           Tx_Request "replay" [testUpdate1];
           Tx_Request "replay" [testUpdate2]]).
Proof.
  split; [reflexivity|]. split; [discriminate|]. intros flag.
  apply (retry_differing_replay_is_concurrent_modification mockTxBackend 2
           (testTx flag) []
           [Tx_Request "ResetForRetry" []; Tx_Request "replay" [testUpdate1]]
           [(testUpdate1, UpdateCount 2)] [] testUpdate2
           (UpdateCount 1) (UpdateCount 2)).
  - reflexivity.
  - reflexivity.
  - reflexivity.
  - discriminate.
Defined.

(** [Open("foo")]: the regular expression finds nothing in "foo". *)
Lemma Open_without_match_panics_witness :
  connectors emptyWorld !! "foo" = None
  /\ regexp.FindStringSubmatch dsnRegExp 15 "foo" = None
  /\ Open testlib mockBackend "foo" emptyWorld
     = (Panics "runtime error: index out of range", emptyWorld).
Proof.
  split; [reflexivity|]. split; [reflexivity|].
  apply (Open_without_match_panics testlib mockBackend "foo" emptyWorld);
    reflexivity.
Defined.

(** A malformed parameter, in contrast, is reported as an error. *)
Example Open_malformed_parameter :
  Open testlib mockBackend "projects/p;foo" emptyWorld
  = (Returns (inr (SpannerError codes.InvalidArgument
                     "invalid connection property: foo")), emptyWorld).
Proof. reflexivity. Qed.

(** [Open], [Close], and then calls on the closed connection: the
    clients are closed and the connector is unregistered, yet
    [ResetSession] and [Ping] return nil. *)
Lemma Close_does_not_mark_connection_closed_witness :
  let P := mockDeps None in
  let opened := Open testlib mockBackend testDSN emptyWorld in
  opened = (Returns (inl (testConn 0%nat)), openedWorld)
  /\ exists w2,
       Close mockBackend (testConn 0%nat) openedWorld = (Returns None, w2)
       /\ log w2
          = (log openedWorld
             ++ [Client_Close 0%nat; AdminClient_Close 1%nat])%list
       /\ let s := {| self := testConn 0%nat; history := log w2 |} in
          IsValid (testConn 0%nat) = true
          /\ fst (ResetSession P s) = None
          /\ fst (ResetSession P s) <> Some ErrBadConn
          /\ fst (Ping P s) = Returns None
          /\ fst (Ping P s) <> Returns (Some ErrBadConn).
Proof.
  intros P opened.
  assert (Hopen : opened = (Returns (inl (testConn 0%nat)), openedWorld))
    by (vm_compute; reflexivity).
  split; [exact Hopen|].
  destruct (Close_does_not_mark_connection_closed testlib mockBackend P
              testDSN 0%nat emptyWorld openedWorld (testConn 0%nat)
              (or_introl Hopen))
    as (err & w2 & Hclose & _ & _ & Hvalid & Hreset & _ & _ & Hping).
  assert (Herr : fst (Close mockBackend (testConn 0%nat) openedWorld)
                 = Returns None) by (vm_compute; reflexivity).
  assert (Hlog : log (snd (Close mockBackend (testConn 0%nat) openedWorld))
                 = (log openedWorld
                    ++ [Client_Close 0%nat; AdminClient_Close 1%nat])%list)
    by (vm_compute; reflexivity).
  rewrite Hclose in Herr, Hlog. simpl in Herr, Hlog.
  exists w2. split; [rewrite Hclose, Herr; reflexivity|].
  split; [exact Hlog|]. intros s.
  split; [exact Hvalid|].
  destruct (Hping (NewStatement "SELECT 1") eq_refl eq_refl) as (_ & Hp).
  unfold s. rewrite Hreset, (Hp [] _ None _ eq_refl eq_refl). simpl.
  split; [reflexivity|]. split; [discriminate|].
  split; [reflexivity | discriminate].
Defined.

(** Open, open, close, close on one descriptor: the count goes
    0, 1, 2, 1, 0, both connections use the same connector and clients,
    the clients are created once and closed once, and the registry is
    empty at the end. *)
Example registry_scenario :
  let o1 := Open testlib mockBackend testDSN emptyWorld in
  let o2 := Open testlib mockBackend testDSN (snd o1) in
  let c1 := Close mockBackend (testConn 0%nat) (snd o2) in
  let c2 := Close mockBackend (testConn 0%nat) (snd c1) in
  let count := fun w => connector.connCount <$> (heap w !! 0%nat) in
  fst o1 = Returns (inl (testConn 0%nat))
  /\ fst o2 = Returns (inl (testConn 0%nat))
  /\ count (snd o1) = Some 1
  /\ count (snd o2) = Some 2
  /\ count (snd c1) = Some 1
  /\ count (snd c2) = Some 0
  /\ connectors (snd c1) !! testDSN = Some 0%nat
  /\ connectors (snd c2) !! testDSN = None
  /\ length (log (snd o2)) = 2%nat
  /\ log (snd c1) = log (snd o2)
  /\ log (snd c2)
     = (log (snd o2) ++ [Client_Close 0%nat; AdminClient_Close 1%nat])%list
  /\ fst (newConnector testlib testDSN (snd c2)) = Returns (inl 1%nat).
Proof. repeat split; vm_compute; reflexivity. Qed.

Lemma connector_shared_and_counted_witness :
  let cfg :=
    {| connectorConfig.host := "";
       connectorConfig.project := "p";
       connectorConfig.instance := "i";
       connectorConfig.database := "d";
       connectorConfig.params := ∅ |} in
  connectors emptyWorld !! testDSN = None
  /\ extractConnectorConfig testlib testDSN = Returns (inl cfg)
  /\ exists c1 w1,
       Open testlib mockBackend testDSN emptyWorld = (Returns (inl c1), w1)
       /\ connOf 0%nat 0%nat 1%nat c1
       /\ serves testDSN 0%nat 0%nat 1%nat 1 w1
       /\ exists c2 w2,
            Open testlib mockBackend testDSN w1 = (Returns (inl c2), w2)
            /\ connOf 0%nat 0%nat 1%nat c2
            /\ serves testDSN 0%nat 0%nat 1%nat 2 w2
            /\ log w2 = log w1.
Proof.
  intros cfg.
  assert (Hnew : connectors emptyWorld !! testDSN = None) by reflexivity.
  assert (Hcfg : extractConnectorConfig testlib testDSN = Returns (inl cfg))
    by (vm_compute; reflexivity).
  destruct (connector_shared_and_counted testlib mockBackend testDSN cfg
              0%nat 1%nat emptyWorld Hnew Hcfg eq_refl eq_refl)
    as ((c1 & w1 & Ho1 & Hc1 & _ & Hs1 & _) & Hstep).
  split; [exact Hnew|]. split; [exact Hcfg|].
  exists c1, w1. split; [exact Ho1|]. split; [exact Hc1|].
  split; [exact Hs1|].
  destruct (Hstep 1 w1 Hs1 ltac:(lia)) as ((c2 & w2 & Ho2 & Hc2 & Hs2 & Hl2) & _).
  exists c2, w2. split; [exact Ho2|]. split; [exact Hc2|].
  split; [exact Hs2 | exact Hl2].
Defined.

(** [sql.Open] on an empty registry: [OpenConnector], [Connect],
    [Close], and the [Connect] that follows. *)
Lemma Connect_after_last_Close_reuses_closed_clients_witness :
  let o := OpenConnector testlib testDSN emptyWorld in
  let c1 := Connect mockBackend 0%nat (snd o) in
  fst o = Returns (inl 0%nat)
  /\ fst c1 = Returns (inl (testConn 0%nat))
  /\ serves testDSN 0%nat 0%nat 1%nat 1 (snd c1)
  /\ extractConnectorConfig testlib testDSN = Returns (inl testConfig)
  /\ exists w1 c2 w2,
       Close mockBackend (testConn 0%nat) (snd c1) = (Returns None, w1)
       /\ connectors w1 !! testDSN = None
       /\ Connect mockBackend 0%nat w1 = (Returns (inl c2), w2)
       /\ connOf 0%nat 0%nat 1%nat c2
       /\ connectors w2 !! testDSN = None
       /\ (connector.connCount <$> heap w2 !! 0%nat) = Some 1
       /\ log w2
          = (log (snd c1) ++ [Client_Close 0%nat; AdminClient_Close 1%nat])%list
       /\ exists c3 w3,
            Open testlib mockBackend testDSN w2 = (Returns (inl c3), w3)
            /\ conn.connector c3 <> conn.connector c2.
Proof.
  intros o c1.
  assert (Hs : serves testDSN 0%nat 0%nat 1%nat 1 (snd c1)).
  { split; [vm_compute; reflexivity|].
    eexists. split; [vm_compute; reflexivity|]. repeat split. }
  assert (Hcfg : extractConnectorConfig testlib testDSN
                 = Returns (inl testConfig)) by (vm_compute; reflexivity).
  split; [reflexivity|]. split; [vm_compute; reflexivity|].
  split; [exact Hs|]. split; [exact Hcfg|].
  destruct (Connect_after_last_Close_reuses_closed_clients testlib mockBackend
              testDSN 0%nat 0%nat 1%nat (snd c1) (testConn 0%nat) testConfig
              Hs ltac:(repeat split) Hcfg)
    as (w1 & c2 & w2 & Hclose & Hlog1 & Hreg1 & Hconn & Hc2 & Hlog2 & Hreg2
        & Hcount & _ & Hopen).
  exists w1, c2, w2.
  split; [exact Hclose|]. split; [exact Hreg1|]. split; [exact Hconn|].
  split; [exact Hc2|]. split; [exact Hreg2|]. split; [exact Hcount|].
  split; [rewrite Hlog2; exact Hlog1|].
  destruct (Hopen (length (log w2)) (S (length (log w2))))
    as (c3 & w3 & Ho3 & _ & Hne & _).
  - reflexivity.
  - simpl. rewrite length_app. simpl. f_equal. lia.
  - exists c3, w3. split; [exact Ho3 | exact Hne].
Defined.

(** The same run, evaluated: the second connection of the retained
    connector uses the clients that the first [Close] closed, and no
    client is created for it. *)
Example Connect_after_teardown_scenario :
  let o := OpenConnector testlib testDSN emptyWorld in
  let c1 := Connect mockBackend 0%nat (snd o) in
  let cl := Close mockBackend (testConn 0%nat) (snd c1) in
  let c2 := Connect mockBackend 0%nat (snd cl) in
  let o3 := Open testlib mockBackend testDSN (snd c2) in
  fst c1 = Returns (inl (testConn 0%nat))
  /\ fst cl = Returns None
  /\ fst c2 = Returns (inl (testConn 0%nat))
  /\ length (log (snd c1)) = 2%nat
  /\ log (snd c2)
     = (log (snd c1) ++ [Client_Close 0%nat; AdminClient_Close 1%nat])%list
  /\ connectors (snd c2) !! testDSN = None
  /\ (connector.connCount <$> heap (snd c2) !! 0%nat) = Some 1
  /\ (conn.connector <$> match fst o3 with
                         | Returns (inl c3) => Some c3
                         | _ => None
                         end) = Some 1%nat
  /\ connectors (snd o3) !! testDSN = Some 1%nat.
Proof. repeat split; vm_compute; reflexivity. Qed.

(** A schema statement in each of the four situations: queued behind
    the statement of an open DDL batch, submitted and awaited without a
    batch, and refused over a DML batch and inside a transaction. *)
Lemma ExecContext_DDL_witness :
  let P := mockDeps None in
  let dmlOpen :=
    conn.set_batch (Some {| batch.tp := dml; batch.statements := [] |})
      (testConn 0%nat) in
  let inTx := conn.set_tx (Some testBegun) (testConn 0%nat) in
  isDDL P testAlter = (true, None)
  /\ isDDL P testCreate = (true, None)
  /\ ExecContext mockBackend P testAlter [] (testState ddlBatchConn)
     = ((Some ResultNoRows, None),
        testState
          (conn.set_batch
             (Some {| batch.tp := ddl;
                      batch.statements :=
                        [NewStatement testCreate; NewStatement testAlter] |})
             (testConn 0%nat)))
  /\ ExecContext mockBackend P testCreate [] (testState (testConn 0%nat))
     = ((Some ResultNoRows, None),
        {| self := testConn 0%nat;
           history :=
             [UpdateDatabaseDdl 1%nat "projects/p/instances/i/databases/d"
                [testCreate];
              Operation_Wait 1%nat] |})
  /\ (exists e,
        ExecContext mockBackend P testCreate [] (testState dmlOpen)
        = ((None, Some e), testState dmlOpen)
        /\ ErrCode e = codes.FailedPrecondition)
  /\ (exists e,
        ExecContext mockBackend P testCreate [] (testState inTx)
        = ((None, Some e), testState inTx)
        /\ ErrCode e = codes.FailedPrecondition).
Proof.
  intros P dmlOpen inTx.
  split; [reflexivity|]. split; [reflexivity|]. split; [|split; [|split]].
  - destruct (ExecContext_DDL mockBackend P testAlter []
                (testState ddlBatchConn) eq_refl eq_refl) as (_ & _ & H & _).
    exact (proj1 (H _ eq_refl eq_refl eq_refl)).
  - destruct (ExecContext_DDL mockBackend P testCreate []
                (testState (testConn 0%nat)) eq_refl eq_refl)
      as (_ & _ & _ & H).
    exact (H eq_refl eq_refl).
  - destruct (ExecContext_DDL mockBackend P testCreate []
                (testState dmlOpen) eq_refl eq_refl) as (_ & H & _).
    exact (H _ eq_refl eq_refl eq_refl).
  - destruct (ExecContext_DDL mockBackend P testCreate []
                (testState inTx) eq_refl eq_refl) as (H & _).
    exact (H eq_refl).
Defined.


Lemma startBatchDDL_guarded_witness :
  let dmlOpen :=
    conn.set_batch (Some {| batch.tp := dml; batch.statements := [] |})
      (testConn 0%nat) in
  let inTx :=
    conn.set_tx (Some (readOnlyTransaction 3%nat)) (testConn 0%nat) in
  (exists e,
     startBatchDDL (testState dmlOpen) = ((None, Some e), testState dmlOpen)
     /\ ErrCode e = codes.FailedPrecondition)
  /\ (exists e,
        startBatchDDL (testState inTx) = ((None, Some e), testState inTx)
        /\ ErrCode e = codes.FailedPrecondition)
  /\ startBatchDDL (testState (testConn 0%nat))
     = ((Some ResultNoRows, None),
        testState
          (conn.set_batch (Some {| batch.tp := ddl; batch.statements := [] |})
             (testConn 0%nat))).
Proof.
  intros dmlOpen inTx. split; [|split].
  - destruct (proj1 (startBatchDDL_guarded (testState dmlOpen)))
      as (e & H & _ & He).
    + left. discriminate.
    + exists e. split; [exact H | exact He].
  - destruct (proj1 (startBatchDDL_guarded (testState inTx)))
      as (e & H & _ & He).
    + right. reflexivity.
    + exists e. split; [exact H | exact He].
  - exact (proj1 (proj2 (startBatchDDL_guarded (testState (testConn 0%nat)))
                    eq_refl eq_refl)).
Defined.

Lemma runBatch_empty_DML_witness :
  let s :=
    testState
      (conn.set_batch (Some {| batch.tp := dml; batch.statements := [] |})
         (testConn 0%nat)) in
  inTransaction (self s) = false
  /\ runBatch mockBackend (mockDeps None) s
     = ((Some (result 0), None), testState (testConn 0%nat)).
Proof.
  intros s. split; [reflexivity|].
  exact (proj1 (runBatch_empty_DML mockBackend (mockDeps None) s
                  eq_refl eq_refl)).
Defined.

(** A connection inside a read-write transaction, with a stored commit
    timestamp, an open batch and non-default settings. *)
Lemma ResetSession_open_connection_witness :
  let c :=
    conn.set_tx (Some (readWriteTransaction (testTx false)))
      (conn.set_retryAborts false
         (conn.set_autocommitDMLMode PartitionedNonAtomic
            (conn.set_commitTs (Some {| unixNano := 42 |})
               (testConn 0%nat)))) in
  conn.closed c = false
  /\ inTransaction c = true
  /\ (exists c',
        ResetSession (mockDeps None) (testState c)
        = (None, {| self := c'; history := [Tx_Request "Rollback" []] |})
        /\ isReset c')
  /\ ResetSession (mockDeps (Some ErrAborted)) (testState c)
     = (Some ErrBadConn,
        {| self := conn.set_commitTs None (conn.set_tx None c);
           history := [Tx_Request "Rollback" []] |}).
Proof.
  intros c. split; [reflexivity|]. split; [reflexivity|]. split.
  - destruct (ResetSession_open_connection (mockDeps None) (testState c)
                eq_refl) as (_ & H).
    destruct (H eq_refl None _ eq_refl) as (_ & Hok).
    destruct (Hok eq_refl) as (c' & Hrun & Hreset & _).
    exists c'. split; [exact Hrun | exact Hreset].
  - destruct (ResetSession_open_connection (mockDeps (Some ErrAborted))
                (testState c) eq_refl) as (_ & H).
    destruct (H eq_refl (Some ErrAborted) _ eq_refl) as (Hfail & _).
    exact (Hfail ErrAborted eq_refl).
Defined.

Lemma CommitTimestamp_absent_or_stored_witness :
  (exists e,
     CommitTimestamp (testState (testConn 0%nat))
     = ((Time_zero, Some e), testState (testConn 0%nat))
     /\ ErrCode e = codes.FailedPrecondition)
  /\ (let c := conn.set_commitTs (Some {| unixNano := 42 |}) (testConn 0%nat) in
      CommitTimestamp (testState c) = (({| unixNano := 42 |}, None), testState c)).
Proof.
  split.
  - exact (proj1 (CommitTimestamp_absent_or_stored
                    (testState (testConn 0%nat))) eq_refl).
  - exact (proj2 (CommitTimestamp_absent_or_stored
                    (testState
                       (conn.set_commitTs (Some {| unixNano := 42 |})
                          (testConn 0%nat))))
             {| unixNano := 42 |} eq_refl).
Defined.

(** The descriptor of the comment above [dsnRegExp]. *)
Example extractConnectorConfig_documented_example :
  match
    extractConnectorConfig testlib
      "localhost:9010/projects/test-project/instances/test-instance/databases/test-database;usePlainText=true"
  with
  | Returns (inl cfg) =>
      connectorConfig.host cfg = "localhost:9010"
      /\ connectorConfig.project cfg = "test-project"
      /\ connectorConfig.instance cfg = "test-instance"
      /\ connectorConfig.database cfg = "test-database"
      /\ connectorConfig.params cfg !! "useplaintext" = Some "true"
      /\ buildOptions cfg
         = [WithEndpoint "localhost:9010"; WithGRPCDialOption_WithInsecure;
            WithoutAuthentication]
  | _ => False
  end.
Proof. vm_compute. repeat split. Qed.

(** Plain text and no internal retry, as asked for in the descriptor. *)
Example newConnector_parameters :
  let w :=
    snd (newConnector testlib
           "projects/p/instances/i/databases/d;usePlainText=true;retryAbortsInternally=false"
           emptyWorld) in
  (connector.retryAbortsInternally <$> heap w !! 0%nat) = Some false
  /\ (connector.options <$> heap w !! 0%nat)
     = Some [WithGRPCDialOption_WithInsecure; WithoutAuthentication]
  /\ (connector.connCount <$> heap w !! 0%nat) = Some 0.
Proof. repeat split; vm_compute; reflexivity. Qed.

(** * Further properties *)



Lemma firstn_consumed (w s' : list ascii) :
  firstn (length (w ++ s') - length s') (w ++ s')%list = w.
Proof.
  rewrite length_app. replace (length w + length s' - length s')%nat
    with (length w) by lia.
  rewrite firstn_app, Nat.sub_diag, firstn_all. simpl.
  apply app_nil_r.
Qed.

(** Whatever the matcher accepts is a match: the continuation was
    called on the rest of the input after a word of [r]. *)
Lemma matchHere_sound (r : regexp.Regexp) :
  forall (k : regexp.cont) (s : list ascii) (c res : regexp.caps),
    regexp.matchHere r k s c = Some res ->
    exists w s' c',
      s = (w ++ s')%list /\ Matches r w c c' /\ k s' c' = Some res.
Proof.
  induction r as [|p|r1 IH1 r2 IH2|r1 IH1 r2 IH2|r IH|n r IH];
    intros k s c res Hrun; simpl in Hrun.
  - exists [], s, c. repeat split; [constructor | exact Hrun].
  - destruct s as [|a s']; [discriminate|].
    destruct (p a) eqn:Hp; [|discriminate].
    exists [a], s', c. repeat split; [constructor; exact Hp | exact Hrun].
  - apply IH1 in Hrun as (w1 & s1 & c1 & -> & Hm1 & Hrun).
    apply IH2 in Hrun as (w2 & s2 & c2 & -> & Hm2 & Hrun).
    exists (w1 ++ w2)%list, s2, c2. rewrite <- app_assoc.
    repeat split; [econstructor; eassumption | exact Hrun].
  - destruct (regexp.matchHere r1 k s c) as [res1|] eqn:H1.
    + inversion Hrun; subst.
      apply IH1 in H1 as (w & s' & c' & -> & Hm & Hk).
      exists w, s', c'. repeat split; [apply MatchesAltL; exact Hm | exact Hk].
    + apply IH2 in Hrun as (w & s' & c' & -> & Hm & Hk).
      exists w, s', c'. repeat split; [apply MatchesAltR; exact Hm | exact Hk].
  - remember (length s) as fuel eqn:Hfuel. clear Hfuel.
    revert s c Hrun. induction fuel as [|fuel IHfuel]; intros s c Hrun.
    + exists [], s, c. repeat split; [constructor | exact Hrun].
    + match type of Hrun with
      | match ?x with _ => _ end = _ => destruct x as [res1|] eqn:H1
      end.
      * inversion Hrun; subst.
        apply IH in H1 as (w1 & s1 & c1 & -> & Hm1 & Hk).
        destruct (_ <? _)%nat; [|discriminate].
        apply IHfuel in Hk as (w2 & s2 & c2 & -> & Hm2 & Hk).
        exists (w1 ++ w2)%list, s2, c2. rewrite <- app_assoc.
        repeat split; [eapply MatchesStarApp; eassumption | exact Hk].
      * exists [], s, c. repeat split; [constructor | exact Hrun].
  - apply IH in Hrun as (w & s' & c' & -> & Hm & Hk).
    rewrite firstn_consumed in Hk.
    exists w, s', ((n, w) :: c').
    repeat split; [constructor; exact Hm | exact Hk].
Qed.

Lemma search_sound (r : regexp.Regexp) (s : list ascii) (res : regexp.caps) :
  regexp.search r s = Some res ->
  exists a w b c,
    s = (a ++ w ++ b)%list /\ Matches r w [] c /\ res = (0%nat, w) :: c.
Proof.
  assert (Hhere : forall t,
            regexp.matchHere (regexp.Group 0 r) (fun _ c => Some c) t []
            = Some res ->
            exists w b c,
              t = (w ++ b)%list /\ Matches r w [] c /\ res = (0%nat, w) :: c).
  { intros t Hm. apply matchHere_sound in Hm as (w & s' & c' & Hs & Hw & Hk).
    inversion Hw; subst. inversion Hk; subst. eauto 10. }
  induction s as [|x s IH]; cbn [regexp.search].
  - destruct (regexp.matchHere (regexp.Group 0 r) _ [] []) as [c|] eqn:Hm;
      [|discriminate].
    intros Heq. inversion Heq; subst.
    destruct (Hhere _ Hm) as (w & b & c' & Hs & Hw & Hres).
    exists [], w, b, c'. repeat split; assumption.
  - destruct (regexp.matchHere (regexp.Group 0 r) _ (x :: s) []) as [c|] eqn:Hm.
    + intros Heq. inversion Heq; subst.
      destruct (Hhere _ Hm) as (w & b & c' & Hs & Hw & Hres).
      exists [], w, b, c'. repeat split; assumption.
    + intros Hrest. apply IH in Hrest as (a & w & b & c' & -> & Hw & Hres).
      exists (x :: a), w, b, c'. repeat split; assumption.
Qed.

(** A match only adds submatches, and only for groups of the
    expression. *)
Lemma Matches_adds_groups (r : regexp.Regexp) (w : list ascii)
    (c c' : regexp.caps) :
  Matches r w c c' ->
  exists new,
    c' = (new ++ c)%list /\ Forall (fun e => In (fst e) (groupsOf r)) new.
Proof.
  induction 1 as [c|p a c Hp|r1 r2 w1 w2 c c1 c2 H1 IH1 H2 IH2
                  |r1 r2 w c c' H IH|r1 r2 w c c' H IH|r c
                  |r w1 w2 c c1 c2 H1 IH1 H2 IH2|n r w c c' H IH]; simpl.
  - exists []. split; [reflexivity | constructor].
  - exists []. split; [reflexivity | constructor].
  - destruct IH1 as (n1 & -> & F1). destruct IH2 as (n2 & -> & F2).
    exists (n2 ++ n1)%list. split; [apply app_assoc|].
    apply Forall_app. split.
    + eapply Forall_impl; [exact F2|]. intros e He. apply in_or_app. right. exact He.
    + eapply Forall_impl; [exact F1|]. intros e He. apply in_or_app. left. exact He.
  - destruct IH as (n1 & -> & F1). exists n1. split; [reflexivity|].
    eapply Forall_impl; [exact F1|]. intros e He. apply in_or_app. left. exact He.
  - destruct IH as (n1 & -> & F1). exists n1. split; [reflexivity|].
    eapply Forall_impl; [exact F1|]. intros e He. apply in_or_app. right. exact He.
  - exists []. split; [reflexivity | constructor].
  - destruct IH1 as (n1 & -> & F1). destruct IH2 as (n2 & -> & F2).
    simpl in F2. exists (n2 ++ n1)%list. split; [apply app_assoc|].
    apply Forall_app. split; assumption.
  - destruct IH as (n1 & -> & F1). exists ((n, w) :: n1). split; [reflexivity|].
    constructor; [left; reflexivity|].
    eapply Forall_impl; [exact F1|]. intros e He. right. exact He.
Qed.

Lemma cap_skips (new c : regexp.caps) (i : nat) :
  Forall (fun e => fst e <> i) new ->
  regexp.cap (new ++ c)%list i = regexp.cap c i.
Proof.
  induction 1 as [|[m t] new Hm _ IH]; simpl; [reflexivity|].
  simpl in Hm. destruct (Nat.eqb_spec m i); [contradiction | exact IH].
Qed.

Lemma Matches_keeps_cap (r : regexp.Regexp) (w : list ascii)
    (c c' : regexp.caps) (i : nat) :
  Matches r w c c' -> ~ In i (groupsOf r) ->
  regexp.cap c' i = regexp.cap c i.
Proof.
  intros Hm Hi. apply Matches_adds_groups in Hm as (new & -> & Hnew).
  apply cap_skips. eapply Forall_impl; [exact Hnew|].
  intros e He Heq. apply Hi. rewrite <- Heq. exact He.
Qed.

Lemma Matches_Cat_inv (r1 r2 : regexp.Regexp) (w : list ascii)
    (c c' : regexp.caps) :
  Matches (regexp.Cat r1 r2) w c c' ->
  exists w1 w2 c1,
    w = (w1 ++ w2)%list /\ Matches r1 w1 c c1 /\ Matches r2 w2 c1 c'.
Proof. intros Hm. inversion Hm; subst. eauto 10. Qed.

Lemma Matches_Group_inv (n : nat) (r : regexp.Regexp) (w : list ascii)
    (c c' : regexp.caps) :
  Matches (regexp.Group n r) w c c' ->
  exists c1, c' = (n, w) :: c1 /\ Matches r w c c1.
Proof. intros Hm. inversion Hm; subst. eauto. Qed.

Lemma Matches_Quest_inv (r : regexp.Regexp) (w : list ascii)
    (c c' : regexp.caps) :
  Matches (regexp.Quest r) w c c' ->
  Matches r w c c' \/ (w = [] /\ c' = c).
Proof.
  unfold regexp.Quest. intros Hm.
  inversion Hm as [| | |? ? ? ? ? H|? ? ? ? ? H| | |]; subst.
  - left. exact H.
  - right. inversion H; subst. split; reflexivity.
Qed.

Lemma Matches_Class_inv (p : ascii -> bool) (w : list ascii)
    (c c' : regexp.caps) :
  Matches (regexp.Class p) w c c' ->
  exists a, w = [a] /\ p a = true /\ c' = c.
Proof. intros Hm. inversion Hm; subst. eauto. Qed.

Lemma Matches_Literal (l w : list ascii) (c c' : regexp.caps) :
  Matches (regexp.Literal l) w c c' -> w = l /\ c' = c.
Proof.
  revert w c. induction l as [|a l IH]; intros w c Hm; simpl in Hm.
  - inversion Hm. split; reflexivity.
  - destruct l as [|b l].
    + apply Matches_Class_inv in Hm as (x & -> & Hp & ->).
      apply Ascii.eqb_eq in Hp. subst. split; reflexivity.
    + apply Matches_Cat_inv in Hm as (w1 & w2 & c1 & -> & H1 & H2).
      apply Matches_Class_inv in H1 as (x & -> & Hp & ->).
      apply Ascii.eqb_eq in Hp. subst.
      apply IH in H2 as [-> ->]. split; reflexivity.
Qed.

Lemma Matches_without_groups (r : regexp.Regexp) (w : list ascii)
    (c c' : regexp.caps) :
  groupsOf r = [] -> Matches r w c c' -> c' = c.
Proof.
  intros Hg Hm. apply Matches_adds_groups in Hm as (new & -> & Hnew).
  rewrite Hg in Hnew. destruct new as [|e new]; [reflexivity|].
  inversion Hnew as [|? ? He]; subst. destruct He.
Qed.

Lemma Matches_Plus_nonempty (r : regexp.Regexp) (w : list ascii)
    (c c' : regexp.caps) :
  (forall w1 c1 c2, Matches r w1 c1 c2 -> w1 <> []) ->
  Matches (regexp.Plus r) w c c' -> w <> [].
Proof.
  intros Hr Hm. unfold regexp.Plus in Hm.
  apply Matches_Cat_inv in Hm as (w1 & w2 & c1 & -> & H1 & _).
  apply Hr in H1. destruct w1; [congruence | discriminate].
Qed.

Lemma Matches_Class_nonempty (p : ascii -> bool) (w : list ascii)
    (c c' : regexp.caps) :
  Matches (regexp.Class p) w c c' -> w <> [].
Proof. intros Hm. apply Matches_Class_inv in Hm as (a & -> & _). discriminate. Qed.

Lemma Matches_Alt_nonempty (r1 r2 : regexp.Regexp) (w : list ascii)
    (c c' : regexp.caps) :
  (forall w1 c1 c2, Matches r1 w1 c1 c2 -> w1 <> []) ->
  (forall w1 c1 c2, Matches r2 w1 c1 c2 -> w1 <> []) ->
  Matches (regexp.Alt r1 r2) w c c' -> w <> [].
Proof. intros H1 H2 Hm. inversion Hm; subst; eauto. Qed.

Lemma Matches_Group_nonempty (n : nat) (r : regexp.Regexp) (w : list ascii)
    (c c' : regexp.caps) :
  (forall w1 c1 c2, Matches r w1 c1 c2 -> w1 <> []) ->
  Matches (regexp.Group n r) w c c' -> w <> [].
Proof. intros H1 Hm. inversion Hm; subst; eauto. Qed.

Ltac nonempty_regexp :=
  repeat first
    [ eapply Matches_Plus_nonempty; [|eassumption]
    | eapply Matches_Group_nonempty; [|eassumption]
    | eapply Matches_Alt_nonempty; [| |eassumption]
    | eapply Matches_Class_nonempty; eassumption
    | intros ? ? ? ? ].

Lemma hostRegExp_nonempty (w : list ascii) (c c' : regexp.caps) :
  Matches hostRegExp w c c' -> w <> [] /\ c' = c.
Proof.
  intros Hm. split; [|exact (Matches_without_groups hostRegExp w c c' eq_refl Hm)].
  unfold hostRegExp in Hm.
  apply Matches_Cat_inv in Hm as (w1 & w2 & c1 & -> & H1 & _).
  assert (w1 <> []) by nonempty_regexp.
  destruct w1; [congruence | discriminate].
Qed.

Lemma projectRegExp_nonempty (w : list ascii) (c c' : regexp.caps) :
  Matches projectRegExp w c c' -> w <> [].
Proof.
  unfold projectRegExp. intros Hm.
  apply Matches_Group_inv in Hm as (c1 & _ & Hm).
  inversion Hm as [| | |? ? ? ? ? H|? ? ? ? ? H| | |]; subst.
  - nonempty_regexp.
  - apply Matches_Group_inv in H as (c2 & _ & H).
    apply Matches_Literal in H as [-> _]. discriminate.
Qed.

Lemma instanceRegExp_nonempty (w : list ascii) (c c' : regexp.caps) :
  Matches instanceRegExp w c c' -> w <> [].
Proof. unfold instanceRegExp. intros Hm. nonempty_regexp. Qed.

Lemma databaseRegExp_nonempty (w : list ascii) (c c' : regexp.caps) :
  Matches databaseRegExp w c c' -> w <> [].
Proof. unfold databaseRegExp. intros Hm. nonempty_regexp. Qed.


Ltac not_a_group := vm_compute; intuition discriminate.

Lemma cap_cons_ne (m i : nat) (t : list ascii) (c : regexp.caps) :
  m <> i -> regexp.cap ((m, t) :: c) i = regexp.cap c i.
Proof. intros Hne. simpl. destruct (Nat.eqb_spec m i); [contradiction | reflexivity]. Qed.

Lemma cap_cons_eq (m : nat) (t : list ascii) (c : regexp.caps) :
  regexp.cap ((m, t) :: c) m = Some t.
Proof. simpl. rewrite Nat.eqb_refl. reflexivity. Qed.

Lemma dsnRegExp_host (w : list ascii) (c : regexp.caps) :
  Matches
    (regexp.Quest
       (regexp.Group 1
          (regexp.Cat (regexp.Group HOSTGROUP hostRegExp) (regexp.Lit "/"))))
    w [] c ->
  exists oh,
    w = hostPart oh
    /\ regexp.cap c HOSTGROUP = oh
    /\ (forall h, oh = Some h -> h <> [])
    /\ (forall i, (2 < i)%nat -> regexp.cap c i = None).
Proof.
  unfold HOSTGROUP.
  intros Hm. apply Matches_Quest_inv in Hm as [Hm|[-> ->]].
  - apply Matches_Group_inv in Hm as (c1 & -> & Hm).
    apply Matches_Cat_inv in Hm as (wh & ws & c2 & -> & Hh & Hs).
    apply Matches_Group_inv in Hh as (c3 & -> & Hh).
    apply hostRegExp_nonempty in Hh as [Hne ->].
    apply Matches_Class_inv in Hs as (a & -> & Ha & ->).
    apply Ascii.eqb_eq in Ha. subst a.
    exists (Some wh). split; [reflexivity|]. split; [|split].
    + rewrite cap_cons_ne by lia. apply cap_cons_eq.
    + intros h Heq. inversion Heq; subst. exact Hne.
    + intros i Hi. rewrite !cap_cons_ne by lia. reflexivity.
  - exists None. split; [reflexivity|]. split; [reflexivity|].
    split; [discriminate | reflexivity].
Qed.

Lemma dsnRegExp_instance (w : list ascii) (c c' : regexp.caps) :
  Matches
    (regexp.Quest
       (regexp.Group 7
          (regexp.Cat (lit "/instances/")
             (regexp.Cat (regexp.Group INSTANCEGROUP instanceRegExp)
                (regexp.Quest
                   (regexp.Group 10
                      (regexp.Cat (lit "/databases/")
                         (regexp.Group DATABASEGROUP databaseRegExp))))))))
    w c c' ->
  exists oi,
    w = instancePart oi
    /\ regexp.cap c' INSTANCEGROUP
       = match oi with
         | Some (i, _) => Some i
         | None => regexp.cap c INSTANCEGROUP
         end
    /\ regexp.cap c' DATABASEGROUP
       = match oi with
         | Some (_, Some d) => Some d
         | _ => regexp.cap c DATABASEGROUP
         end
    /\ (forall i od, oi = Some (i, od) -> i <> [])
    /\ (forall i d, oi = Some (i, Some d) -> d <> [])
    /\ (forall i, (i < 7 \/ 12 < i)%nat -> regexp.cap c' i = regexp.cap c i).
Proof.
  unfold INSTANCEGROUP, DATABASEGROUP.
  intros Hm. apply Matches_Quest_inv in Hm as [Hm|[-> ->]].
  - apply Matches_Group_inv in Hm as (c1 & -> & Hm).
    apply Matches_Cat_inv in Hm as (wl & wr & c2 & -> & Hl & Hm).
    apply Matches_Literal in Hl as [-> ->].
    apply Matches_Cat_inv in Hm as (wi & wd & c3 & -> & Hi & Hd).
    apply Matches_Group_inv in Hi as (c4 & -> & Hi).
    pose proof (instanceRegExp_nonempty _ _ _ Hi) as Hine.
    apply Matches_Quest_inv in Hd as [Hd|[-> ->]].
    + apply Matches_Group_inv in Hd as (c5 & -> & Hd).
      apply Matches_Cat_inv in Hd as (wl2 & wdb & c6 & -> & Hl2 & Hdb).
      apply Matches_Literal in Hl2 as [-> ->].
      apply Matches_Group_inv in Hdb as (c7 & -> & Hdb).
      pose proof (databaseRegExp_nonempty _ _ _ Hdb) as Hdne.
      exists (Some (wi, Some wdb)). split; [reflexivity|].
      split; [|split; [|split; [|split]]].
      * rewrite !cap_cons_ne by lia.
        rewrite (Matches_keeps_cap _ _ _ _ 8%nat Hdb) by not_a_group.
        apply cap_cons_eq.
      * rewrite !cap_cons_ne by lia. apply cap_cons_eq.
      * intros i od Heq. inversion Heq; subst. exact Hine.
      * intros i d Heq. inversion Heq; subst. exact Hdne.
      * intros i Hi7. rewrite !cap_cons_ne by lia.
        rewrite (Matches_keeps_cap _ _ _ _ i Hdb)
          by (vm_compute; intuition lia).
        rewrite cap_cons_ne by lia.
        apply (Matches_keeps_cap _ _ _ _ i Hi). vm_compute. intuition lia.
    + exists (Some (wi, None)). split; [simpl; rewrite app_nil_r; reflexivity|].
      split; [|split; [|split; [|split]]].
      * rewrite cap_cons_ne by lia. apply cap_cons_eq.
      * rewrite !cap_cons_ne by lia.
        apply (Matches_keeps_cap _ _ _ _ 11%nat Hi). not_a_group.
      * intros i od Heq. inversion Heq; subst. exact Hine.
      * intros i d Heq. inversion Heq.
      * intros i Hi7. rewrite !cap_cons_ne by lia.
        apply (Matches_keeps_cap _ _ _ _ i Hi). vm_compute. intuition lia.
  - exists None. repeat split; discriminate.
Qed.

Lemma dsnRegExp_params (w : list ascii) (c c' : regexp.caps) :
  Matches
    (regexp.Quest
       (regexp.Group 13
          (regexp.Cat (regexp.Group 14 (regexp.Class (oneOf "?|;")))
             (regexp.Group PARAMSGROUP
                (regexp.Star (regexp.Class anyCharNotNL))))))
    w c c' ->
  exists op,
    w = paramsPart op
    /\ regexp.cap c' PARAMSGROUP
       = match op with
         | Some (_, p) => Some p
         | None => regexp.cap c PARAMSGROUP
         end
    /\ (forall sep p, op = Some (sep, p) -> oneOf "?|;" sep = true)
    /\ (forall i, (i < 13)%nat -> regexp.cap c' i = regexp.cap c i).
Proof.
  unfold PARAMSGROUP.
  intros Hm. apply Matches_Quest_inv in Hm as [Hm|[-> ->]].
  - apply Matches_Group_inv in Hm as (c1 & -> & Hm).
    apply Matches_Cat_inv in Hm as (ws & wp & c2 & -> & Hs & Hp).
    apply Matches_Group_inv in Hs as (c3 & -> & Hs).
    apply Matches_Class_inv in Hs as (sep & -> & Hsep & ->).
    apply Matches_Group_inv in Hp as (c4 & -> & Hp).
    apply (Matches_without_groups (regexp.Star (regexp.Class anyCharNotNL))
             _ _ _ eq_refl) in Hp. subst c4.
    exists (Some (sep, wp)). split; [reflexivity|]. split; [|split].
    + rewrite cap_cons_ne by lia. apply cap_cons_eq.
    + intros sep' p Heq. inversion Heq; subst. exact Hsep.
    + intros i Hi. rewrite !cap_cons_ne by lia. reflexivity.
  - exists None. repeat split; discriminate.
Qed.

(** What a match of [dsnRegExp] consists of, and what its named groups
    capture. *)
Lemma dsnRegExp_decomposition (w : list ascii) (c : regexp.caps) :
  Matches dsnRegExp w [] c ->
  exists oh p oi op,
    w = (hostPart oh ++ list_ascii_of_string "projects/" ++ p
         ++ instancePart oi ++ paramsPart op)%list
    /\ regexp.cap c HOSTGROUP = oh
    /\ regexp.cap c PROJECTGROUP = Some p
    /\ regexp.cap c INSTANCEGROUP = fst <$> oi
    /\ regexp.cap c DATABASEGROUP = oi ≫= snd
    /\ regexp.cap c PARAMSGROUP = snd <$> op
    /\ p <> []
    /\ (forall h, oh = Some h -> h <> [])
    /\ (forall i od, oi = Some (i, od) -> i <> [])
    /\ (forall i d, oi = Some (i, Some d) -> d <> [])
    /\ (forall sep q, op = Some (sep, q) -> oneOf "?|;" sep = true).
Proof.
  unfold dsnRegExp. intros Hm.
  apply Matches_Cat_inv in Hm as (w1 & w2 & c1 & -> & Hhost & Hm).
  apply Matches_Cat_inv in Hm as (wl & w3 & c2 & -> & Hl & Hm).
  apply Matches_Literal in Hl as [-> ->].
  apply Matches_Cat_inv in Hm as (wp & w4 & c3 & -> & Hp & Hm).
  apply Matches_Cat_inv in Hm as (wi & wq & c4 & -> & Hi & Hq).
  apply dsnRegExp_host in Hhost as (oh & -> & Hcap2 & Hhne & Hnone).
  apply Matches_Group_inv in Hp as (c5 & -> & Hp).
  pose proof (projectRegExp_nonempty _ _ _ Hp) as Hpne.
  apply dsnRegExp_instance in Hi
    as (oi & -> & Hcap8 & Hcap11 & Hine & Hdne & Hkeep7).
  apply dsnRegExp_params in Hq as (op & -> & Hcap15 & Hsep & Hkeep13).
  assert (Hbase : forall i, (6 < i)%nat ->
                            regexp.cap ((PROJECTGROUP, wp) :: c5) i = None).
  { intros i Hi. unfold PROJECTGROUP. rewrite cap_cons_ne by lia.
    rewrite (Matches_keeps_cap _ _ _ _ i Hp) by (vm_compute; intuition lia).
    apply Hnone. lia. }
  unfold HOSTGROUP, PROJECTGROUP, INSTANCEGROUP, DATABASEGROUP, PARAMSGROUP
    in *.
  exists oh, wp, oi, op. split; [reflexivity|].
  split; [|split; [|split; [|split; [|split]]]].
  - rewrite Hkeep13, Hkeep7 by lia. rewrite cap_cons_ne by lia.
    rewrite (Matches_keeps_cap _ _ _ _ 2%nat Hp) by not_a_group.
    exact Hcap2.
  - rewrite Hkeep13, Hkeep7 by lia. apply cap_cons_eq.
  - rewrite Hkeep13, Hcap8 by lia.
    destruct oi as [[i od]|]; [reflexivity|]. apply Hbase. lia.
  - rewrite Hkeep13, Hcap11 by lia.
    destruct oi as [[i [d|]]|]; [reflexivity| |]; apply Hbase; lia.
  - rewrite Hcap15. destruct op as [[sep q]|]; [reflexivity|].
    rewrite Hkeep7 by lia. apply Hbase. lia.
  - repeat split; assumption.
Qed.

Lemma string_of_list_ascii_app (a b : list ascii) :
  string_of_list_ascii (a ++ b)
  = string_of_list_ascii a ++ string_of_list_ascii b.
Proof. induction a as [|x a IH]; simpl; [reflexivity|]. rewrite IH. reflexivity. Qed.

Lemma string_append_assoc (a b c : string) : (a ++ b) ++ c = a ++ b ++ c.
Proof.
  induction a as [|x a IH]; [reflexivity|].
  change (String x ((a ++ b) ++ c) = String x (a ++ b ++ c)).
  f_equal. exact IH.
Qed.

Lemma string_of_list_ascii_nonempty (l : list ascii) :
  l <> [] -> String.eqb (string_of_list_ascii l) "" = false.
Proof. destruct l; [congruence | reflexivity]. Qed.

(** With a match of sixteen entries the loop over [SubexpNames] does
    not panic and files the five named groups under their names. *)
Lemma subexpLoop_named (m0 m1 m2 m3 m4 m5 m6 m7 m8 m9 m10 m11 m12 m13 m14
                        m15 : string) :
  exists matches,
    subexpLoop (imap (fun i name => (i, name)) SubexpNames)
      [m0; m1; m2; m3; m4; m5; m6; m7; m8; m9; m10; m11; m12; m13; m14; m15]
      ∅
    = Returns matches
    /\ matches !! "HOSTGROUP" = Some m2
    /\ matches !! "PROJECTGROUP" = Some m3
    /\ matches !! "INSTANCEGROUP" = Some m8
    /\ matches !! "DATABASEGROUP" = Some m11
    /\ matches !! "PARAMSGROUP" = Some m15.
Proof. eexists. split; [reflexivity|]. repeat split; vm_compute; reflexivity. Qed.

Section DescriptorDecomposition.

Variable G : golib.

(** X1: a descriptor that [extractConnectorConfig] accepts contains,
    somewhere, the text made of its parts: the optional host with its
    slash, [projects/] and a non-empty project, the optional instance
    and, only with an instance, the optional database, and the
    optional parameters behind one of [?], [|] and [;]. *)
Theorem extractConnectorConfig_decomposes (dsn : string)
    (cfg : connectorConfig.t) :
  extractConnectorConfig G dsn = Returns (inl cfg) ->
  let host := connectorConfig.host cfg in
  let project := connectorConfig.project cfg in
  let instance := connectorConfig.instance cfg in
  let database := connectorConfig.database cfg in
  exists pre post params : string,
    dsn = pre
          ++ (if String.eqb host "" then "" else host ++ "/")
          ++ "projects/" ++ project
          ++ (if String.eqb instance "" then ""
              else "/instances/" ++ instance
                   ++ (if String.eqb database "" then ""
                       else "/databases/" ++ database))
          ++ params ++ post
    /\ project <> ""
    /\ (instance = "" -> database = "")
    /\ ((params = "" /\ connectorConfig.params cfg = ∅)
        \/ exists sep rest,
             params = String sep rest
             /\ oneOf "?|;" sep = true
             /\ extractConnectorParams G rest
                = inl (connectorConfig.params cfg)).
Proof.
  unfold extractConnectorConfig, regexp.FindStringSubmatch.
  destruct (regexp.search dsnRegExp (list_ascii_of_string dsn)) as [res|] eqn:Hs;
    [|discriminate].
  apply search_sound in Hs as (a & w & b & c & Hdsn & Hw & ->).
  apply dsnRegExp_decomposition in Hw
    as (oh & p & oi & op & -> & H2 & H3 & H8 & H11 & H15 & Hp & Hh & Hi & Hd
        & Hsep).
  cbn [default from_option id map seq].
  match goal with
  | |- context [subexpLoop _ [?m0; ?m1; ?m2; ?m3; ?m4; ?m5; ?m6; ?m7; ?m8;
                              ?m9; ?m10; ?m11; ?m12; ?m13; ?m14; ?m15] ∅] =>
      destruct (subexpLoop_named m0 m1 m2 m3 m4 m5 m6 m7 m8 m9 m10 m11 m12
                  m13 m14 m15)
        as (matches & -> & E2 & E3 & E8 & E11 & E15)
  end.
  rewrite E2, E3, E8, E11, E15. cbn [default from_option id].
  unfold HOSTGROUP, PROJECTGROUP, INSTANCEGROUP, DATABASEGROUP, PARAMSGROUP
    in *.
  rewrite !cap_cons_ne by lia. rewrite H2, H3, H8, H11, H15.
  destruct (extractConnectorParams G _) as [params|e] eqn:Hparams;
    [|discriminate].
  intros Hcfg. injection Hcfg as <-. cbn.
  exists (string_of_list_ascii a), (string_of_list_ascii b),
    (string_of_list_ascii (paramsPart op)).
  split; [|split; [|split]].
  - rewrite <- (string_of_list_ascii_of_string dsn), Hdsn.
    destruct oh as [h|]; [pose proof (Hh h eq_refl) as Hhne|];
      (destruct oi as [[i [d|]]|];
       [pose proof (Hi i _ eq_refl) as Hine;
        pose proof (Hd i d eq_refl) as Hdne
       |pose proof (Hi i _ eq_refl) as Hine|]);
      cbn [hostPart instancePart fmap option_fmap option_map mbind
             option_bind fst snd];
      rewrite ?string_of_list_ascii_nonempty by assumption;
      repeat (rewrite string_of_list_ascii_app
              || rewrite string_of_list_ascii_of_string
              || rewrite string_append_assoc);
      simpl; rewrite ?string_append_assoc; reflexivity.
  - destruct p; [congruence | discriminate].
  - destruct oi as [[i [d|]]|]; simpl; [|reflexivity|reflexivity].
    intros Hempty. exfalso. apply (Hi i (Some d) eq_refl).
    destruct i; [reflexivity | discriminate].
  - destruct op as [[sep q]|]; simpl in *.
    + right. exists sep, (string_of_list_ascii q).
      split; [reflexivity|]. split; [eapply Hsep; reflexivity | exact Hparams].
    + left. split; [reflexivity|].
      unfold extractConnectorParams in Hparams. simpl in Hparams.
      inversion Hparams. reflexivity.
Qed.

End DescriptorDecomposition.

Lemma FindStringSubmatch_dsnRegExp_projects (dsn : string) (m : list string) :
  regexp.FindStringSubmatch dsnRegExp 15 dsn = Some m ->
  exists a b : string, dsn = a ++ "projects/" ++ b.
Proof.
  unfold regexp.FindStringSubmatch.
  destruct (regexp.search dsnRegExp (list_ascii_of_string dsn)) as [res|] eqn:Hs;
    [|discriminate].
  intros _. apply search_sound in Hs as (a & w & b & c & Hdsn & Hw & _).
  apply dsnRegExp_decomposition in Hw as (oh & p & oi & op & -> & _).
  exists (string_of_list_ascii (a ++ hostPart oh)),
    (string_of_list_ascii (p ++ instancePart oi ++ paramsPart op ++ b)).
  rewrite <- (string_of_list_ascii_of_string dsn), Hdsn.
  rewrite <- (string_of_list_ascii_of_string "projects/") at 2.
  rewrite <- !string_of_list_ascii_app. f_equal.
  rewrite <- !app_assoc. reflexivity.
Qed.

Section DescriptorPanic.

Variable G : golib.
Variable be : backend.

(** X2: every descriptor that does not contain the text [projects/]
    makes [Open] and [OpenConnector] panic. *)
Theorem Open_panics_without_projects (dsn : string) (w : world) :
  connectors w !! dsn = None ->
  (forall a b : string, dsn <> a ++ "projects/" ++ b) ->
  Open G be dsn w = (Panics "runtime error: index out of range", w)
  /\ OpenConnector G dsn w = (Panics "runtime error: index out of range", w).
Proof.
  intros Hnew Hno.
  assert (Hnone : regexp.FindStringSubmatch dsnRegExp 15 dsn = None).
  { destruct (regexp.FindStringSubmatch dsnRegExp 15 dsn) as [m|] eqn:Hm;
      [|reflexivity].
    apply FindStringSubmatch_dsnRegExp_projects in Hm as (a & b & Hdsn).
    exfalso. exact (Hno a b Hdsn). }
  unfold Open, OpenConnector, newConnector. rewrite Hnew.
  unfold extractConnectorConfig. rewrite Hnone. split; reflexivity.
Qed.

End DescriptorPanic.




Section ParameterProperties.

Variable G : golib.





Lemma extractConnectorParams_loop_bindings (kvs : list string)
    (acc params : gmap string string) :
  extractConnectorParams_loop G kvs acc = inl params ->
  (forall key v,
     params !! key = Some v ->
     acc !! key = Some v
     \/ exists kv k,
          In kv kvs /\ strings.SplitN2 kv "=" = [k; v]
          /\ key = strings_ToLower G k)
  /\ (forall key, is_Some (acc !! key) -> is_Some (params !! key))
  /\ (forall kv k v,
        In kv kvs -> kv <> "" -> strings.SplitN2 kv "=" = [k; v] ->
        is_Some (params !! strings_ToLower G k)).
Proof.
  revert acc. induction kvs as [|kv rest IH]; intros acc; simpl.
  - intros Hrun. inversion Hrun; subst. repeat split.
    + intros key v Hl. left. exact Hl.
    + intros key H. exact H.
    + intros kv k v [].
  - destruct (String.eqb_spec kv "") as [->|Hne].
    + intros Hrun. destruct (IH _ Hrun) as (Hs & Hk & Hc). repeat split.
      * intros key v Hl. destruct (Hs key v Hl) as [Hacc|(kv' & k & Hin & Hsp & Hkey)];
          [left; exact Hacc|].
        right. exists kv', k. split; [right; exact Hin | split; assumption].
      * exact Hk.
      * intros kv' k v [<-|Hin] Hne' Hsp; [contradiction|].
        eapply Hc; eassumption.
    + destruct (strings.SplitN2 kv "=") as [|k [|v [|x l]]] eqn:Hsplit;
        try discriminate.
      intros Hrun. destruct (IH _ Hrun) as (Hs & Hk & Hc). repeat split.
      * intros key v' Hl.
        destruct (Hs key v' Hl) as [Hacc|(kv' & k' & Hin & Hsp & Hkey)].
        -- destruct (decide (strings_ToLower G k = key)) as [Heq|Hneq].
           ++ subst key. rewrite lookup_insert_eq in Hacc.
              inversion Hacc; subst. right. exists kv, k.
              split; [left; reflexivity | split; [exact Hsplit|reflexivity]].
           ++ rewrite lookup_insert_ne in Hacc by exact Hneq.
              left. exact Hacc.
        -- right. exists kv', k'.
           split; [right; exact Hin | split; assumption].
      * intros key Hsome. apply Hk.
        destruct (decide (strings_ToLower G k = key)) as [Heq|Hneq].
        -- subst. rewrite lookup_insert_eq. eauto.
        -- rewrite lookup_insert_ne by exact Hneq. exact Hsome.
      * intros kv' k' v' [<-|Hin] Hne' Hsp.
        -- rewrite Hsplit in Hsp. inversion Hsp; subst.
           apply Hk. rewrite lookup_insert_eq. eauto.
        -- eapply Hc; eassumption.
Qed.

(** X4: when [extractConnectorParams] succeeds, every binding of the
    map comes from an entry [k=v] of the string, under the lower-cased
    key, and every such entry has its lower-cased key bound. *)
Theorem extractConnectorParams_bindings (paramsString : string)
    (params : gmap string string) :
  extractConnectorParams G paramsString = inl params ->
  (forall key v,
     params !! key = Some v ->
     exists kv k,
       In kv (strings.Split paramsString ";")
       /\ strings.SplitN2 kv "=" = [k; v]
       /\ key = strings_ToLower G k)
  /\ (forall kv k v,
        In kv (strings.Split paramsString ";") ->
        strings.SplitN2 kv "=" = [k; v] ->
        is_Some (params !! strings_ToLower G k)).
Proof.
  unfold extractConnectorParams.
  destruct (String.eqb_spec paramsString "") as [->|Hne].
  - intros Hrun. inversion Hrun; subst. split.
    + intros key v Hl. rewrite lookup_empty in Hl. discriminate.
    + intros kv k v [<-|[]] Hsp. discriminate.
  - intros Hrun.
    destruct (extractConnectorParams_loop_bindings _ _ _ Hrun) as (Hs & _ & Hc).
    split.
    + intros key v Hl. destruct (Hs key v Hl) as [Hacc|H]; [|exact H].
      rewrite lookup_empty in Hacc. discriminate.
    + intros kv k v Hin Hsp. apply (Hc kv k v Hin); [|exact Hsp].
      intros ->. discriminate.
Qed.

Lemma extractConnectorParams_loop_keeps (kvs : list string)
    (acc params : gmap string string) (key v : string) :
  extractConnectorParams_loop G kvs acc = inl params ->
  acc !! key = Some v ->
  (forall kv' k' v',
     In kv' kvs -> strings.SplitN2 kv' "=" = [k'; v'] ->
     strings_ToLower G k' <> key) ->
  params !! key = Some v.
Proof.
  revert acc. induction kvs as [|kv rest IH]; intros acc; simpl.
  - intros Hrun Hacc _. inversion Hrun; subst. exact Hacc.
  - destruct (String.eqb_spec kv "") as [->|Hne].
    + intros Hrun Hacc Hlater. apply (IH _ Hrun Hacc).
      intros kv' k' v' Hin. apply Hlater. right. exact Hin.
    + destruct (strings.SplitN2 kv "=") as [|k [|v0 [|x l]]] eqn:Hsplit;
        try discriminate.
      intros Hrun Hacc Hlater. apply (IH _ Hrun).
      * rewrite lookup_insert_ne; [exact Hacc|].
        apply (Hlater kv k v0); [left; reflexivity | exact Hsplit].
      * intros kv' k' v' Hin. apply Hlater. right. exact Hin.
Qed.

Lemma extractConnectorParams_loop_last (pre post : list string)
    (kv k v : string) (acc params : gmap string string) :
  extractConnectorParams_loop G (pre ++ kv :: post) acc = inl params ->
  strings.SplitN2 kv "=" = [k; v] ->
  (forall kv' k' v',
     In kv' post -> strings.SplitN2 kv' "=" = [k'; v'] ->
     strings_ToLower G k' <> strings_ToLower G k) ->
  params !! strings_ToLower G k = Some v.
Proof.
  revert acc. induction pre as [|p pre IH]; intros acc; simpl.
  - destruct (String.eqb_spec kv "") as [->|Hne]; [intros _ Hsp; discriminate|].
    intros Hrun Hsp Hlater. rewrite Hsp in Hrun.
    apply (extractConnectorParams_loop_keeps _ _ _ _ _ Hrun);
      [apply lookup_insert_eq | exact Hlater].
  - destruct (String.eqb p ""); [apply IH|].
    destruct (strings.SplitN2 p "=") as [|k0 [|v0 [|x l]]];
      try discriminate.
    apply IH.
Qed.

(** X5: a parameter is looked up under its lower-cased key, and of
    several entries with the same lower-cased key the last one
    counts. *)
Theorem extractConnectorParams_last_entry_wins (paramsString : string)
    (params : gmap string string) (pre post : list string)
    (kv k v : string) :
  extractConnectorParams G paramsString = inl params ->
  strings.Split paramsString ";" = (pre ++ kv :: post)%list ->
  strings.SplitN2 kv "=" = [k; v] ->
  (forall kv' k' v',
     In kv' post -> strings.SplitN2 kv' "=" = [k'; v'] ->
     strings_ToLower G k' <> strings_ToLower G k) ->
  params !! strings_ToLower G k = Some v.
Proof.
  unfold extractConnectorParams.
  destruct (String.eqb_spec paramsString "") as [->|Hne].
  - intros _ Hsplit Hsp. exfalso.
    destruct pre as [|p [|q pre]]; simpl in Hsplit; inversion Hsplit; subst.
    discriminate.
  - intros Hrun Hsplit. rewrite Hsplit in Hrun.
    exact (extractConnectorParams_loop_last pre post kv k v ∅ params Hrun).
Qed.

End ParameterProperties.

Section ConnectorLifecycle.

Variable G : golib.
Variable be : backend.

(** X6: [newConnector] never contacts the backing clients, never
    changes a connector that exists or the registration of another
    descriptor, and asked again for the same descriptor it returns the
    same connector and changes nothing. *)
Theorem newConnector_registers_once (D : string) (l : loc) (w w' : world) :
  newConnector G D w = (Returns (inl l), w') ->
  connectors w' !! D = Some l
  /\ newConnector G D w' = (Returns (inl l), w')
  /\ log w' = log w
  /\ (forall D', D' <> D -> connectors w' !! D' = connectors w !! D')
  /\ (forall l' k, heap w !! l' = Some k -> heap w' !! l' = Some k).
Proof.
  unfold newConnector.
  destruct (connectors w !! D) as [l0|] eqn:Hreg.
  - intros Hrun. inversion Hrun; subst. rewrite Hreg. repeat split; auto.
  - destruct (extractConnectorConfig G D) as [[cfg|e]|why]; try discriminate.
    intros Hrun. inversion Hrun; subst; clear Hrun. simpl.
    rewrite lookup_insert_eq. repeat split.
    + intros D' Hne. apply lookup_insert_ne. congruence.
    + intros l' k Hl'. rewrite lookup_insert_ne; [exact Hl'|].
      intros <-. pose proof (is_fresh (dom (heap w))) as Hfresh.
      apply Hfresh. apply elem_of_dom. eauto.
Qed.

(** X7: the clients of a connector are created at most once: on a
    connector whose [initClient] has run, [Connect] sends nothing to
    the backing service, and when the stored outcome is an error it
    returns that error again and changes nothing at all. *)
Theorem Connect_initialised_once (l : loc) (k : connector.t) (w : world) :
  heap w !! l = Some k ->
  connector.initClient k = true ->
  log (snd (Connect be l w)) = log w
  /\ (forall e, connector.clientErr k = Some e ->
                Connect be l w = (Returns (inr e), w))
  /\ (forall e, connector.clientErr k = None ->
                connector.adminClientErr k = Some e ->
                Connect be l w = (Returns (inr e), w)).
Proof.
  intros Hk Hinit. unfold Connect, openDriverConn. rewrite Hk, Hinit.
  assert (Hsame : {| connectors := connectors w;
                     heap := <[l := k]> (heap w);
                     log := log w |} = w).
  { rewrite (insert_id _ _ _ Hk). destruct w; reflexivity. }
  split; [|split].
  - destruct (connector.clientErr k); [reflexivity|].
    destruct (connector.adminClientErr k); [reflexivity|].
    destruct (connector.client k); [|reflexivity].
    destruct (connector.adminClient k); reflexivity.
  - intros e ->. rewrite Hsame. reflexivity.
  - intros e -> ->. rewrite Hsame. reflexivity.
Qed.

(** X8: when the creation of a client fails at the first [Open] of a
    descriptor, the connector stays registered with no connection and
    with the error stored: every later [Open] of the descriptor
    returns the same error without a new attempt, whatever the
    backing service would answer then. *)
Theorem Open_failure_is_sticky (D : string) (cfg : connectorConfig.t)
    (e : error) (w0 : world) :
  connectors w0 !! D = None ->
  extractConnectorConfig G D = Returns (inl cfg) ->
  let opts := (buildOptions cfg ++ [WithUserAgent userAgent])%list in
  let created :=
    NewClientWithConfig (databaseNameOf cfg) (buildClientConfig G cfg) opts in
  match be_NewClientWithConfig be (log w0) (databaseNameOf cfg)
          (buildClientConfig G cfg) opts with
  | inr e1 => Some e1
  | inl _ =>
      match be_NewDatabaseAdminClient be (log w0 ++ [created])%list opts with
      | inr e2 => Some e2
      | inl _ => None
      end
  end = Some e ->
  exists w1,
    Open G be D w0 = (Returns (inr e), w1)
    /\ connectors w1 !! D = Some (fresh (dom (heap w0)))
    /\ connector.connCount <$> (heap w1 !! fresh (dom (heap w0))) = Some 0
    /\ log w1 = (log w0 ++ [created; NewDatabaseAdminClient opts])%list
    /\ forall be' : backend, Open G be' D w1 = (Returns (inr e), w1).
Proof.
  intros Hnew Hcfg opts created Hcl.
  unfold Open at 1. unfold newConnector. rewrite Hnew, Hcfg.
  unfold openDriverConn; simpl. rewrite lookup_insert_eq; simpl.
  fold opts. fold created.
  destruct (be_NewClientWithConfig be (log w0) (databaseNameOf cfg)
              (buildClientConfig G cfg) opts) as [cl|e1]; simpl.
  - destruct (be_NewDatabaseAdminClient be (log w0 ++ [created])%list opts)
      as [ad|e2]; [discriminate|].
    inversion Hcl; subst; simpl.
    eexists. split; [reflexivity|]. simpl.
    split; [apply lookup_insert_eq|].
    split; [rewrite lookup_insert_eq; reflexivity|].
    split; [rewrite <- app_assoc; reflexivity|].
    intros be'. unfold Open, newConnector; simpl.
    rewrite lookup_insert_eq. unfold openDriverConn; simpl.
    rewrite lookup_insert_eq; simpl.
    rewrite insert_insert_eq. reflexivity.
  - inversion Hcl; subst; simpl.
    eexists. split; [reflexivity|]. simpl.
    split; [apply lookup_insert_eq|].
    split; [rewrite lookup_insert_eq; reflexivity|].
    split; [rewrite <- app_assoc; reflexivity|].
    intros be'. unfold Open, newConnector; simpl.
    rewrite lookup_insert_eq. unfold openDriverConn; simpl.
    rewrite lookup_insert_eq; simpl.
    rewrite insert_insert_eq. reflexivity.
Qed.

(** X9: [Close] tears the connector down whenever the decremented
    count is not positive, also below zero: both clients of the
    connection are closed and whatever connector is registered under
    the descriptor is unregistered; other descriptors stay. *)
Theorem Close_tears_down_at_nonpositive_count (c : conn.t)
    (k : connector.t) (w : world) :
  heap w !! conn.connector c = Some k ->
  - 2 ^ 31 < connector.connCount k <= 1 ->
  exists w',
    Close be c w
    = (Returns (be_AdminClient_Close be
                  (log w ++ [Client_Close (conn.client c)])%list
                  (conn.adminClient c)), w')
    /\ connectors w' !! connector.dsn k = None
    /\ (forall D', D' <> connector.dsn k ->
                   connectors w' !! D' = connectors w !! D')
    /\ connector.connCount <$> (heap w' !! conn.connector c)
       = Some (connector.connCount k - 1)
    /\ log w'
       = (log w ++ [Client_Close (conn.client c);
                    AdminClient_Close (conn.adminClient c)])%list.
Proof.
  intros Hk Hrange. unfold Close. rewrite Hk.
  rewrite AddInt32_decr by lia.
  destruct (Z.ltb_spec 0 (connector.connCount k - 1)); [lia|].
  eexists. split; [reflexivity|]. simpl.
  split; [apply lookup_delete_eq|].
  split; [intros D' Hne; apply lookup_delete_ne; congruence|].
  split; [rewrite lookup_insert_eq; reflexivity|].
  rewrite <- app_assoc. reflexivity.
Qed.

End ConnectorLifecycle.


Lemma wrap64_small (z : Z) : - 2 ^ 63 <= z < 2 ^ 63 -> wrap64 z = z.
Proof. intros Hz. unfold wrap64. rewrite Z.mod_small; lia. Qed.

Lemma wrap64_add_l (a c : Z) : wrap64 (wrap64 a + c) = wrap64 (a + c).
Proof.
  unfold wrap64. f_equal.
  replace ((a + 2 ^ 63) mod 2 ^ 64 - 2 ^ 63 + c + 2 ^ 63)
    with ((a + 2 ^ 63) mod 2 ^ 64 + c) by lia.
  rewrite Zplus_mod_idemp_l. f_equal. lia.
Qed.

Lemma sum_from (affected : list Z) (acc : Z) :
  fold_left (fun sum c => wrap64 (sum + c)) affected (wrap64 acc)
  = wrap64 (acc + foldr Z.add 0 affected).
Proof.
  revert acc. induction affected as [|c l IH]; intros acc; simpl.
  - rewrite Z.add_0_r. reflexivity.
  - rewrite wrap64_add_l, IH. f_equal. lia.
Qed.

(** X10: [sum] adds the counts modulo 2^64, and is the exact total
    whenever that total fits an [int64]. *)
Theorem sum_is_wrapped_total (affected : list Z) :
  sum affected = wrap64 (foldr Z.add 0 affected)
  /\ (- 2 ^ 63 <= foldr Z.add 0 affected < 2 ^ 63 ->
      sum affected = foldr Z.add 0 affected).
Proof.
  assert (Hsum : sum affected = wrap64 (foldr Z.add 0 affected)).
  { unfold sum. change 0 with (wrap64 0) at 1. rewrite sum_from. reflexivity. }
  split; [exact Hsum|]. intros Hfit. rewrite Hsum. apply wrap64_small. exact Hfit.
Qed.

Section BatchGuards.

Variable be : backend.
Variable P : deps.

(** X11: outside a transaction [runBatch] consumes the batch: a DDL or
    DML batch is gone afterwards whatever the backing service
    answers, and nothing else of the connection changes; without a
    batch it fails with FailedPrecondition, and a batch of another
    type is refused with InvalidArgument and stays. *)
Theorem runBatch_consumes_batch (s : state) :
  inTransaction (self s) = false ->
  (forall b, conn.batch (self s) = Some b ->
             batch.tp b = ddl \/ batch.tp b = dml ->
             self (snd (runBatch be P s)) = conn.set_batch None (self s))
  /\ (conn.batch (self s) = None ->
      exists e, runBatch be P s = ((None, Some e), s)
                /\ ErrCode e = codes.FailedPrecondition)
  /\ (forall b, conn.batch (self s) = Some b ->
                batch.tp b <> ddl -> batch.tp b <> dml ->
                exists e, runBatch be P s = ((None, Some e), s)
                          /\ ErrCode e = codes.InvalidArgument).
Proof.
  intros Htx. destruct s as [c h]; simpl in *.
  unfold runBatch, bind, this, ret; simpl. rewrite Htx.
  split; [|split].
  - intros b Hb [Htp|Htp]; rewrite Hb, Htp; simpl.
    + unfold runDDLBatch, execDDL, bind, this, update, ret, call, request;
        simpl.
      destruct (batch.statements b) as [|st sts]; [reflexivity|]. simpl.
      destruct (be_UpdateDatabaseDdl be h _ _ _); [reflexivity|]. simpl.
      destruct (be_Operation_Wait be _ _); reflexivity.
    + unfold runDMLBatch, execBatchDML, bind, this, update, ret, call,
        request; simpl.
      destruct (batch.statements b) as [|st sts]; [reflexivity|]. simpl.
      unfold inTransaction in Htx. destruct (conn.tx c); [discriminate|].
      reflexivity.
  - intros ->. eexists. split; reflexivity.
  - intros b Hb Hn1 Hn2. rewrite Hb.
    destruct (Z.eqb_spec (batch.tp b) ddl); [contradiction|].
    destruct (Z.eqb_spec (batch.tp b) dml); [contradiction|].
    eexists. split; reflexivity.
Qed.

(** X12: [startBatchDML] outside a transaction refuses to open a batch
    over an open one, with FailedPrecondition and no change, and
    otherwise opens an empty DML batch; inside a transaction it leaves
    everything to the transaction. *)
Theorem startBatchDML_guarded (s : state) :
  (inTransaction (self s) = true -> startBatchDML P s = tx_StartBatchDML P s)
  /\ (inTransaction (self s) = false -> conn.batch (self s) <> None ->
      exists e, startBatchDML P s = ((None, Some e), s)
                /\ ErrCode e = codes.FailedPrecondition)
  /\ (inTransaction (self s) = false -> conn.batch (self s) = None ->
      startBatchDML P s
      = ((Some ResultNoRows, None),
         {| self :=
              conn.set_batch
                (Some {| batch.tp := dml; batch.statements := [] |}) (self s);
            history := history s |})
      /\ InDMLBatch (self (snd (startBatchDML P s))) = true).
Proof.
  destruct s as [c h]; simpl.
  unfold startBatchDML, bind, this, ret, update; simpl.
  split; [|split].
  - intros ->. reflexivity.
  - intros -> Hb. destruct (conn.batch c); [|congruence].
    eexists. split; reflexivity.
  - intros Htx Hb. rewrite Htx, Hb.
    unfold inReadOnlyTransaction. unfold inTransaction in Htx.
    destruct (conn.tx c); [discriminate|]. simpl. split; reflexivity.
Qed.

(** X13: the operations that open a batch or a transaction keep them
    apart: if no connection-level batch coexists with a transaction
    before [startBatchDDL], [startBatchDML] (outside a transaction) or
    [BeginTx], none does afterwards, whether the operation succeeds
    or not. *)
Theorem batch_and_transaction_stay_exclusive (s : state) :
  batchTxExclusive (self s) ->
  batchTxExclusive (self (snd (startBatchDDL s)))
  /\ (inTransaction (self s) = false ->
      batchTxExclusive (self (snd (startBatchDML P s))))
  /\ forall readOnly,
       batchTxExclusive (self (snd (BeginTx be readOnly s))).
Proof.
  destruct s as [c h]; simpl. intros Hkeep.
  split; [|split].
  - unfold startBatchDDL, bind, this, ret, update; simpl.
    destruct (conn.batch c) as [b|] eqn:Hb; simpl; [exact Hkeep|].
    destruct (inTransaction c) eqn:Htx; simpl; [exact Hkeep|].
    unfold batchTxExclusive; simpl. split; [left; reflexivity|].
    right. unfold inTransaction in Htx.
    destruct (conn.tx c); [discriminate | reflexivity].
  - intros Htx. unfold startBatchDML, bind, this, ret, update; simpl.
    rewrite Htx. destruct (conn.batch c) as [b|] eqn:Hb; simpl;
      [exact Hkeep|].
    unfold inReadOnlyTransaction. unfold inTransaction in Htx.
    destruct (conn.tx c) eqn:Hc; [discriminate|]. simpl.
    unfold batchTxExclusive; simpl. split; [right; reflexivity|].
    right. exact Hc.
  - intros readOnly. unfold BeginTx, bind, this, ret, update, call, request;
      simpl.
    destruct (inTransaction c) eqn:Htx; simpl; [exact Hkeep|].
    destruct (inBatch c) eqn:Hbatch; simpl; [exact Hkeep|].
    assert (Hnone : conn.batch c = None).
    { destruct Hkeep as [Hwf _].
      unfold inBatch, InDDLBatch, InDMLBatch in Hbatch.
      destruct (conn.batch c) as [b|]; [|reflexivity].
      destruct Hwf as [Htp|Htp]; rewrite Htp in Hbatch; simpl in Hbatch.
      - discriminate.
      - destruct (conn.tx c) as [[?|?]|]; discriminate. }
    destruct readOnly; simpl.
    + unfold batchTxExclusive; simpl. rewrite Hnone. split; [exact I|].
      left. reflexivity.
    + destruct (be_NewReadWriteStmtBasedTransaction be h (conn.client c));
        simpl; [|exact Hkeep].
      unfold batchTxExclusive; simpl. rewrite Hnone. split; [exact I|].
      left. reflexivity.
Qed.

End BatchGuards.

Section DDLBatchProperties.

Variable be : backend.
Variable P : deps.

Lemma inTransaction_false (c : conn.t) :
  inTransaction c = false -> conn.tx c = None.
Proof. unfold inTransaction. destruct (conn.tx c); congruence. Qed.

Lemma map_SQL_NewStatement (qs : list string) :
  map Statement.SQL (map NewStatement qs) = qs.
Proof. induction qs as [|q qs IH]; simpl; [reflexivity|]. rewrite IH. reflexivity. Qed.

(** A schema statement executed while a DDL batch is open is appended
    to the batch and nothing is sent. *)
Lemma ExecContext_DDL_appends (q : string) (args : list NamedValue)
    (s : state) (b : batch.t) :
  parseClientSideStatement P (self s) q = (None, None) ->
  isDDL P q = (true, None) ->
  inTransaction (self s) = false ->
  conn.batch (self s) = Some b ->
  batch.tp b = ddl ->
  ExecContext be P q args s
  = ((Some ResultNoRows, None),
     {| self :=
          conn.set_batch (Some (batch.append b [NewStatement q]))
            (conn.set_commitTs None (self s));
        history := history s |}).
Proof.
  intros Hcs Hddl Htx Hb Htp. destruct s as [c h]; simpl in *.
  unfold ExecContext, bind, this, ret, update; simpl.
  rewrite Hcs, Hddl, Htx.
  unfold execDDL, bind, this, ret, update; simpl.
  rewrite Hb, Htp. reflexivity.
Qed.

Lemma batching_DDL (qs : list string) :
  (forall c q, In q qs -> parseClientSideStatement P c q = (None, None)) ->
  (forall q, In q qs -> isDDL P q = (true, None)) ->
  forall (s : state) (sts : list Statement.t),
    inTransaction (self s) = false ->
    conn.batch (self s) = Some {| batch.tp := ddl; batch.statements := sts |} ->
    let s' := fold_left (fun st q => snd (ExecContext be P q [] st)) qs s in
    history s' = history s
    /\ conn.batch (self s')
       = Some {| batch.tp := ddl;
                 batch.statements := (sts ++ map NewStatement qs)%list |}
    /\ inTransaction (self s') = false
    /\ conn.adminClient (self s') = conn.adminClient (self s)
    /\ conn.database (self s') = conn.database (self s).
Proof.
  induction qs as [|q qs IH]; intros Hcs Hddl s sts Htx Hb; simpl.
  - rewrite app_nil_r. repeat split; assumption.
  - rewrite (ExecContext_DDL_appends q [] s _ (Hcs _ q (or_introl eq_refl))
               (Hddl q (or_introl eq_refl)) Htx Hb eq_refl).
    simpl.
    destruct (IH (fun c q' H => Hcs c q' (or_intror H))
                (fun q' H => Hddl q' (or_intror H))
                {| self :=
                     conn.set_batch
                       (Some (batch.append
                                {| batch.tp := ddl; batch.statements := sts |}
                                [NewStatement q]))
                       (conn.set_commitTs None (self s));
                   history := history s |}
                (sts ++ [NewStatement q])%list)
      as (Hh & Hbatch & Htx' & Had & Hdb).
    + simpl. exact Htx.
    + reflexivity.
    + simpl in *. rewrite <- app_assoc in Hbatch. simpl in Hbatch.
      repeat split; assumption.
Qed.

(** X14: a DDL batch collects and submits in one request: after
    [startBatchDDL], executing schema statements sends nothing and
    queues them in order, and [runBatch] then sends their texts, in
    that order, in a single [UpdateDatabaseDdl] request (none for an
    empty batch), awaits it when accepted, and leaves no batch. *)
Theorem DDL_batch_submits_once_in_order (qs : list string) (s : state) :
  (forall c q, In q qs -> parseClientSideStatement P c q = (None, None)) ->
  (forall q, In q qs -> isDDL P q = (true, None)) ->
  inTransaction (self s) = false ->
  conn.batch (self s) = None ->
  let ad := conn.adminClient (self s) in
  let db := conn.database (self s) in
  let s1 := snd (startBatchDDL s) in
  let s2 := fold_left (fun st q => snd (ExecContext be P q [] st)) qs s1 in
  let s3 := snd (runBatch be P s2) in
  history s2 = history s
  /\ conn.batch (self s2)
     = Some {| batch.tp := ddl; batch.statements := map NewStatement qs |}
  /\ conn.batch (self s3) = None
  /\ history s3
     = (history s
        ++ match qs with
           | [] => []
           | _ =>
               UpdateDatabaseDdl ad db qs
               :: match be_UpdateDatabaseDdl be (history s) ad db qs with
                  | Some _ => []
                  | None => [Operation_Wait ad]
                  end
           end)%list.
Proof.
  intros Hcs Hddl Htx Hb ad db s1 s2 s3.
  assert (Hs1 : s1 = {| self :=
                          conn.set_batch
                            (Some {| batch.tp := ddl; batch.statements := [] |})
                            (self s);
                        history := history s |}).
  { subst s1. destruct s as [c h]; simpl in *.
    unfold startBatchDDL, bind, this, ret, update; simpl.
    rewrite Hb, Htx. reflexivity. }
  destruct (batching_DDL qs Hcs Hddl s1 []) as (Hh & Hbatch & Htx2 & Had & Hdb).
  { rewrite Hs1. simpl. exact Htx. }
  { rewrite Hs1. reflexivity. }
  fold s2 in Hh, Hbatch, Htx2, Had, Hdb. simpl in Hbatch.
  rewrite Hs1 in Hh, Had, Hdb. simpl in Hh, Had, Hdb.
  split; [exact Hh|]. split; [exact Hbatch|].
  subst s3. destruct s2 as [c2 h2]; simpl in *. subst h2.
  unfold runBatch, runDDLBatch, execDDL, bind, this, ret, update, call,
    request; simpl.
  rewrite Htx2, Hbatch; simpl. rewrite map_SQL_NewStatement, Had, Hdb.
  fold ad. fold db.
  destruct qs as [|q qs]; simpl.
  - rewrite app_nil_r. split; reflexivity.
  - destruct (be_UpdateDatabaseDdl be (history s) ad db (q :: qs)); simpl.
    + split; reflexivity.
    + destruct (be_Operation_Wait be _ ad); simpl;
        (split; [reflexivity | rewrite <- app_assoc; reflexivity]).
Qed.

End DDLBatchProperties.

Section DMLBatchProperties.

Variable be : backend.
Variable P : deps.

(** A DML statement executed while a DML batch is open and no
    transaction is active is appended to the batch and nothing is
    sent. *)
Lemma ExecContext_DML_appends (q : string) (args : list NamedValue)
    (ss : Statement.t) (s : state) (sts : list Statement.t) :
  parseClientSideStatement P (self s) q = (None, None) ->
  isDDL P q = (false, None) ->
  prepareSpannerStmt P q args = (ss, None) ->
  conn.tx (self s) = None ->
  conn.batch (self s) = Some {| batch.tp := dml; batch.statements := sts |} ->
  ExecContext be P q args s
  = ((Some (result 0), None),
     {| self :=
          conn.set_batch
            (Some {| batch.tp := dml;
                     batch.statements := (sts ++ [ss])%list |})
            (conn.set_commitTs None (self s));
        history := history s |}).
Proof.
  intros Hcs Hddl Hprep Htx Hb. destruct s as [c h]; simpl in *.
  unfold ExecContext, bind, this, ret, update; simpl.
  rewrite Hcs, Hddl, Hprep, Htx. unfold InDMLBatch. rewrite Hb, Htx. simpl.
  rewrite Hb. reflexivity.
Qed.

Lemma batching_DML (stmtOf : string -> Statement.t) (qs : list string) :
  (forall c q, In q qs -> parseClientSideStatement P c q = (None, None)) ->
  (forall q, In q qs -> isDDL P q = (false, None)) ->
  (forall q, In q qs -> prepareSpannerStmt P q [] = (stmtOf q, None)) ->
  forall (s : state) (sts : list Statement.t),
    conn.tx (self s) = None ->
    conn.batch (self s) = Some {| batch.tp := dml; batch.statements := sts |} ->
    let s' := fold_left (fun st q => snd (ExecContext be P q [] st)) qs s in
    history s' = history s
    /\ conn.batch (self s')
       = Some {| batch.tp := dml;
                 batch.statements := (sts ++ map stmtOf qs)%list |}
    /\ conn.tx (self s') = None
    /\ conn.client (self s') = conn.client (self s).
Proof.
  induction qs as [|q qs IH]; intros Hcs Hddl Hprep s sts Htx Hb; simpl.
  - rewrite app_nil_r. repeat split; assumption.
  - rewrite (ExecContext_DML_appends q [] (stmtOf q) s sts
               (Hcs _ q (or_introl eq_refl)) (Hddl q (or_introl eq_refl))
               (Hprep q (or_introl eq_refl)) Htx Hb).
    simpl.
    destruct (IH (fun c q' H => Hcs c q' (or_intror H))
                (fun q' H => Hddl q' (or_intror H))
                (fun q' H => Hprep q' (or_intror H))
                {| self :=
                     conn.set_batch
                       (Some {| batch.tp := dml;
                                batch.statements := (sts ++ [stmtOf q])%list |})
                       (conn.set_commitTs None (self s));
                   history := history s |}
                (sts ++ [stmtOf q])%list)
      as (Hh & Hbatch & Htx' & Hcl).
    + simpl. exact Htx.
    + reflexivity.
    + simpl in *. rewrite <- app_assoc in Hbatch. simpl in Hbatch.
      repeat split; assumption.
Qed.

(** X15: a DML batch outside a transaction collects and submits in one
    request: after [startBatchDML], executing DML statements sends
    nothing and queues the prepared statements in order, and
    [runBatch] then runs them in a single read-write transaction with
    one [BatchUpdate], returns the wrapped total of the row counts
    together with the error of that transaction, and leaves no
    batch. *)
Theorem DML_batch_submits_once_in_order (stmtOf : string -> Statement.t)
    (qs : list string) (s : state) :
  (forall c q, In q qs -> parseClientSideStatement P c q = (None, None)) ->
  (forall q, In q qs -> isDDL P q = (false, None)) ->
  (forall q, In q qs -> prepareSpannerStmt P q [] = (stmtOf q, None)) ->
  inTransaction (self s) = false ->
  conn.batch (self s) = None ->
  qs <> [] ->
  let cl := conn.client (self s) in
  let s1 := snd (startBatchDML P s) in
  let s2 := fold_left (fun st q => snd (ExecContext be P q [] st)) qs s1 in
  let answer :=
    be_ReadWriteTransaction_BatchUpdate be (history s) cl (map stmtOf qs) in
  history s2 = history s
  /\ conn.batch (self s2)
     = Some {| batch.tp := dml; batch.statements := map stmtOf qs |}
  /\ fst (runBatch be P s2) = (Some (result (sum (fst answer))), snd answer)
  /\ conn.batch (self (snd (runBatch be P s2))) = None
  /\ history (snd (runBatch be P s2))
     = (history s
        ++ [ReadWriteTransaction_BatchUpdate cl (map stmtOf qs)])%list.
Proof.
  intros Hcs Hddl Hprep Htx Hb Hne cl s1 s2 answer.
  assert (Hnotx : conn.tx (self s) = None).
  { unfold inTransaction in Htx. destruct (conn.tx (self s)); congruence. }
  assert (Hs1 : s1 = {| self :=
                          conn.set_batch
                            (Some {| batch.tp := dml; batch.statements := [] |})
                            (self s);
                        history := history s |}).
  { subst s1. destruct s as [c h]; simpl in *.
    unfold startBatchDML, bind, this, ret, update; simpl.
    rewrite Htx, Hb. unfold inReadOnlyTransaction. rewrite Hnotx.
    reflexivity. }
  destruct (batching_DML stmtOf qs Hcs Hddl Hprep s1 [])
    as (Hh & Hbatch & Htx2 & Hcl).
  { rewrite Hs1. simpl. exact Hnotx. }
  { rewrite Hs1. reflexivity. }
  fold s2 in Hh, Hbatch, Htx2, Hcl. simpl in Hbatch.
  rewrite Hs1 in Hh, Hcl. simpl in Hh, Hcl.
  split; [exact Hh|]. split; [exact Hbatch|].
  subst answer. destruct s2 as [c2 h2]; simpl in *. subst h2.
  unfold runBatch, runDMLBatch, execBatchDML, bind, this, ret, update, call,
    request, inTransaction; simpl.
  rewrite Htx2, Hbatch; simpl.
  destruct (map stmtOf qs) as [|st sts] eqn:Hmap.
  - destruct qs; [congruence | discriminate].
  - simpl. rewrite Htx2, Hcl. fold cl. repeat split.
Qed.

End DMLBatchProperties.

Section TransactionProperties.

Variable be : backend.
Variable P : deps.


(** X17: [Apply] and [BufferWrite] split the work between them: inside
    a transaction [Apply] is refused with FailedPrecondition before
    anything is sent and [BufferWrite] is left to the transaction;
    outside a transaction [BufferWrite] is refused and [Apply] sends
    exactly one request and returns its answer.  Neither changes the
    connection itself. *)
Theorem Apply_BufferWrite_complementary (ms : list Mutation)
    (opts : list ApplyOption) (s : state) :
  (inTransaction (self s) = true ->
   (exists e, Apply be ms opts s = ((Time_zero, Some e), s)
              /\ ErrCode e = codes.FailedPrecondition)
   /\ BufferWrite P ms s = tx_BufferWrite P ms s)
  /\ (inTransaction (self s) = false ->
      (exists e, BufferWrite P ms s = (Some e, s)
                 /\ ErrCode e = codes.FailedPrecondition)
      /\ Apply be ms opts s
         = (be_Client_Apply be (history s) (conn.client (self s)) ms opts,
            {| self := self s;
               history :=
                 (history s
                  ++ [Client_Apply (conn.client (self s)) ms opts])%list |})).
Proof.
  destruct s as [c h]; simpl.
  unfold Apply, BufferWrite, bind, this, ret, call, request; simpl.
  split; intros ->; simpl.
  - split; [eexists; split; reflexivity | reflexivity].
  - split; [eexists; split; reflexivity | reflexivity].
Qed.

(** X18: the commit timestamp is never left over from an earlier
    statement: outside a transaction, after a [QueryContext] of a
    statement that is not a client-side statement no timestamp is
    stored, and after such an [ExecContext] a timestamp is stored only
    if the statement ran as transactional autocommit DML and
    succeeded, and it is then the timestamp of that run. *)
Theorem commit_timestamp_never_stale (query : string)
    (args : list NamedValue) (s : state) :
  parseClientSideStatement P (self s) query = (None, None) ->
  conn.tx (self s) = None ->
  conn.commitTs (self (snd (QueryContext P query args s))) = None
  /\ forall ts,
       conn.commitTs (self (snd (ExecContext be P query args s))) = Some ts ->
       exists ss n h',
         prepareSpannerStmt P query args = (ss, None)
         /\ conn.autocommitDMLMode (self s) = Transactional
         /\ conn.execSingleDMLTransactional (self s) (conn.client (self s))
              ss (history s)
            = ((n, ts, None), h')
         /\ fst (ExecContext be P query args s) = (Some (result n), None).
Proof.
  intros Hcs Htx. destruct s as [c h]; simpl in *. split.
  - unfold QueryContext, bind, this, ret, update, call; simpl.
    rewrite Hcs, Htx.
    destruct (prepareSpannerStmt P query args) as [stmt [e|]]; simpl;
      [reflexivity|].
    destruct (conn.execSingleQuery c (conn.client c) stmt
                (conn.readOnlyStaleness c) h); reflexivity.
  - intros ts. unfold ExecContext, bind, this, ret, update, call; simpl.
    rewrite Hcs. unfold inTransaction. rewrite Htx.
    destruct (isDDL P query) as [[|] [e|]]; simpl; try discriminate.
    + unfold execDDL, bind, this, ret, update, call, request; simpl.
      destruct (conn.batch c) as [b|]; simpl.
      * destruct (batch.tp b =? dml); simpl; [discriminate|].
        destruct (batch.tp b =? ddl); simpl; [discriminate|].
        destruct (be_UpdateDatabaseDdl be h _ _ _); simpl; [discriminate|].
        destruct (be_Operation_Wait be _ _); discriminate.
      * destruct (be_UpdateDatabaseDdl be h _ _ _); simpl; [discriminate|].
        destruct (be_Operation_Wait be _ _); discriminate.
    + destruct (prepareSpannerStmt P query args) as [ss [e|]]; simpl;
        [discriminate|].
      destruct (InDMLBatch c); simpl; [discriminate|].
      destruct (Z.eqb_spec (conn.autocommitDMLMode c) Transactional)
        as [Hmode|Hmode]; simpl.
      * destruct (conn.execSingleDMLTransactional c (conn.client c) ss h)
          as [[[n ts'] [e|]] h'] eqn:Hrun; simpl; [discriminate|].
        intros Hts. inversion Hts; subst.
        exists ss, n, h'. repeat split; assumption.
      * destruct (conn.autocommitDMLMode c =? PartitionedNonAtomic); simpl;
          [|discriminate].
        destruct (conn.execSingleDMLPartitioned c (conn.client c) ss h)
          as [[n [e|]] h']; discriminate.
Qed.

(** X19: [Ping] and [ResetSession] report no error but
    [driver.ErrBadConn], whatever the query, the row reader or the
    rollback fail with. *)
Theorem Ping_ResetSession_only_ErrBadConn (s : state) (e : error) :
  (fst (Ping P s) = Returns (Some e) -> e = ErrBadConn)
  /\ (fst (ResetSession P s) = Some e -> e = ErrBadConn).
Proof.
  destruct s as [c h]. split.
  - unfold Ping, bind, this, ret; simpl.
    destruct (conn.closed c); simpl; [intros H; inversion H; reflexivity|].
    destruct (QueryContext P "SELECT 1" [] {| self := c; history := h |})
      as [[[r|] [e'|]] s1]; simpl;
      try (intros H; inversion H; reflexivity); try discriminate.
    destruct (rows_Next P r s1) as [[values [e'|]] s2]; simpl.
    + destruct (rows_Close P r s2). simpl. intros H; inversion H; reflexivity.
    + destruct (rows_Close P r s2). simpl.
      destruct values as [|[| [|[| |]|] | | | | |] ?]; simpl;
        intros H; inversion H; reflexivity.
  - unfold ResetSession, bind, this, ret, update; simpl.
    destruct (conn.closed c); simpl; [intros H; inversion H; reflexivity|].
    destruct (inTransaction c); simpl; [|discriminate].
    destruct (tx_Rollback P {| self := c; history := h |}) as [[e'|] s1];
      simpl; [intros H; inversion H; reflexivity | discriminate].
Qed.

(** X20: with the [close] callback that [BeginTx] hands to a read-write
    transaction, a commit that succeeds makes its timestamp the one
    [CommitTimestamp] returns, and a commit that fails leaves
    [CommitTimestamp] failing, because [BeginTx] cleared the earlier
    timestamp; in both cases the connection is out of the
    transaction. *)
Theorem commit_timestamp_follows_transaction (s s1 : state)
    (tx : contextTransaction) (ts : Time) :
  BeginTx be false s = ((Some tx, None), s1) ->
  (let s2 := snd (rwClose (Some ts) None s1) in
   inTransaction (self s2) = false
   /\ CommitTimestamp s2 = ((ts, None), s2))
  /\ forall commitErr : error,
       let s2 := snd (rwClose (Some ts) (Some commitErr) s1) in
       inTransaction (self s2) = false
       /\ exists e, CommitTimestamp s2 = ((Time_zero, Some e), s2)
                    /\ ErrCode e = codes.FailedPrecondition.
Proof.
  destruct s as [c h]. unfold BeginTx, bind, this, ret, update, call, request;
    simpl.
  destruct (inTransaction c); [discriminate|].
  destruct (inBatch c); [discriminate|]. simpl.
  destruct (be_NewReadWriteStmtBasedTransaction be h (conn.client c)) as [rw|e];
    [|discriminate]. simpl.
  intros Hrun. inversion Hrun; subst; clear Hrun.
  split.
  - split; reflexivity.
  - intros commitErr. split; [reflexivity|]. eexists. split; reflexivity.
Qed.

End TransactionProperties.

Section ResetProperties.

Variable G : golib.
Variable be : backend.
Variable P : deps.

(** The state of a connection that [openDriverConn] returns. *)
Lemma openDriverConn_fresh (l : loc) (w w' : world) (c0 : conn.t) :
  openDriverConn be l w = (Returns (inl c0), w') ->
  conn.closed c0 = false
  /\ conn.tx c0 = None
  /\ conn.commitTs c0 = None
  /\ conn.batch c0 = None
  /\ conn.autocommitDMLMode c0 = Transactional
  /\ conn.readOnlyStaleness c0 = TimestampBound.zero
  /\ connector.retryAbortsInternally <$> (heap w' !! l)
     = Some (conn.retryAborts c0).
Proof.
  unfold openDriverConn. destruct (heap w !! l) as [k|]; [|discriminate].
  destruct (if connector.initClient k then _ else _) as [c1 h1] eqn:Hinit.
  assert (Hretry : connector.retryAbortsInternally c1
                   = connector.retryAbortsInternally k).
  { destruct (connector.initClient k).
    - inversion Hinit; subst. reflexivity.
    - unfold initClients in Hinit. inversion Hinit; subst. reflexivity. }
  destruct (connector.clientErr c1); [discriminate|].
  destruct (connector.adminClientErr c1); [discriminate|].
  destruct (connector.client c1); [|discriminate].
  destruct (connector.adminClient c1); [|discriminate].
  intros Hrun. inversion Hrun; subst; clear Hrun. simpl.
  rewrite lookup_insert_eq. simpl. repeat split.
Qed.

(** X21: [ResetSession] brings a connection without a transaction back
    to the state in which [Open] returned it, except that the retry
    flag is switched on even when the connector was configured with
    [retryAbortsInternally=false]. *)
Theorem ResetSession_restores_opened_connection (D : string)
    (w w' : world) (c0 c : conn.t) (h : list event) :
  Open G be D w = (Returns (inl c0), w') ->
  sameIdentity c0 c ->
  ResetSession P {| self := c; history := h |}
  = (None, {| self := conn.set_retryAborts true c0; history := h |})
  /\ (connector.retryAbortsInternally <$> (heap w' !! conn.connector c0)
      = Some true ->
      conn.set_retryAborts true c0 = c0)
  /\ (connector.retryAbortsInternally <$> (heap w' !! conn.connector c0)
      = Some false ->
      conn.retryAborts c0 = false
      /\ conn.retryAborts (conn.set_retryAborts true c0) = true).
Proof.
  intros Hopen Hid.
  assert (Hfresh : exists l w1, openDriverConn be l w1 = (Returns (inl c0), w')
                                /\ conn.connector c0 = l).
  { unfold Open in Hopen.
    destruct (newConnector G D w) as [[[l|e]|why] w1]; try discriminate.
    exists l, w1. split; [exact Hopen|].
    unfold openDriverConn in Hopen.
    destruct (heap w1 !! l) as [k|]; [|discriminate].
    destruct (if connector.initClient k then _ else _) as [c1 h1].
    destruct (connector.clientErr c1); [discriminate|].
    destruct (connector.adminClientErr c1); [discriminate|].
    destruct (connector.client c1); [|discriminate].
    destruct (connector.adminClient c1); [|discriminate].
    inversion Hopen; subst. reflexivity. }
  destruct Hfresh as (l & w1 & Hconn & Hl).
  destruct (openDriverConn_fresh l w1 w' c0 Hconn)
    as (Hclosed & Htx & Hts & Hb & Hmode & Hst & Hretry).
  destruct Hid as (Hc1 & Hc2 & Hc3 & Hc4 & Hc5 & Hc6 & Hc7 & Hc8 & Hc9).
  split.
  - unfold ResetSession, bind, this, ret, update, inTransaction; simpl.
    rewrite Hc2, Hclosed, Hc5, Htx. simpl.
    destruct c0, c; simpl in *; subst. reflexivity.
  - split.
    + rewrite Hl, Hretry. intros Heq. inversion Heq as [Hflag].
      destruct c0; simpl in *. subst. reflexivity.
    + rewrite Hl, Hretry. intros Heq. inversion Heq. split; reflexivity.
Qed.

End ResetProperties.

Section SessionProperties.

Variable G : golib.
Variable be : backend.
Variable P : deps.

Lemma set_connCount_same (k : connector.t) :
  connector.set_connCount (connector.set_connCount k (connector.connCount k + 1))
    (connector.connCount k)
  = k.
Proof. destruct k; reflexivity. Qed.

(** X22: on a connector that has connections, [Open] followed by
    [Close] of the connection it returned leaves the registry, the
    connectors and the request log exactly as they were. *)
Theorem Open_then_Close_restores (D : string) (l : loc) (cl : Client)
    (ad : AdminClient) (n : Z) (w : world) :
  serves D l cl ad n w ->
  1 <= n < 2 ^ 31 - 1 ->
  exists c w',
    Open G be D w = (Returns (inl c), w')
    /\ Close be c w' = (Returns None, w).
Proof.
  intros (Hreg & k & Hk & Hdsn & Hinit & Hcl & Hce & Had & Hae & Hn) Hrange.
  unfold Open, newConnector. rewrite Hreg.
  unfold openDriverConn. rewrite Hk, Hinit, Hce, Hae, Hcl, Had.
  eexists _, _. split; [reflexivity|].
  unfold Close; simpl. rewrite lookup_insert_eq; simpl.
  rewrite Hn, AddInt32_incr by lia.
  rewrite AddInt32_decr by lia.
  replace (n + 1 - 1) with n by lia.
  destruct (Z.ltb_spec 0 n); [|lia].
  rewrite insert_insert_eq. rewrite <- Hn at 2.
  rewrite <- Hn at 1. rewrite set_connCount_same.
  rewrite (insert_id _ _ _ Hk). destruct w; reflexivity.
Qed.

(** X23: outside a transaction [abortBatch] always succeeds, discards
    the batch without sending anything, can be repeated, and a
    [runBatch] after it fails with FailedPrecondition. *)
Theorem abortBatch_discards (s : state) :
  inTransaction (self s) = false ->
  let s1 := {| self := conn.set_batch None (self s); history := history s |} in
  abortBatch P s = ((Some ResultNoRows, None), s1)
  /\ abortBatch P s1 = ((Some ResultNoRows, None), s1)
  /\ exists e, runBatch be P s1 = ((None, Some e), s1)
               /\ ErrCode e = codes.FailedPrecondition.
Proof.
  intros Htx. destruct s as [c h]; simpl in *.
  unfold abortBatch, runBatch, bind, this, ret, update; simpl.
  unfold inTransaction in *; simpl. 
  destruct (conn.tx c); [discriminate|].
  split; [reflexivity|]. split; [reflexivity|].
  eexists. split; reflexivity.
Qed.

(** X24: the staleness set with [SetReadOnlyStaleness] is the one used
    next: by the single-use read of a [QueryContext] outside a
    transaction, and by the read-only transaction of a [BeginTx]. *)
Theorem SetReadOnlyStaleness_is_used (tb : TimestampBound.t)
    (query : string) (args : list NamedValue) (stmt : Statement.t)
    (s : state) :
  conn.execSingleQuery (self s) = queryInSingleUse be ->
  (forall c, parseClientSideStatement P c query = (None, None)) ->
  prepareSpannerStmt P query args = (stmt, None) ->
  inTransaction (self s) = false ->
  inBatch (self s) = false ->
  let s1 := snd (SetReadOnlyStaleness tb s) in
  let cl := conn.client (self s) in
  history (snd (QueryContext P query args s1))
  = (history s ++ [Single_Query cl tb stmt])%list
  /\ history (snd (BeginTx be true s1))
     = (history s ++ [Client_ReadOnlyTransaction cl tb])%list.
Proof.
  intros Hf Hcs Hprep Htx Hbatch. destruct s as [c h]; simpl in *.
  assert (Hnotx : conn.tx c = None).
  { unfold inTransaction in Htx. destruct (conn.tx c); congruence. }
  split.
  - unfold QueryContext, SetReadOnlyStaleness, setReadOnlyStaleness, bind,
      this, ret, update, call; simpl.
    rewrite Hcs, Hprep, Hnotx, Hf. reflexivity.
  - unfold BeginTx, SetReadOnlyStaleness, setReadOnlyStaleness, bind,
      this, ret, update, call, request; simpl.
    unfold inTransaction, inBatch, InDDLBatch, InDMLBatch in *; simpl.
    rewrite Hnotx in *. simpl. rewrite Hbatch. reflexivity.
Qed.

End SessionProperties.

(** * The further properties on concrete inputs *)

Lemma extractConnectorConfig_decomposes_witness :
  exists cfg,
    extractConnectorConfig testlib
      "spanner://localhost:9010/projects/p/instances/i;usePlainText=true"
    = Returns (inl cfg)
    /\ connectorConfig.project cfg <> ""
    /\ (connectorConfig.instance cfg = "" -> connectorConfig.database cfg = "").
Proof.
  eexists. split; [vm_compute; reflexivity|].
  destruct (extractConnectorConfig_decomposes testlib
              "spanner://localhost:9010/projects/p/instances/i;usePlainText=true"
              _ ltac:(vm_compute; reflexivity))
    as (pre & post & params & _ & Hp & Hi & _).
  split; [exact Hp | exact Hi].
Defined.

Lemma Open_panics_without_projects_witness :
  connectors emptyWorld !! "" = None
  /\ Open testlib mockBackend "" emptyWorld
     = (Panics "runtime error: index out of range", emptyWorld).
Proof.
  split; [reflexivity|].
  apply (Open_panics_without_projects testlib mockBackend "" emptyWorld);
    [reflexivity|].
  intros a b H. destruct a; simpl in H; discriminate.
Defined.


Lemma extractConnectorParams_bindings_witness :
  exists params,
    extractConnectorParams testlib "UsePlainText=true;minSessions=5"
    = inl params
    /\ is_Some (params !! "useplaintext")
    /\ is_Some (params !! "minsessions").
Proof.
  eexists. split; [vm_compute; reflexivity|].
  destruct (extractConnectorParams_bindings testlib
              "UsePlainText=true;minSessions=5" _
              ltac:(vm_compute; reflexivity)) as (_ & Hc).
  split.
  - apply (Hc "UsePlainText=true" "UsePlainText" "true");
      [left; reflexivity | reflexivity].
  - apply (Hc "minSessions=5" "minSessions" "5");
      [right; left; reflexivity | reflexivity].
Defined.

Lemma extractConnectorParams_last_entry_wins_witness :
  exists params,
    extractConnectorParams testlib "credentials=a.json;Credentials=b.json"
    = inl params
    /\ params !! "credentials" = Some "b.json".
Proof.
  eexists. split; [vm_compute; reflexivity|].
  apply (extractConnectorParams_last_entry_wins testlib
           "credentials=a.json;Credentials=b.json" _
           ["credentials=a.json"] [] "Credentials=b.json" "Credentials"
           "b.json");
    [vm_compute; reflexivity | reflexivity | reflexivity |].
  intros kv' k' v' [].
Defined.

Lemma newConnector_registers_once_witness :
  newConnector testlib testDSN emptyWorld
  = (Returns (inl 0%nat), snd (newConnector testlib testDSN emptyWorld))
  /\ newConnector testlib testDSN (snd (newConnector testlib testDSN emptyWorld))
     = (Returns (inl 0%nat), snd (newConnector testlib testDSN emptyWorld)).
Proof.
  assert (H : newConnector testlib testDSN emptyWorld
              = (Returns (inl 0%nat),
                 snd (newConnector testlib testDSN emptyWorld)))
    by (vm_compute; reflexivity).
  split; [exact H|].
  exact (proj1 (proj2 (newConnector_registers_once testlib testDSN 0%nat
                         emptyWorld _ H))).
Defined.

Lemma Connect_initialised_once_witness :
  (connector.initClient <$> heap openedWorld !! 0%nat) = Some true
  /\ log (snd (Connect mockBackend 0%nat openedWorld)) = log openedWorld.
Proof.
  split; [vm_compute; reflexivity|].
  assert (Hk : exists k, heap openedWorld !! 0%nat = Some k
                         /\ connector.initClient k = true).
  { eexists. split; vm_compute; reflexivity. }
  destruct Hk as (k & Hk & Hinit).
  exact (proj1 (Connect_initialised_once mockBackend 0%nat k openedWorld
                  Hk Hinit)).
Defined.

Lemma Open_failure_is_sticky_witness :
  exists e w1,
    Open testlib unreachableBackend testDSN emptyWorld = (Returns (inr e), w1)
    /\ connectors w1 !! testDSN = Some 0%nat
    /\ Open testlib mockBackend testDSN w1 = (Returns (inr e), w1).
Proof.
  destruct (Open_failure_is_sticky testlib unreachableBackend testDSN
              testConfig (BackendError codes.Unknown "connection refused")
              emptyWorld eq_refl ltac:(vm_compute; reflexivity) eq_refl)
    as (w1 & Hopen & Hreg & _ & _ & Hagain).
  exists (BackendError codes.Unknown "connection refused"), w1.
  split; [exact Hopen|]. split; [exact Hreg | exact (Hagain mockBackend)].
Defined.

(** The last connection is closed a second time. *)
Lemma Close_tears_down_at_nonpositive_count_witness :
  let closed := snd (Close mockBackend (testConn 0%nat) openedWorld) in
  (connector.connCount <$> heap closed !! 0%nat) = Some 0
  /\ exists w',
       fst (Close mockBackend (testConn 0%nat) closed) = Returns None
       /\ snd (Close mockBackend (testConn 0%nat) closed) = w'
       /\ (connector.connCount <$> heap w' !! 0%nat) = Some (-1)
       /\ log w'
          = (log closed ++ [Client_Close 0%nat; AdminClient_Close 1%nat])%list.
Proof.
  intros closed. split; [vm_compute; reflexivity|].
  assert (Hk : exists k, heap closed !! conn.connector (testConn 0%nat) = Some k
                         /\ connector.connCount k = 0).
  { eexists. split; vm_compute; reflexivity. }
  destruct Hk as (k & Hk & Hn).
  destruct (Close_tears_down_at_nonpositive_count mockBackend (testConn 0%nat)
              k closed Hk ltac:(rewrite Hn; lia))
    as (w' & Hclose & _ & _ & Hcount & Hlog).
  exists w'. rewrite Hclose. rewrite Hn in Hcount.
  split; [reflexivity|]. split; [reflexivity|].
  split; [exact Hcount | exact Hlog].
Defined.

Lemma Open_then_Close_restores_witness :
  serves testDSN 0%nat 0%nat 1%nat 1 openedWorld
  /\ exists c w',
       Open testlib mockBackend testDSN openedWorld = (Returns (inl c), w')
       /\ Close mockBackend c w' = (Returns None, openedWorld).
Proof.
  assert (Hs : serves testDSN 0%nat 0%nat 1%nat 1 openedWorld).
  { split; [vm_compute; reflexivity|].
    eexists. split; [vm_compute; reflexivity|]. repeat split. }
  split; [exact Hs|].
  apply (Open_then_Close_restores testlib mockBackend testDSN 0%nat 0%nat
           1%nat 1 openedWorld Hs). lia.
Defined.

Lemma sum_is_wrapped_total_witness :
  sum [1; 2; 3] = 6 /\ sum [2 ^ 63 - 1; 1] = - 2 ^ 63.
Proof.
  split.
  - rewrite (proj2 (sum_is_wrapped_total [1; 2; 3])); [reflexivity|].
    simpl. lia.
  - rewrite (proj1 (sum_is_wrapped_total [2 ^ 63 - 1; 1])). reflexivity.
Defined.

Lemma runBatch_consumes_batch_witness :
  inTransaction ddlBatchConn = false
  /\ self (snd (runBatch mockBackend (mockDeps None) (testState ddlBatchConn)))
     = testConn 0%nat.
Proof.
  split; [reflexivity|].
  exact (proj1 (runBatch_consumes_batch mockBackend (mockDeps None)
                  (testState ddlBatchConn) eq_refl)
           _ eq_refl (or_introl eq_refl)).
Defined.

Lemma startBatchDML_guarded_witness :
  (exists e,
     startBatchDML (mockDeps None) (testState ddlBatchConn)
     = ((None, Some e), testState ddlBatchConn)
     /\ ErrCode e = codes.FailedPrecondition)
  /\ InDMLBatch
       (self (snd (startBatchDML (mockDeps None) (testState (testConn 0%nat)))))
     = true.
Proof.
  destruct (startBatchDML_guarded (mockDeps None) (testState ddlBatchConn))
    as (_ & Hfail & _).
  destruct (startBatchDML_guarded (mockDeps None) (testState (testConn 0%nat)))
    as (_ & _ & Hok).
  split.
  - apply Hfail; [reflexivity | discriminate].
  - exact (proj2 (Hok eq_refl eq_refl)).
Defined.

Lemma batch_and_transaction_stay_exclusive_witness :
  batchTxExclusive ddlBatchConn
  /\ batchTxExclusive
       (self (snd (BeginTx mockBackend false (testState ddlBatchConn))))
  /\ batchTxExclusive
       (self (snd (BeginTx mockBackend false (testState (testConn 0%nat))))).
Proof.
  assert (H1 : batchTxExclusive ddlBatchConn).
  { split; [left; reflexivity | right; reflexivity]. }
  assert (H2 : batchTxExclusive (testConn 0%nat)).
  { split; [exact I | left; reflexivity]. }
  split; [exact H1|]. split.
  - exact (proj2 (proj2 (batch_and_transaction_stay_exclusive mockBackend
                           (mockDeps None) (testState ddlBatchConn) H1))
             false).
  - exact (proj2 (proj2 (batch_and_transaction_stay_exclusive mockBackend
                           (mockDeps None) (testState (testConn 0%nat)) H2))
             false).
Defined.

Lemma DDL_batch_submits_once_in_order_witness :
  let P := mockDeps None in
  let s1 := snd (startBatchDDL (testState (testConn 0%nat))) in
  let s2 :=
    fold_left (fun st q => snd (ExecContext mockBackend P q [] st))
      [testCreate; testAlter] s1 in
  history s2 = []
  /\ history (snd (runBatch mockBackend P s2))
     = [UpdateDatabaseDdl 1%nat "projects/p/instances/i/databases/d"
          [testCreate; testAlter];
        Operation_Wait 1%nat].
Proof.
  intros P s1 s2.
  destruct (DDL_batch_submits_once_in_order mockBackend (mockDeps None)
              [testCreate; testAlter] (testState (testConn 0%nat)))
    as (Hh & _ & _ & Hrun).
  - intros c q Hin. reflexivity.
  - intros q [<-|[<-|[]]]; reflexivity.
  - reflexivity.
  - reflexivity.
  - split; [exact Hh | exact Hrun].
Defined.

Lemma DML_batch_submits_once_in_order_witness :
  let P := mockDeps None in
  let qs := [Statement.SQL testUpdate1; Statement.SQL testUpdate2] in
  let s1 := snd (startBatchDML P (testState (testConn 0%nat))) in
  let s2 :=
    fold_left (fun st q => snd (ExecContext mockBackend P q [] st)) qs s1 in
  history s2 = []
  /\ fst (runBatch mockBackend P s2) = (Some (result 2), None)
  /\ history (snd (runBatch mockBackend P s2))
     = [ReadWriteTransaction_BatchUpdate 0%nat [testUpdate1; testUpdate2]].
Proof.
  intros P qs s1 s2.
  destruct (DML_batch_submits_once_in_order mockBackend (mockDeps None)
              NewStatement qs (testState (testConn 0%nat)))
    as (Hh & _ & Hres & _ & Hrun).
  - intros c q Hin. reflexivity.
  - intros q [<-|[<-|[]]]; reflexivity.
  - intros q Hin. reflexivity.
  - reflexivity.
  - reflexivity.
  - discriminate.
  - split; [exact Hh|]. split; [exact Hres | exact Hrun].
Defined.


Lemma Apply_BufferWrite_complementary_witness :
  (exists e,
     BufferWrite (mockDeps None) [] (testState (testConn 0%nat))
     = (Some e, testState (testConn 0%nat))
     /\ ErrCode e = codes.FailedPrecondition)
  /\ history (snd (Apply mockBackend [{| mutationId := 1 |}] []
                     (testState (testConn 0%nat))))
     = [Client_Apply 0%nat [{| mutationId := 1 |}] []].
Proof.
  split.
  - exact (proj1 (proj2 (Apply_BufferWrite_complementary mockBackend
                           (mockDeps None) [] [] (testState (testConn 0%nat)))
                    eq_refl)).
  - rewrite (proj2 (proj2 (Apply_BufferWrite_complementary mockBackend
                             (mockDeps None) [{| mutationId := 1 |}] []
                             (testState (testConn 0%nat)))
                      eq_refl)).
    reflexivity.
Defined.

Lemma commit_timestamp_never_stale_witness :
  conn.commitTs
    (self (snd (QueryContext (mockDeps None) "SELECT 1" []
                  (testState committedConn))))
  = None
  /\ conn.commitTs
       (self (snd (ExecContext mockBackend (mockDeps None) testCreate []
                     (testState committedConn))))
     = None.
Proof.
  destruct (commit_timestamp_never_stale mockBackend (mockDeps None)
              "SELECT 1" [] (testState committedConn) eq_refl eq_refl)
    as (Hq & _).
  split; [exact Hq|].
  destruct (commit_timestamp_never_stale mockBackend (mockDeps None)
              testCreate [] (testState committedConn) eq_refl eq_refl)
    as (_ & He).
  destruct (conn.commitTs
              (self (snd (ExecContext mockBackend (mockDeps None) testCreate []
                            (testState committedConn))))) as [ts|] eqn:Hts;
    [|reflexivity].
  destruct (He ts eq_refl) as (ss & n & h' & _ & _ & _ & Hres).
  vm_compute in Hres. discriminate.
Defined.

Lemma Ping_ResetSession_only_ErrBadConn_witness :
  fst (ResetSession (mockDeps (Some ErrAborted))
         (testState (conn.set_tx (Some testBegun) (testConn 0%nat))))
  = Some ErrBadConn.
Proof.
  destruct (fst (ResetSession (mockDeps (Some ErrAborted))
                   (testState (conn.set_tx (Some testBegun) (testConn 0%nat)))))
    as [e|] eqn:Hr.
  - f_equal.
    exact (proj2 (Ping_ResetSession_only_ErrBadConn (mockDeps (Some ErrAborted))
                    (testState (conn.set_tx (Some testBegun) (testConn 0%nat)))
                    e) Hr).
  - vm_compute in Hr. discriminate.
Defined.

Lemma commit_timestamp_follows_transaction_witness :
  let ts := {| unixNano := 7 |} in
  CommitTimestamp (snd (rwClose (Some ts) None begunState))
  = ((ts, None), snd (rwClose (Some ts) None begunState))
  /\ inTransaction (self (snd (rwClose (Some ts) (Some ErrAborted) begunState)))
     = false.
Proof.
  intros ts.
  destruct (commit_timestamp_follows_transaction mockBackend
              (testState (testConn 0%nat)) begunState testBegun ts eq_refl)
    as ((_ & Hok) & Hfail).
  split; [exact Hok | exact (proj1 (Hfail ErrAborted))].
Defined.

Lemma ResetSession_restores_opened_connection_witness :
  noRetryOpened = (Returns (inl noRetryConn), snd noRetryOpened)
  /\ conn.retryAborts noRetryConn = false
  /\ fst (ResetSession (mockDeps None)
            (testState
               (conn.set_autocommitDMLMode PartitionedNonAtomic noRetryConn)))
     = None
  /\ conn.retryAborts
       (self (snd (ResetSession (mockDeps None)
                     (testState
                        (conn.set_autocommitDMLMode PartitionedNonAtomic
                           noRetryConn)))))
     = true.
Proof.
  assert (Hopen : noRetryOpened = (Returns (inl noRetryConn), snd noRetryOpened))
    by (vm_compute; reflexivity).
  split; [exact Hopen|]. split; [reflexivity|].
  destruct (ResetSession_restores_opened_connection testlib mockBackend
              (mockDeps None) noRetryDSN emptyWorld (snd noRetryOpened)
              noRetryConn
              (conn.set_autocommitDMLMode PartitionedNonAtomic noRetryConn)
              [] Hopen)
    as (Hreset & _).
  - repeat split.
  - unfold testState. rewrite Hreset. split; reflexivity.
Defined.

Lemma abortBatch_discards_witness :
  abortBatch (mockDeps None) (testState ddlBatchConn)
  = ((Some ResultNoRows, None), testState (testConn 0%nat))
  /\ exists e,
       runBatch mockBackend (mockDeps None) (testState (testConn 0%nat))
       = ((None, Some e), testState (testConn 0%nat))
       /\ ErrCode e = codes.FailedPrecondition.
Proof.
  destruct (abortBatch_discards mockBackend (mockDeps None)
              (testState ddlBatchConn) eq_refl) as (Habort & _ & Hrun).
  split; [exact Habort | exact Hrun].
Defined.

Lemma SetReadOnlyStaleness_is_used_witness :
  let s1 := snd (SetReadOnlyStaleness staleBound (testState (testConn 0%nat))) in
  history (snd (QueryContext (mockDeps None) "SELECT 1" [] s1))
  = [Single_Query 0%nat staleBound (NewStatement "SELECT 1")]
  /\ history (snd (BeginTx mockBackend true s1))
     = [Client_ReadOnlyTransaction 0%nat staleBound].
Proof.
  exact (SetReadOnlyStaleness_is_used mockBackend (mockDeps None) staleBound
           "SELECT 1" [] (NewStatement "SELECT 1")
           (testState (testConn 0%nat)) eq_refl (fun _ => eq_refl) eq_refl
           eq_refl eq_refl).
Defined.
